(** * MicroLib-Example: the mixin update pipeline and the Order model

    A shallow embedding of [src/models/mixins.js] (guards, mixin
    registry, [processUpdate]) and of the two order modules of the
    repository (status rules, [calcTotal], factories, mixin lists),
    followed by the properties established about them.

    Objects are immutable records of a property bag and the three
    symbol-keyed properties; a call returns [Ok] or [Throw]s.  The one
    assignment of the pipeline, [changes[PREVMODEL] = model], is threaded
    through [processUpdate] as explicit state.  Functions stored inside
    objects (the registered mixins and the callbacks they close over) are
    kept as first-order descriptions and run by interpreters.

    JavaScript numbers are IEEE 754 binary64 values, so they are embedded
    as Rocq's primitive floats: [+] is [PrimFloat.add], [a > b] is
    [PrimFloat.ltb b a], and a literal such as 99999.99 denotes the same
    nearest binary64 value in both languages. *)

From Stdlib Require Import List String Bool Floats Uint63 ZArith Lia.
Import ListNotations.

Set Warnings "-inexact-float,-register-all,-notation-for-abbreviation".

Local Open Scope string_scope.
Local Open Scope list_scope.

(** ** JavaScript values *)

(** The values that can sit in a property of a model.  Arrays and plain
    records are nested values; [VFun] is a method stored on the object
    (such as [update] or [completePayment]), of which only the name and
    the declared arity are kept. *)
Inductive value : Type :=
| VUndefined
| VNull
| VBool (b : bool)
| VNum (n : float)
| VStr (s : string)
| VArr (elems : list value)
| VRec (fields : list (string * value))
| VFun (name : string) (arity : nat).

(** Truthiness, as used by [!x], [x && y], [c ? a : b] and [if (x)]. *)
Definition truthy (v : value) : bool :=
  match v with
  | VUndefined | VNull => false
  | VBool b => b
  | VNum n => negb (PrimFloat.eqb n 0%float || PrimFloat.is_nan n)
  | VStr s => negb (String.eqb s EmptyString)
  | VArr _ | VRec _ | VFun _ _ => true
  end.

(** [a === b].  Arrays, records and functions are compared by reference in
    JavaScript; the embedding keeps no identities and answers [false] for
    them (every comparison in the modelled code has a string, [undefined]
    or [null] on one side). *)
Definition strict_eq (a b : value) : bool :=
  match a, b with
  | VUndefined, VUndefined => true
  | VNull, VNull => true
  | VBool x, VBool y => Bool.eqb x y
  | VNum x, VNum y => PrimFloat.eqb x y
  | VStr x, VStr y => String.eqb x y
  | _, _ => false
  end.

(** SameValueZero, the comparison of [Array.prototype.includes]. *)
Definition same_value_zero (a b : value) : bool :=
  match a, b with
  | VNum x, VNum y => PrimFloat.eqb x y || (PrimFloat.is_nan x && PrimFloat.is_nan y)
  | _, _ => strict_eq a b
  end.

Definition includes (l : list value) (v : value) : bool :=
  existsb (fun x => same_value_zero x v) l.

Definition typeof (v : value) : string :=
  match v with
  | VUndefined => "undefined"
  | VNull => "object"
  | VBool _ => "boolean"
  | VNum _ => "number"
  | VStr _ => "string"
  | VArr _ | VRec _ => "object"
  | VFun _ _ => "function"
  end.

Definition float_of_nat (n : nat) : float :=
  PrimFloat.of_uint63 (Uint63.of_Z (Z.of_nat n)).

(** ** Property bags

    The string-keyed own properties of an object, in insertion order,
    which is the order of [Object.keys] for names that are not array
    indices (no property of the modelled code is one).  The first binding
    of a key is the binding; a JavaScript object never holds a key twice.
    Properties inherited from [Object.prototype] are not modelled. *)
Definition bag : Type := list (string * value).

Fixpoint lookup (b : bag) (k : string) : value :=
  match b with
  | [] => VUndefined
  | (k', v) :: rest => if String.eqb k' k then v else lookup rest k
  end.

Definition keys (b : bag) : list string := map fst b.

Definition has_key (b : bag) (k : string) : bool :=
  existsb (String.eqb k) (keys b).

(** [b[k] = v]: overwrite in place when the key exists, append otherwise. *)
Fixpoint set (b : bag) (k : string) (v : value) : bag :=
  match b with
  | [] => [(k, v)]
  | (k', v') :: rest =>
      if String.eqb k' k then (k, v) :: rest else (k', v') :: set rest k v
  end.

(** [{...a, ...b}] on the string-keyed part: the keys of [a] keep their
    place, the values of [b] win, the new keys of [b] follow in order.
    That is the order in which JavaScript lists keys that are no array
    indices; an index-like key such as '7' is listed before all others
    there, so the order of the keys after a merge is that of the code
    only for objects without such keys. *)
Definition assign (a b : bag) : bag :=
  fold_left (fun acc k => set acc k (lookup b k)) (keys b) a.

(** [x[k]] on a nested value.  Reading a property of [undefined] or
    [null] raises a TypeError, reported as [None]. *)
Definition length_value (v : value) : value :=
  match v with
  | VStr s => VNum (float_of_nat (String.length s))
  | VArr l => VNum (float_of_nat (List.length l))
  | VFun _ a => VNum (float_of_nat a)
  | VRec f => lookup f "length"
  | _ => VUndefined
  end.

Definition get_prop (v : value) (k : string) : option value :=
  match v with
  | VUndefined | VNull => None
  | VRec f => Some (lookup f k)
  | _ => Some (if String.eqb k "length" then length_value v else VUndefined)
  end.

(** ** Outcomes

    A call either returns or throws.  Every [throw new Error(...)] of the
    source has a constructor carrying the data interpolated into its
    message; [TypeError] stands for the errors raised by the runtime
    itself. *)

(** A resolved property key: a name, or the [null] / [undefined] that a
    key-producing function may return. *)
Inductive key : Type :=
| KStr (s : string)
| KNull
| KUndefined.

Inductive error : Type :=
| MissingRequired (missing : list key)
| ReadonlyUpdate (mutations : list string)
| InvalidProperties (unknownProps : list string)
| InvalidValue (propKeys : list string)
| InvalidFormat (propKey : string)
| InvalidStatusChange
| NoItems
| ItemsInvalid
| Rejected (reason : string)
| TypeError (what : string).

Inductive result (A : Type) : Type :=
| Ok (a : A)
| Throw (e : error).

Arguments Ok {A} a.
Arguments Throw {A} e.

Definition bind {A B : Type} (r : result A) (k : A -> result B) : result B :=
  match r with
  | Ok a => k a
  | Throw e => Throw e
  end.

Notation "x <- r ;; k" := (bind r (fun x => k))
  (at level 100, r at next level, right associativity).

Definition of_option {A : Type} (what : string) (x : option A) : result A :=
  match x with
  | Some a => Ok a
  | None => Throw (TypeError what)
  end.

(** [l.map(f)] when [f] may throw: left to right, the first throw wins. *)
Fixpoint map_r {A B : Type} (f : A -> result B) (l : list A) : result (list B) :=
  match l with
  | [] => Ok []
  | a :: rest =>
      b <- f a ;;
      bs <- map_r f rest ;;
      Ok (b :: bs)
  end.

(** [l.filter(p)] when [p] may throw. *)
Fixpoint filter_r {A : Type} (p : A -> result bool) (l : list A) : result (list A) :=
  match l with
  | [] => Ok []
  | a :: rest =>
      keep <- p a ;;
      kept <- filter_r p rest ;;
      Ok (if keep then a :: kept else kept)
  end.

(** [l.every(p)] when [p] may throw: stops at the first [false]. *)
Fixpoint every_r {A : Type} (p : A -> result bool) (l : list A) : result bool :=
  match l with
  | [] => Ok true
  | a :: rest =>
      b <- p a ;;
      if b then every_r p rest else Ok false
  end.

(** [l.some(p)] when [p] may throw: stops at the first [true]. *)
Fixpoint some_r {A : Type} (p : A -> result bool) (l : list A) : result bool :=
  match l with
  | [] => Ok false
  | a :: rest =>
      b <- p a ;;
      if b then Ok true else some_r p rest
  end.

(** [l.reduce(f)] without an initial value: a TypeError on the empty
    array, otherwise a left fold seeded with the first element. *)
Definition reduce1 {A : Type} (f : A -> A -> A) (l : list A) : result A :=
  match l with
  | [] => Throw (TypeError "Reduce of empty array with no initial value")
  | a :: rest => Ok (fold_left f rest a)
  end.

(** *** Messages

    An array interpolated into a template literal is joined with commas;
    [null] and [undefined] elements print as the empty string. *)
Fixpoint join (l : list string) : string :=
  match l with
  | [] => EmptyString
  | [s] => s
  | s :: rest => s ++ "," ++ join rest
  end.

Definition key_text (k : key) : string :=
  match k with
  | KStr s => s
  | KNull | KUndefined => EmptyString
  end.

(** The name under which [o[k]] looks a resolved key up. *)
Definition key_name (k : key) : string :=
  match k with
  | KStr s => s
  | KNull => "null"
  | KUndefined => "undefined"
  end.

Definition message (e : error) : string :=
  match e with
  | MissingRequired missing =>
      "missing required properties: " ++ join (map key_text missing)
  | ReadonlyUpdate mutations =>
      "cannot update readonly properties: " ++ join mutations
  | InvalidProperties unknownProps => "invalid properties: " ++ join unknownProps
  | InvalidValue propKeys => "invalid value for " ++ join propKeys
  | InvalidFormat propKey => "invalid " ++ propKey
  | InvalidStatusChange => "invalid status change"
  | NoItems => "order contains no items"
  | ItemsInvalid => "order items invalid"
  | Rejected reason => reason
  | TypeError what => what
  end.

(** ** Property names and status values of the order modules
    (part_002, lines 14-32 and 347-367) *)

Definition orderItems : string := "orderItems".
Definition customerInfo : string := "customerInfo".
Definition shippingAddress : string := "shippingAddress".
Definition billingAddress : string := "billingAddress".
Definition proofOfDelivery : string := "proofOfDelivery".
Definition creditCardNumber : string := "creditCardNumber".
Definition paymentAuthorization : string := "paymentAuthorization".
Definition signatureRequired : string := "signatureRequired".
Definition orderStatus : string := "orderStatus".
Definition orderTotal : string := "orderTotal".
Definition orderNo : string := "orderNo".
Definition MAXORDER : float := 99999.99%float.

Module OrderStatus.
Definition PENDING : value := VStr "PENDING".
Definition APPROVED : value := VStr "APPROVED".
Definition SHIPPING : value := VStr "SHIPPING".
Definition COMPLETE : value := VStr "COMPLETE".
Definition CANCELED : value := VStr "CANCELED".
(** [Object.values(OrderStatus)] *)
Definition values : list value := [PENDING; APPROVED; SHIPPING; COMPLETE; CANCELED].
End OrderStatus.

(** ** Closures handed to the guards

    A guard stores itself inside the object it guards, so the functions
    that the order modules pass to the guard factories are represented by
    name, with the values they close over, and run by the interpreters
    below. *)

(** Key-producing functions: [freezeOnApproval(propKey)],
    [freezeOnCompletion(propKey)], [requiredForCompletion(propKey)] of the
    order modules and [checkFormat(propKey, expr)] of mixins.js.  A
    pattern [expr] is represented by the predicate [RegEx.test(expr, _)]. *)
Inductive keyFn : Type :=
| freezeOnApproval (propKey : string)
| freezeOnCompletion (propKey : string)
| requiredForCompletion (propKey : string)
| checkFormat (propKey : string) (expr : value -> bool).

(** An element of a guard's [...propKeys]: a name, or a function that
    returns one. *)
Inductive propKeyArg : Type :=
| Name (k : string)
| Computed (f : keyFn).

(** [isValid] callbacks: [statusChangeValid], closed over the
    [invalidStatusChanges] array of its module; each entry
    [invalidStatusChange(from, to)] is kept as the pair [(from, to)]. *)
Inductive isValidFn : Type :=
| statusChangeValid (invalidStatusChanges : list (value * value)).

(** [update] callbacks: [(o, propVal) => ({ orderTotal: calcTotal(propVal) })]. *)
Inductive updaterFn : Type :=
| recalcTotal.

(** The [validation] typedef (mixins.js:250-260).  A pattern is kept as
    its match predicate. *)
Record validation : Type := {
  propKey : string;
  isValid : option isValidFn;
  values : option (list value);
  regex : option (value -> bool);
  typeOf : option string;
  maxnum : option float;
  maxlen : option float
}.

(** The [updater] typedef (mixins.js:342-346). *)
Record updater : Type := {
  updKey : string;
  update : updaterFn
}.

(** A mixin function, as produced by one of the seven guard factories. *)
Inductive mixin : Type :=
| EncryptProperties (propKeys : list propKeyArg)
| FreezeProperties (isUpdate : bool) (propKeys : list propKeyArg)
| RequireProperties (propKeys : list propKeyArg)
| HashPasswords (hash : value -> value) (propKeys : list propKeyArg)
| AllowProperties (isUpdate : bool) (propKeys : list propKeyArg)
| ValidateProperties (validations : list validation)
| UpdateProperties (isUpdate : bool) (updaters : list updater).

(** A [Map] from [Function.name] to mixin function, in insertion order. *)
Definition mixinSet : Type := list (string * mixin).

(** [mixinType] (mixins.js:30-33). *)
Inductive mixinType : Type :=
| pre
| post.

(** ** Objects

    A model, or a set of changes: the string-keyed properties together
    with the three symbol-keyed ones, [PREVMODEL] and the two mixin sets.
    Symbol keys are skipped by [Object.keys] and copied by spread. *)
Inductive obj : Type := Obj {
  props : bag;
  prevModel : option obj;
  preMixins : option mixinSet;
  postMixins : option mixinSet
}.

Definition get (o : obj) (k : string) : value := lookup (props o) k.

(** [Object.keys(o)] *)
Definition Object_keys (o : obj) : list string := keys (props o).

Definition or_else {A : Type} (x y : option A) : option A :=
  match x with
  | Some _ => x
  | None => y
  end.

(** [{ ...a, ...b }] *)
Definition spread (a b : obj) : obj :=
  {| props := assign (props a) (props b);
     prevModel := or_else (prevModel b) (prevModel a);
     preMixins := or_else (preMixins b) (preMixins a);
     postMixins := or_else (postMixins b) (postMixins a) |}.

(** [{ ...o, ...partial }] for a partial object without symbol keys. *)
Definition extend (o : obj) (partial : bag) : obj :=
  {| props := assign (props o) partial;
     prevModel := prevModel o;
     preMixins := preMixins o;
     postMixins := postMixins o |}.

(** [o[PREVMODEL] = model] on an extensible object, as an object
    literal is.  On a frozen or sealed [o] the assignment throws a
    TypeError (the module is strict); such change sets are outside this
    model. *)
Definition set_prevModel (o model : obj) : obj :=
  {| props := props o;
     prevModel := Some model;
     preMixins := preMixins o;
     postMixins := postMixins o |}.

(** The plain object with the given properties and no symbol keys. *)
Definition plain (b : bag) : obj :=
  {| props := b; prevModel := None; preMixins := None; postMixins := None |}.

(** ** The order modules' helpers (part_002) *)

(** [o[PREVMODEL].orderStatus] *)
Definition prev_orderStatus (o : obj) : result value :=
  match prevModel o with
  | Some p => Ok (get p orderStatus)
  | None => Throw (TypeError "Cannot read properties of undefined (reading 'orderStatus')")
  end.

(** [o[PREVMODEL]?.orderStatus] *)
Definition prev_orderStatus_opt (o : obj) : value :=
  match prevModel o with
  | Some p => get p orderStatus
  | None => VUndefined
  end.

(** part_002:34-49 and 373-387 *)
Definition checkItems (items : value) : result (list value) :=
  if negb (truthy items) then Throw NoItems
  else
    let _items := match items with VArr l => l | _ => [items] end in
    ok <- (if Nat.ltb 0 (List.length _items)
           then every_r (fun i =>
                  itemId <- of_option "Cannot read properties of null (reading 'itemId')"
                              (get_prop i "itemId") ;;
                  if truthy itemId
                  then price <- of_option "Cannot read properties of null (reading 'price')"
                                  (get_prop i "price") ;;
                       Ok (String.eqb (typeof price) "number")
                  else Ok false) _items
           else Ok false) ;;
    if ok then Ok _items else Throw ItemsInvalid.

(** [item.price] as a number.  Behind [checkItems] every price is a
    number (lemma [checkItems_prices]); the default is never reached. *)
Definition price_of (item : value) : float :=
  match get_prop item "price" with
  | Some (VNum p) => p
  | _ => PrimFloat.nan
  end.

(** part_002:51-56 and 393-398 *)
Definition calcTotal (items : value) : result float :=
  _items <- checkItems items ;;
  Ok (fold_left (fun total item => PrimFloat.add total (price_of item)) _items 0%float).

(** part_002:64-96 and 406-440, and [checkFormat] of mixins.js:442-447 *)
Definition call_keyFn (f : keyFn) (o : obj) : result key :=
  match f with
  | freezeOnApproval propKey =>
      s <- prev_orderStatus o ;;
      Ok (if negb (strict_eq s OrderStatus.PENDING) then KStr propKey else KNull)
  | freezeOnCompletion propKey =>
      s <- prev_orderStatus o ;;
      Ok (if includes [OrderStatus.COMPLETE; OrderStatus.CANCELED] s
          then KStr propKey else KNull)
  | requiredForCompletion propKey =>
      if negb (truthy (get o orderStatus)) then Ok KUndefined
      else Ok (if strict_eq (get o orderStatus) OrderStatus.COMPLETE
               then KStr propKey else KUndefined)
  | checkFormat propKey expr =>
      if truthy (get o propKey) && negb (expr (get o propKey))
      then Throw (InvalidFormat propKey)
      else Ok (KStr propKey)
  end.

(** part_002:98-100 and 442-444 *)
Definition invalidStatusChange (from to : value) (o : obj) (propVal : value) : result bool :=
  if strict_eq propVal to
  then s <- prev_orderStatus o ;; Ok (strict_eq s from)
  else Ok false.

(** part_002:118-125 and 462-470 *)
Definition call_isValidFn (f : isValidFn) (o : obj) (propVal : value) : result bool :=
  match f with
  | statusChangeValid invalidStatusChanges =>
      if negb (truthy (prev_orderStatus_opt o)) then Ok true
      else
        bad <- some_r (fun i => invalidStatusChange (fst i) (snd i) o propVal)
                 invalidStatusChanges ;;
        if bad then Throw InvalidStatusChange else Ok true
  end.

(** part_002:259-261 and 477-479 *)
Definition call_updaterFn (f : updaterFn) (o : obj) (propVal : value) : result bag :=
  match f with
  | recalcTotal =>
      total <- calcTotal propVal ;;
      Ok [(orderTotal, VNum total)]
  end.

(** ** mixins.js *)

Section Mixins.

(** [encrypt] of './utils', which is outside the modelled core: any
    function on values. *)
Variable encrypt : value -> value.

(** ToNumber on a string, array, record or function, which goes through
    the runtime's number parser and printer: any function to numbers. *)
Variable parse_number : value -> float.

Definition ToNumber (v : value) : float :=
  match v with
  | VUndefined => PrimFloat.nan
  | VNull => 0%float
  | VBool b => if b then 1%float else 0%float
  | VNum n => n
  | VStr _ | VArr _ | VRec _ | VFun _ _ => parse_number v
  end.

(** [v > x] for a number [v]. *)
Definition gt (v : float) (x : value) : bool := PrimFloat.ltb (ToNumber x) v.

Definition mixinSets (type : mixinType) (o : obj) : option mixinSet :=
  match type with
  | pre => preMixins o
  | post => postMixins o
  end.

(** [{ ...o, [mixinSets[type]]: mixinSet }] *)
Definition with_mixinSet (type : mixinType) (o : obj) (s : mixinSet) : obj :=
  match type with
  | pre => {| props := props o; prevModel := prevModel o;
              preMixins := Some s; postMixins := postMixins o |}
  | post => {| props := props o; prevModel := prevModel o;
               preMixins := preMixins o; postMixins := Some s |}
  end.

(** [mixinSet.has(name)] *)
Definition has (s : mixinSet) (name : string) : bool :=
  existsb (fun e => String.eqb (fst e) name) s.

(** [mixinSet.get(name)] *)
Fixpoint find_mixin (s : mixinSet) (name : string) : option mixin :=
  match s with
  | [] => None
  | (n, m) :: rest => if String.eqb n name then Some m else find_mixin rest name
  end.

(** mixins.js:81-97.  [cb] is the mixin function that the thunk of the
    source builds.  Both values of [mixinType] have a set, so the
    'invalid mixin type' branch has no input.  The [Map] found on [o] is
    extended in place in the source and is therefore shared with [o];
    only the symbol-keyed sets are affected by that. *)
Definition updateMixins (type : mixinType) (o : obj) (name : string) (cb : mixin) : obj :=
  let mixinSet :=
    match mixinSets type o with
    | Some s => s
    | None => []
    end in
  if negb (has mixinSet name)
  then with_mixinSet type o (mixinSet ++ [(name, cb)])
  else o.

(** mixins.js:106-108 *)
Definition getDynamicProps (o : obj) (propKeys : list propKeyArg) : result (list key) :=
  map_r (fun k =>
           match k with
           | Computed f => call_keyFn f o
           | Name n => Ok (KStr n)
           end) propKeys.

(** [keys.includes(key)] for a string [key] *)
Definition keys_include (ks : list key) (k : string) : bool :=
  existsb (fun x => match x with KStr s => String.eqb s k | _ => false end) ks.

(** The body shared by [encryptProps] and [hashPwds]:
    [keys.map(key => o[key] ? { [key]: f(o[key]) } : {}).reduce((p, c) => ({ ...c, ...p }))] *)
Definition transformProps (f : value -> value) (o : obj) (ks : list key) : result bag :=
  reduce1 (fun p c => assign c p)
    (map (fun k =>
            if truthy (get o (key_name k))
            then [(key_name k, f (get o (key_name k)))]
            else []) ks).

(** mixins.js:115-136 *)
Definition encryptProperties (propKeys : list propKeyArg) (o : obj) : result obj :=
  ks <- getDynamicProps o propKeys ;;
  let mixins := updateMixins pre o "encryptProperties" (EncryptProperties propKeys) in
  encrypted <- transformProps encrypt o ks ;;
  Ok (extend mixins encrypted).

(** mixins.js:144-167 *)
Definition freezeProperties (isUpdate : bool) (propKeys : list propKeyArg) (o : obj)
  : result obj :=
  _ <- (if isUpdate
        then ks <- getDynamicProps o propKeys ;;
             let mutations := filter (keys_include ks) (Object_keys o) in
             if Nat.ltb 0 (List.length mutations)
             then Throw (ReadonlyUpdate mutations)
             else Ok tt
        else Ok tt) ;;
  Ok (updateMixins pre o "freezeProperties" (FreezeProperties true propKeys)).

(** mixins.js:174-181 *)
Definition requireProperties (propKeys : list propKeyArg) (o : obj) : result obj :=
  ks <- getDynamicProps o propKeys ;;
  let missing := filter (fun k => negb (truthy (get o (key_name k)))) ks in
  if Nat.ltb 0 (List.length missing)
  then Throw (MissingRequired missing)
  else Ok o.

(** mixins.js:188-209 *)
Definition hashPasswords (hash : value -> value) (propKeys : list propKeyArg) (o : obj)
  : result obj :=
  ks <- getDynamicProps o propKeys ;;
  let mixins := updateMixins pre o "hashPasswords" (HashPasswords hash propKeys) in
  hashed <- transformProps hash o ks ;;
  Ok (extend mixins hashed).

(** mixins.js:211 *)
Definition internalPropList : list key := [].

(** mixins.js:218-241 *)
Definition allowProperties (isUpdate : bool) (propKeys : list propKeyArg) (o : obj)
  : result obj :=
  _ <- (if isUpdate
        then ks <- getDynamicProps o propKeys ;;
             let allowList := ks ++ internalPropList in
             let unknownProps :=
               filter (fun k => negb (keys_include allowList k)) (Object_keys o) in
             if Nat.ltb 0 (List.length unknownProps)
             then Throw (InvalidProperties unknownProps)
             else Ok tt
        else Ok tt) ;;
  Ok (updateMixins pre o "allowProperties" (AllowProperties true propKeys)).

(** [validator.tests] (mixins.js:282-289), in the order of
    [Object.keys(tests)].  Each entry is [None] when [v[key]] is absent
    or falsy, that is, when the test is not enabled. *)
Definition test_isValid (v : validation) (o : obj) (propVal : value) : option (result bool) :=
  match isValid v with
  | Some f => Some (call_isValidFn f o propVal)
  | None => None
  end.

Definition test_values (v : validation) (o : obj) (propVal : value) : option (result bool) :=
  match values v with
  | Some l => Some (Ok (includes l propVal))
  | None => None
  end.

(** A pattern is kept as the predicate [RegEx.test(expr, _)] for an
    [expr] that is a regular expression or the name of one in [RegEx];
    for any other string [RegEx.test] throws a TypeError, and such rules
    are outside this model. *)
Definition test_regex (v : validation) (o : obj) (propVal : value) : option (result bool) :=
  match regex v with
  | Some expr => Some (Ok (expr propVal))
  | None => None
  end.

Definition test_typeof (v : validation) (o : obj) (propVal : value) : option (result bool) :=
  match typeOf v with
  | Some t => if truthy (VStr t)
              then Some (Ok (String.eqb t (typeof propVal)))
              else None
  | None => None
  end.

Definition test_maxnum (v : validation) (o : obj) (propVal : value) : option (result bool) :=
  match maxnum v with
  | Some n => if truthy (VNum n) then Some (Ok (gt n propVal)) else None
  | None => None
  end.

(** [propVal] is truthy where this runs, so [propVal.length] does not
    throw. *)
Definition test_maxlen (v : validation) (o : obj) (propVal : value) : option (result bool) :=
  match maxlen v with
  | Some n => if truthy (VNum n)
              then Some (Ok (gt n (length_value propVal)))
              else None
  | None => None
  end.

Definition validator_tests
  : list (validation -> obj -> value -> option (result bool)) :=
  [test_isValid; test_values; test_regex; test_typeof; test_maxnum; test_maxlen].

(** [validator.isValid] (mixins.js:297-305) *)
Definition validator_isValid (v : validation) (o : obj) (propVal : value) : result bool :=
  every_r (fun test =>
             match test v o propVal with
             | Some r => r
             | None => Ok true
             end) validator_tests.

(** mixins.js:312-333 *)
Definition validateProperties (validations : list validation) (o : obj) : result obj :=
  invalid <- filter_r (fun v =>
                         let propVal := get o (propKey v) in
                         if negb (truthy propVal) then Ok false
                         else ok <- validator_isValid v o propVal ;; Ok (negb ok))
               validations ;;
  if Nat.ltb 0 (List.length invalid)
  then Throw (InvalidValue (map propKey invalid))
  else Ok (updateMixins post o "validateProperties" (ValidateProperties validations)).

(** [updateProps] of mixins.js:353-363 *)
Definition updateProps (isUpdate : bool) (updaters : list updater) (o : obj) : result bag :=
  if isUpdate
  then
    let updates := filter (fun u => truthy (get o (updKey u))) updaters in
    if Nat.ltb 0 (List.length updates)
    then parts <- map_r (fun u => call_updaterFn (update u) o (get o (updKey u))) updates ;;
         reduce1 (fun p c => assign p c) parts
    else Ok []
  else Ok [].

(** mixins.js:352-376 *)
Definition updateProperties (isUpdate : bool) (updaters : list updater) (o : obj)
  : result obj :=
  let mixins := updateMixins pre o "updateProperties" (UpdateProperties true updaters) in
  updated <- updateProps isUpdate updaters o ;;
  Ok (extend mixins updated).

(** Calling a stored mixin function. *)
Definition apply_mixin (m : mixin) (o : obj) : result obj :=
  match m with
  | EncryptProperties propKeys => encryptProperties propKeys o
  | FreezeProperties isUpdate propKeys => freezeProperties isUpdate propKeys o
  | RequireProperties propKeys => requireProperties propKeys o
  | HashPasswords hash propKeys => hashPasswords hash propKeys o
  | AllowProperties isUpdate propKeys => allowProperties isUpdate propKeys o
  | ValidateProperties validations => validateProperties validations o
  | UpdateProperties isUpdate updaters => updateProperties isUpdate updaters o
  end.

(** The exported factories (mixins.js:383-440). *)
Definition requirePropertiesMixin (propKeys : list propKeyArg) : mixin :=
  RequireProperties propKeys.
Definition freezePropertiesMixin (propKeys : list propKeyArg) : mixin :=
  FreezeProperties false propKeys.
Definition encryptPropertiesMixin (propKeys : list propKeyArg) : mixin :=
  EncryptProperties propKeys.
Definition hashPasswordsMixin (hash : value -> value) (propKeys : list propKeyArg) : mixin :=
  HashPasswords hash propKeys.
Definition allowPropertiesMixin (propKeys : list propKeyArg) : mixin :=
  AllowProperties false propKeys.
Definition validatePropertiesMixin (validations : list validation) : mixin :=
  ValidateProperties validations.
Definition updatePropertiesMixin (updaters : list updater) : mixin :=
  UpdateProperties false updaters.

(** Modelled from the spec: [compose] of './utils' is not among the
    sources.  Section 4.3: "compose all its descriptors' functions
    left-to-right (each consumes the previous one's output)"; a throw
    ends the chain. *)
Fixpoint compose (funcs : list mixin) (initVal : obj) : result obj :=
  match funcs with
  | [] => Ok initVal
  | f :: rest => val <- apply_mixin f initVal ;; compose rest val
  end.

(** [mixinSet.values()] *)
Definition mixin_values (s : mixinSet) : list mixin := map snd s.

(** The two argument objects of [processUpdate], as its caller holds
    them. *)
Record heap : Type := {
  model : obj;
  changes : obj
}.

(** The pre phase, lines 61-63. *)
Definition run_pre (model changes : obj) : result obj :=
  match preMixins model with
  | Some s => compose (mixin_values s) changes
  | None => Ok changes
  end.

(** The post phase, lines 67-69. *)
Definition run_post (model updated : obj) : result obj :=
  match postMixins model with
  | Some s => compose (mixin_values s) updated
  | None => Ok updated
  end.

(** mixins.js:58-70.  The assignment of line 59 writes into the
    caller's [changes]; nothing writes into [model]. *)
Definition processUpdate (h : heap) : result obj * heap :=
  let h' := {| model := model h;
               changes := set_prevModel (changes h) (model h) |} in
  (updates <- run_pre (model h') (changes h') ;;
   let updated := spread (model h') updates in
   run_post (model h') updated,
   h').

End Mixins.

(** ** The order modules (part_002) *)

(** What both modules pass to the guard factories. *)
Definition requiredKeys : list propKeyArg :=
  [ Name customerInfo; Name orderItems; Name creditCardNumber;
    Name shippingAddress; Name billingAddress;
    Computed (requiredForCompletion proofOfDelivery) ].

Definition frozenKeys : list propKeyArg :=
  [ Name customerInfo;
    Computed (freezeOnApproval orderItems);
    Computed (freezeOnApproval creditCardNumber);
    Computed (freezeOnApproval shippingAddress);
    Computed (freezeOnApproval billingAddress);
    Computed (freezeOnCompletion orderStatus) ].

Definition totalUpdaters : list updater :=
  [ {| updKey := orderItems; update := recalcTotal |} ].

Definition statusRule (invalidStatusChanges : list (value * value)) : validation :=
  {| propKey := orderStatus;
     isValid := Some (statusChangeValid invalidStatusChanges);
     values := Some OrderStatus.values;
     regex := None; typeOf := None; maxnum := None; maxlen := None |}.

Definition totalRule : validation :=
  {| propKey := orderTotal;
     isValid := None; values := None; regex := None; typeOf := None;
     maxnum := Some MAXORDER;
     maxlen := None |}.

Definition orderValidations (invalidStatusChanges : list (value * value)) : list validation :=
  [ statusRule invalidStatusChanges; totalRule ].

Definition allowedKeys : list propKeyArg :=
  [ Name orderItems; Name customerInfo; Name shippingAddress; Name billingAddress;
    Name proofOfDelivery; Name creditCardNumber; Name paymentAuthorization;
    Name signatureRequired; Name orderStatus; Name orderTotal ].

(** [{ a, b = dflt }] in a destructuring parameter *)
Definition with_default (v dflt : value) : value :=
  match v with
  | VUndefined => dflt
  | _ => v
  end.

(** What the order modules hold under the name [checkFormat]: they import
    it from './mixins' (part_002, lines 10 and 312), and the mixins.js of
    the sources declares a function of that name (lines 442-447) without
    exporting it.  The binding is [undefined], and calling it throws. *)
Definition checkFormat_import : value -> string -> result unit :=
  fun _ _ => Throw (TypeError "checkFormat is not a function").

(** The module whose default export is the [Order] specification
    (part_002, lines 1-302). *)
Module Order.

(** Lines 102-113.  In the third entry the source reads [APPROVED] off
    the string constant [orderStatus], not off the [OrderStatus] table;
    a string has no such property and the access yields [undefined]. *)
Definition invalidStatusChanges : list (value * value) :=
  [ (OrderStatus.APPROVED, OrderStatus.PENDING);
    (OrderStatus.SHIPPING, OrderStatus.PENDING);
    (OrderStatus.SHIPPING,
      match get_prop (VStr orderStatus) "APPROVED" with
      | Some v => v
      | None => VUndefined
      end);
    (OrderStatus.PENDING, OrderStatus.SHIPPING);
    (OrderStatus.PENDING, OrderStatus.COMPLETE) ].

(** Lines 189-236.  The adapters and [uuid] come from the factory's
    dependencies; an awaited adapter that rejects makes [createOrder]
    reject, which is [Throw] here.  [checkFormat] is what this module
    imports under that name from './mixins' (the mixins.js of the
    sources declares a [checkFormat] but exports none). *)
Definition createOrder
    (checkFormat : value -> string -> result unit)
    (validateAddress : value -> result value)
    (authorizePayment : value -> value -> value -> float -> result value)
    (uuid : value)
    (input : bag) : result obj :=
  let customerInfo' := lookup input customerInfo in
  let orderItems' := lookup input orderItems in
  let shippingAddress' := lookup input shippingAddress in
  let billingAddress' := lookup input billingAddress in
  let creditCardNumber' := lookup input creditCardNumber in
  let signatureRequired' := with_default (lookup input signatureRequired) (VBool false) in
  _ <- checkItems orderItems' ;;
  _ <- checkFormat creditCardNumber' "creditCard" ;;
  shipAddr <- validateAddress shippingAddress' ;;
  total <- calcTotal orderItems' ;;
  payAuth <- authorizePayment customerInfo' creditCardNumber' billingAddress' total ;;
  total' <- calcTotal orderItems' ;;
  Ok (plain
        [ ("completePayment", VFun "completePayment" 0);
          ("refundPayment", VFun "refundPayment" 0);
          ("shipOrder", VFun "shipOrder" 0);
          ("trackShipment", VFun "trackShipment" 0);
          ("verifyDelivery", VFun "verifyDelivery" 0);
          (customerInfo, customerInfo');
          (orderItems, orderItems');
          (creditCardNumber, creditCardNumber');
          (billingAddress, billingAddress');
          (signatureRequired, signatureRequired');
          (proofOfDelivery, VNull);
          (shippingAddress, shipAddr);
          (paymentAuthorization, payAuth);
          (orderTotal, VNum total');
          (orderStatus, OrderStatus.PENDING);
          (orderNo, uuid) ]).

(** Lines 238-287 *)
Definition mixins : list mixin :=
  [ requirePropertiesMixin requiredKeys;
    freezePropertiesMixin frozenKeys;
    updatePropertiesMixin totalUpdaters;
    validatePropertiesMixin (orderValidations invalidStatusChanges);
    allowPropertiesMixin allowedKeys ].

(** The sets that these mixins register on a model: each guard other
    than [requireProperties] stores its update-mode self under its
    function name (lemma [Order_mixins_register]). *)
Definition preSet : mixinSet :=
  [ ("freezeProperties", FreezeProperties true frozenKeys);
    ("updateProperties", UpdateProperties true totalUpdaters);
    ("allowProperties", AllowProperties true allowedKeys) ].

Definition postSet : mixinSet :=
  [ ("validateProperties", ValidateProperties (orderValidations invalidStatusChanges)) ].

End Order.

(** The module that exports [orderFactory] and [orderMixins]
    (part_002, lines 304-924). *)
Module OrderWorkflow.

(** Lines 446-457 *)
Definition invalidStatusChanges : list (value * value) :=
  [ (OrderStatus.APPROVED, OrderStatus.PENDING);
    (OrderStatus.SHIPPING, OrderStatus.PENDING);
    (OrderStatus.SHIPPING, OrderStatus.APPROVED);
    (OrderStatus.PENDING, OrderStatus.SHIPPING);
    (OrderStatus.PENDING, OrderStatus.COMPLETE) ].

(** Lines 735-762, [orderFactory(dependencies)] applied to an input;
    [uuid] is the value of [dependencies.uuid()], [checkFormat] the
    import from './mixins'. *)
Definition createOrder
    (checkFormat : value -> string -> result unit)
    (uuid : value)
    (input : bag) : result obj :=
  let customerInfo' := lookup input customerInfo in
  let orderItems' := lookup input orderItems in
  let shippingAddress' := lookup input shippingAddress in
  let billingAddress' := lookup input billingAddress in
  let creditCardNumber' := lookup input creditCardNumber in
  let signatureRequired' := with_default (lookup input signatureRequired) (VBool false) in
  _ <- checkItems orderItems' ;;
  _ <- checkFormat creditCardNumber' "creditCard" ;;
  total <- calcTotal orderItems' ;;
  Ok (plain
        [ (customerInfo, customerInfo');
          (orderItems, orderItems');
          (creditCardNumber, creditCardNumber');
          (billingAddress, billingAddress');
          (signatureRequired, signatureRequired');
          (shippingAddress, shippingAddress');
          (orderTotal, VNum total);
          (orderStatus, OrderStatus.PENDING);
          (orderNo, uuid);
          ("update", VFun "update" 1) ]).

(** Lines 764-793 *)
Definition orderMixins : list mixin :=
  [ requirePropertiesMixin requiredKeys;
    freezePropertiesMixin frozenKeys;
    updatePropertiesMixin totalUpdaters;
    validatePropertiesMixin (orderValidations invalidStatusChanges) ].

Definition preSet : mixinSet :=
  [ ("freezeProperties", FreezeProperties true frozenKeys);
    ("updateProperties", UpdateProperties true totalUpdaters) ].

Definition postSet : mixinSet :=
  [ ("validateProperties", ValidateProperties (orderValidations invalidStatusChanges)) ].

End OrderWorkflow.

(** ** Vocabulary of the properties *)

(** The five forbidden edges, as the specification lists them. *)
Inductive illegal_edge : string -> string -> Prop :=
| approved_to_pending : illegal_edge "APPROVED" "PENDING"
| shipping_to_pending : illegal_edge "SHIPPING" "PENDING"
| shipping_to_approved : illegal_edge "SHIPPING" "APPROVED"
| pending_to_shipping : illegal_edge "PENDING" "SHIPPING"
| pending_to_complete : illegal_edge "PENDING" "COMPLETE".

(** The item [i] is a record with a truthy [itemId] whose [price] field
    is the number [p]. *)
Definition priced (i : value) (p : float) : Prop :=
  exists fields,
    i = VRec fields /\ truthy (lookup fields "itemId") = true /\
    lookup fields "price" = VNum p.

(** The sum of a sequence of prices, taken from the left starting at 0
    (floating-point addition does not associate). *)
Definition sum_of (prices : list float) : float :=
  fold_left PrimFloat.add prices 0%float.

(** An item of a valid [orderItems] sequence: a record with a truthy
    [itemId] and a numeric [price]. *)
Definition valid_item (i : value) : Prop :=
  exists fields p,
    i = VRec fields /\ truthy (lookup fields "itemId") = true /\
    lookup fields "price" = VNum p.

Definition valid_items (items : list value) : Prop :=
  items <> [] /\ Forall valid_item items.

(** The stable logical name of a guard ([Function.name] of the inner
    factory), its phase, and the function it stores for later updates. *)
Definition mixin_name (m : mixin) : string :=
  match m with
  | EncryptProperties _ => "encryptProperties"
  | FreezeProperties _ _ => "freezeProperties"
  | RequireProperties _ => "requireProperties"
  | HashPasswords _ _ => "hashPasswords"
  | AllowProperties _ _ => "allowProperties"
  | ValidateProperties _ => "validateProperties"
  | UpdateProperties _ _ => "updateProperties"
  end.

Definition mixin_phase (m : mixin) : mixinType :=
  match m with
  | ValidateProperties _ => post
  | _ => pre
  end.

Definition update_mode (m : mixin) : mixin :=
  match m with
  | FreezeProperties _ ks => FreezeProperties true ks
  | AllowProperties _ ks => AllowProperties true ks
  | UpdateProperties _ us => UpdateProperties true us
  | _ => m
  end.

Definition is_require (m : mixin) : bool :=
  match m with
  | RequireProperties _ => true
  | _ => false
  end.

(** A model carrying the mixin sets of one of the two order modules. *)
Definition carries (S : obj) (preS postS : mixinSet) : Prop :=
  preMixins S = Some preS /\ postMixins S = Some postS.

Definition order_model (S : obj) : Prop :=
  carries S Order.preSet Order.postSet \/
  carries S OrderWorkflow.preSet OrderWorkflow.postSet.

(** Entries of a pre-phase set as the guards register them: the function
    stored under [name] is the update-mode guard of that name (the
    transforms [encrypt] and [hash] need at least one key to return). *)
Definition registered_pre (e : string * mixin) : Prop :=
  fst e = mixin_name (snd e) /\
  match snd e with
  | EncryptProperties ks => ks <> []
  | HashPasswords _ ks => ks <> []
  | FreezeProperties b _ => b = true
  | AllowProperties b _ => b = true
  | UpdateProperties b _ => b = true
  | RequireProperties _ | ValidateProperties _ => False
  end.

(** A status rule as the order modules write it: attached to
    [orderStatus], with no edge from a status to itself (no value is
    strictly equal to both ends of an edge). *)
Definition status_rule_ok (v : validation) : Prop :=
  match isValid v with
  | Some (statusChangeValid edges) =>
      propKey v = orderStatus /\
      forall e x, In e edges ->
                  strict_eq x (snd e) = true -> strict_eq x (fst e) = false
  | None => True
  end.

Definition registered_post (e : string * mixin) : Prop :=
  fst e = "validateProperties" /\
  exists validations,
    snd e = ValidateProperties validations /\ Forall status_rule_ok validations.

Section Snapshots.

Variable encrypt : value -> value.
Variable parse_number : value -> float.

(** A guard of the chain [funcs] throws [e] when the chain, started on
    [x], reaches it. *)
Definition guard_throws (funcs : list mixin) (x : obj) (e : error) : Prop :=
  exists before g after y,
    funcs = before ++ g :: after /\
    compose encrypt parse_number before x = Ok y /\
    apply_mixin encrypt parse_number g y = Throw e.

Definition pre_guard_throws (h : heap) (e : error) : Prop :=
  exists s,
    preMixins (model h) = Some s /\
    guard_throws (mixin_values s) (set_prevModel (changes h) (model h)) e.

Definition post_guard_throws (h : heap) (e : error) : Prop :=
  exists s updates,
    postMixins (model h) = Some s /\
    run_pre encrypt parse_number (model h) (set_prevModel (changes h) (model h))
      = Ok updates /\
    guard_throws (mixin_values s) (spread (model h) updates) e.

(** A snapshot: a model whose hidden sets are the ones the guards
    registered and which passes its own post phase, as every model does
    that the post phase has returned. *)
Definition snapshot (S : obj) : Prop :=
  (forall s, preMixins S = Some s -> Forall registered_pre s) /\
  (forall s, postMixins S = Some s -> Forall registered_post s) /\
  exists S0, run_post encrypt parse_number S S = Ok S0.

End Snapshots.

(** ** Sample data *)

Definition sample_encrypt : value -> value := fun v => VArr [VStr "enc"; v].
Definition sample_parse : value -> float := fun _ => PrimFloat.nan.

(** The order of the repository's test: two items, 90.22 and 87.60. *)
Definition sample_items : list value :=
  [ VRec [("itemId", VStr "item1"); ("price", VNum 90.22%float)];
    VRec [("itemId", VStr "item2"); ("price", VNum 87.60%float)] ].

Definition sample_input : bag :=
  [ (customerInfo, VStr "user1");
    (orderItems, VArr sample_items);
    (shippingAddress, VStr "9612 Park Ave S, Bloomington, MN 55408");
    (billingAddress, VStr "9612 Park Ave S, Bloomington, MN 55408");
    (creditCardNumber, VStr "378282246310005") ].

(** The same input without [billingAddress]. *)
Definition sample_input_no_billing : bag :=
  [ (customerInfo, VStr "user1");
    (orderItems, VArr sample_items);
    (shippingAddress, VStr "9612 Park Ave S, Bloomington, MN 55408");
    (creditCardNumber, VStr "378282246310005") ].

Definition sample_props (status : value) (total : float) : bag :=
  [ (customerInfo, VStr "user1");
    (orderItems, VArr sample_items);
    (creditCardNumber, VStr "378282246310005");
    (billingAddress, VStr "9612 Park Ave S, Bloomington, MN 55408");
    (signatureRequired, VBool false);
    (shippingAddress, VStr "9612 Park Ave S, Bloomington, MN 55408");
    (orderTotal, VNum total);
    (orderStatus, status);
    (orderNo, VStr "order-1") ].

(** A model of the first module in the given status. *)
Definition sample_order (status : value) : obj :=
  {| props := sample_props status 177.82%float;
     prevModel := None;
     preMixins := Some Order.preSet;
     postMixins := Some Order.postSet |}.

(** A model of the second module in the given status. *)
Definition sample_workflow_order (status : value) : obj :=
  {| props := sample_props status 177.82%float;
     prevModel := None;
     preMixins := Some OrderWorkflow.preSet;
     postMixins := Some OrderWorkflow.postSet |}.

Definition new_items : list value :=
  [ VRec [("itemId", VStr "item3"); ("price", VNum 12.5%float)];
    VRec [("itemId", VStr "item4"); ("price", VNum 30%float)] ].

(** An update of a shipped order that proposes a new shipping address. *)
Definition frozen_update : heap :=
  {| model := sample_order OrderStatus.SHIPPING;
     changes := plain [(shippingAddress, VStr "1 Main St")] |}.

(** An update of a pending order that proposes new items, and the
    snapshot it returns. *)
Definition items_update : heap :=
  {| model := sample_order OrderStatus.PENDING;
     changes := plain [(orderItems, VArr new_items)] |}.

Definition sample_updated : obj :=
  match fst (processUpdate sample_encrypt sample_parse items_update) with
  | Ok S' => S'
  | Throw _ => plain []
  end.

(** A merged snapshot whose total is exactly 99999.99. *)
Definition ceiling_order : obj :=
  {| props := sample_props OrderStatus.PENDING 99999.99%float;
     prevModel := Some (sample_order OrderStatus.PENDING);
     preMixins := Some Order.preSet;
     postMixins := Some Order.postSet |}.

(** A merged snapshot whose total is above the ceiling. *)
Definition oversize_order : obj :=
  {| props := sample_props OrderStatus.PENDING 9000087.82%float;
     prevModel := Some (sample_order OrderStatus.PENDING);
     preMixins := Some Order.preSet;
     postMixins := Some Order.postSet |}.

(** An object on which a require guard passes. *)
Definition named_customer : obj := plain [(customerInfo, VStr "user1")].

(** A merged snapshot whose total is above the ceiling and whose status
    went from SHIPPING back to PENDING. *)
Definition oversize_reverted_order : obj :=
  {| props := sample_props OrderStatus.PENDING 9000087.82%float;
     prevModel := Some (sample_order OrderStatus.SHIPPING);
     preMixins := Some Order.preSet;
     postMixins := Some Order.postSet |}.

(** ** Further code of the modules *)

(** part_002:130-138 and 484-492 *)
Definition readyToDelete (m : obj) : result obj :=
  if negb (includes [OrderStatus.COMPLETE; OrderStatus.CANCELED] (get m orderStatus))
  then Throw (Rejected "order status incomplete")
  else Ok m.

(** [encryptPersonalInfo] and [GlobalMixins] of mixins.js:452-468.  The
    patterns [RegEx.email] and [RegEx.phone] are taken as their match
    predicates ([RegEx.test] resolves the names 'email' and 'phone' to
    them). *)
Definition encryptPersonalInfo (email phone : value -> bool) : mixin :=
  EncryptProperties
    [ Name "lastName"; Name "address";
      Computed (checkFormat "email" email);
      Computed (checkFormat "phone" phone);
      Computed (checkFormat "mobile" phone);
      Name "creditCard"; Name "ccv"; Name "ssn" ].

Definition GlobalMixins (email phone : value -> bool) : list mixin :=
  [ encryptPersonalInfo email phone ].

(** ** Further vocabulary *)

Definition mem (k : string) (l : list string) : bool := existsb (String.eqb k) l.

(** The keys that are frozen for an update whose predecessor has the
    given status, as the field-freezing policy words it. *)
Definition approval_frozen : list string :=
  [orderItems; creditCardNumber; shippingAddress; billingAddress].

Definition frozen_now (status : value) (k : string) : bool :=
  String.eqb k customerInfo
  || (negb (strict_eq status OrderStatus.PENDING) && mem k approval_frozen)
  || (includes [OrderStatus.COMPLETE; OrderStatus.CANCELED] status
      && String.eqb k orderStatus).

(** The names of the first module's allow-list. *)
Definition allowedNames : list string :=
  [ orderItems; customerInfo; shippingAddress; billingAddress; proofOfDelivery;
    creditCardNumber; paymentAuthorization; signatureRequired; orderStatus;
    orderTotal ].

(** The property [k] of [o] after a transform [f] of the truthy
    properties named by the resolved keys [ks]. *)
Definition transformed (f : value -> value) (ks : list key) (o : obj) (k : string) : value :=
  if existsb (fun x => String.eqb (key_name x) k) ks && truthy (get o k)
  then f (get o k)
  else get o k.

Section Sequences.

Variable encrypt : value -> value.
Variable parse_number : value -> float.

(** A run of updates, each applied to the snapshot the one before it
    returned. *)
Fixpoint apply_updates (S : obj) (cs : list obj) : result obj :=
  match cs with
  | [] => Ok S
  | c :: rest =>
      S1 <- fst (processUpdate encrypt parse_number {| model := S; changes := c |}) ;;
      apply_updates S1 rest
  end.

End Sequences.

(** A change set as a caller writes it: no symbol-keyed property. *)
Definition plain_changes (c : obj) : Prop :=
  prevModel c = None /\ preMixins c = None /\ postMixins c = None.

(** The properties that [encryptPersonalInfo] names. *)
Definition personalNames : list string :=
  ["lastName"; "address"; "email"; "phone"; "mobile"; "creditCard"; "ccv"; "ssn"].

(** [checkFormat(k, expr)] lets [o] pass: the property is absent or falsy,
    or it matches. *)
Definition format_ok (expr : value -> bool) (o : obj) (k : string) : bool :=
  negb (truthy (get o k)) || expr (get o k).

(** *** When an update of an order model is accepted

    The conditions below are read off the guards: the transition check
    and the membership test of the status rule, the ceiling of the total
    rule, and what the pre phase hands to the merge. *)

(** No entry of the module's table matches the step from [prev] to [v];
    a predecessor without status allows any step. *)
Definition transition_accepted (edges : list (value * value)) (prev v : value) : bool :=
  negb (truthy prev)
  || negb (existsb (fun e => strict_eq v (snd e) && strict_eq prev (fst e)) edges).

Definition status_accepted (edges : list (value * value)) (prev v : value) : bool :=
  negb (truthy v)
  || (transition_accepted edges prev v && includes OrderStatus.values v).

Section Acceptance.

Variable parse_number : value -> float.

Definition total_accepted (v : value) : bool :=
  negb (truthy v) || gt parse_number MAXORDER v.

(** The string-keyed properties that the merge produces: the model's,
    overlaid with the changes and, when truthy [orderItems] are proposed,
    with the recomputed total. *)
Definition merged_props (S c : obj) : result bag :=
  if truthy (get c orderItems)
  then total <- calcTotal (get c orderItems) ;;
       Ok (assign (props S) (assign (props c) [(orderTotal, VNum total)]))
  else Ok (assign (props S) (props c)).

(** [with_allow] tells the first module, whose pre phase ends with the
    allow guard, from the second. *)
Definition update_accepted
    (with_allow : bool) (edges : list (value * value)) (S c : obj) : bool :=
  match filter (frozen_now (get S orderStatus)) (Object_keys c) with
  | _ :: _ => false
  | [] =>
      match merged_props S c with
      | Throw _ => false
      | Ok merged =>
          (negb with_allow || forallb (fun k => mem k allowedNames) (Object_keys c))
          && status_accepted edges (get S orderStatus) (lookup merged orderStatus)
          && total_accepted (lookup merged orderTotal)
      end
  end.

End Acceptance.

(** The module of an order model: whether its pre phase has the allow
    guard, and its table of invalid status changes. *)
Definition module_of (S : obj) (with_allow : bool) (edges : list (value * value)) : Prop :=
  (carries S Order.preSet Order.postSet /\
   with_allow = true /\ edges = Order.invalidStatusChanges) \/
  (carries S OrderWorkflow.preSet OrderWorkflow.postSet /\
   with_allow = false /\ edges = OrderWorkflow.invalidStatusChanges).

(** The keys that validation reports for an object: [orderStatus] when it
    is truthy and not a status value, [orderTotal] when it is truthy and
    not below the ceiling. *)
Definition invalid_keys (parse_number : value -> float) (o : obj) : list string :=
  (if truthy (get o orderStatus) && negb (includes OrderStatus.values (get o orderStatus))
   then [orderStatus] else [])
  ++ (if truthy (get o orderTotal) && negb (gt parse_number MAXORDER (get o orderTotal))
      then [orderTotal] else []).

(** ** Dispatch on the status in the first module (part_002:140-171)

    A method of an order hands the order to the adapter that the factory
    was given under the same name.  An action is modelled by its outcome
    together with the methods it called, in the order of the calls. *)

Section Dispatch.

(** What the function [name] does when it is called with the order as
    [this]: it resolves (no caller here looks at the value) or rejects
    with an error. *)
Variable invoke : string -> obj -> result value.

Definition run : Type := (result unit * list string)%type.

(** [String(error)] of an error object *)
Definition error_text (e : error) : string :=
  let name := match e with TypeError _ => "TypeError" | _ => "Error" end in
  if String.eqb (message e) EmptyString then name else name ++ ": " ++ message e.

(** [await order[method]()] *)
Definition call_method (order : obj) (method : string) : run :=
  match get order method with
  | VFun name _ => (_ <- invoke name order ;; Ok tt, [method])
  | _ => (Throw (TypeError ("order." ++ method ++ " is not a function")), [])
  end.

(** [await a; await b]: [b] runs when [a] resolved. *)
Definition and_then (a b : run) : run :=
  match fst a with
  | Ok _ => (fst b, snd a ++ snd b)
  | Throw e => (Throw e, snd a)
  end.

(** Lines 140-147 *)
Definition shipOrder (order : obj) : run :=
  let r := and_then (call_method order "completePayment") (call_method order "shipOrder") in
  match fst r with
  | Ok _ => r
  | Throw error => (Throw (Rejected (error_text error)), snd r)
  end.

(** Lines 149-159 *)
Definition trackShipment (order : obj) : run := call_method order "trackShipment".
Definition refundPayment (order : obj) : run := call_method order "refundPayment".
Definition verifyDelivery (order : obj) : run := call_method order "verifyDelivery".

(** Lines 161-167: the table, by its own keys. *)
Definition OrderActions (key : string) : option (obj -> run) :=
  if String.eqb key "PENDING" then Some (fun _ => (Ok tt, []))
  else if String.eqb key "APPROVED" then Some shipOrder
  else if String.eqb key "SHIPPING" then Some trackShipment
  else if String.eqb key "CANCELED" then Some refundPayment
  else if String.eqb key "COMPLETE" then Some verifyDelivery
  else None.

(** Lines 169-171.  The result is [None] for a status that is not a
    string among the table's own keys: the lookup then depends on key
    coercion and on the prototype of the table, which are left out. *)
Definition handleStatusChange (order : obj) : option run :=
  match get order orderStatus with
  | VStr key =>
      match OrderActions key with
      | Some action => Some (action order)
      | None => None
      end
  | _ => None
  end.

(** The call of [method] on [order] resolved. *)
Definition resolved (order : obj) (method : string) : Prop :=
  exists name arity v, get order method = VFun name arity /\ invoke name order = Ok v.

End Dispatch.

(** An approved order of the first module with the methods that
    [createOrder] gives it, and adapters that resolve. *)
Definition approved_order : obj :=
  extend (sample_order OrderStatus.APPROVED)
    [ ("completePayment", VFun "completePayment" 0);
      ("shipOrder", VFun "shipOrder" 0) ].

Definition sample_invoke : string -> obj -> result value := fun _ _ => Ok VUndefined.

(** ** Further sample data *)

(** The change set of [frozen_update] as the freeze guard receives it. *)
Definition address_change : obj :=
  set_prevModel (changes frozen_update) (model frozen_update).

(** An object with the properties of a complete, delivered order and no
    sets, and what the first module's mixins make of it. *)
Definition delivered_order : obj :=
  plain (sample_props OrderStatus.COMPLETE 177.82%float
           ++ [(proofOfDelivery, VStr "signed")]).

Definition delivered_registered : obj :=
  match compose sample_encrypt sample_parse Order.mixins delivered_order with
  | Ok o' => o'
  | Throw _ => plain []
  end.

(** A shipped order of the first module that is set back to APPROVED. *)
Definition reapproval : heap :=
  {| model := sample_order OrderStatus.SHIPPING;
     changes := plain [(orderStatus, OrderStatus.APPROVED)] |}.

Definition reapproved_order : obj :=
  match fst (processUpdate sample_encrypt sample_parse reapproval) with
  | Ok S' => S'
  | Throw _ => plain []
  end.

(** A complete order that receives its proof of delivery. *)
Definition delivery_proof : obj := plain [(proofOfDelivery, VStr "signed")].

Definition completed_with_proof : obj :=
  match apply_updates sample_encrypt sample_parse (sample_order OrderStatus.COMPLETE)
          [delivery_proof] with
  | Ok S' => S'
  | Throw _ => plain []
  end.


(** * Properties *)

(** ** Property bags *)

Lemma lookup_set_same (b : bag) (k : string) (v : value) :
  lookup (set b k v) k = v.
Proof.
  induction b as [|[k' v'] rest IH]; simpl.
  - now rewrite String.eqb_refl.
  - destruct (String.eqb k' k) eqn:E; simpl.
    + now rewrite String.eqb_refl.
    + now rewrite E.
Qed.

Lemma lookup_set_other (b : bag) (k k' : string) (v : value) :
  k <> k' -> lookup (set b k v) k' = lookup b k'.
Proof.
  intros Hne. induction b as [|[k0 v0] rest IH]; simpl.
  - destruct (String.eqb_spec k k'); [contradiction | reflexivity].
  - destruct (String.eqb_spec k0 k) as [->|Hk0]; simpl.
    + destruct (String.eqb_spec k k'); [contradiction | reflexivity].
    + destruct (String.eqb_spec k0 k'); [reflexivity | exact IH].
Qed.

Lemma lookup_fold_set (b : bag) (ks : list string) (a : bag) (k : string) :
  lookup (fold_left (fun acc k0 => set acc k0 (lookup b k0)) ks a) k
  = if existsb (String.eqb k) ks then lookup b k else lookup a k.
Proof.
  revert a. induction ks as [|k0 ks IH]; intros a; simpl; [reflexivity|].
  rewrite IH. destruct (existsb (String.eqb k) ks); [now rewrite orb_true_r|].
  rewrite orb_false_r. destruct (String.eqb_spec k k0) as [->|Hne].
  - apply lookup_set_same.
  - apply lookup_set_other. congruence.
Qed.

(** Reading a merged bag: the right operand wins where it has the key. *)
Lemma lookup_assign (a b : bag) (k : string) :
  lookup (assign a b) k = if has_key b k then lookup b k else lookup a k.
Proof. apply lookup_fold_set. Qed.

Lemma assign_nil_r (a : bag) : assign a [] = a.
Proof. reflexivity. Qed.

Lemma has_key_In (b : bag) (k : string) :
  has_key b k = true <-> In k (keys b).
Proof.
  unfold has_key. rewrite existsb_exists. split.
  - intros [x [Hin Heq]]. apply String.eqb_eq in Heq. now subst.
  - intros Hin. exists k. split; [assumption | apply String.eqb_refl].
Qed.

Lemma has_key_false_lookup (b : bag) (k : string) :
  has_key b k = false -> lookup b k = VUndefined.
Proof.
  unfold has_key, keys. induction b as [|[k' v] rest IH]; simpl; [reflexivity|].
  rewrite orb_false_iff. intros [Hk Hrest].
  rewrite String.eqb_sym in Hk. rewrite Hk. auto.
Qed.

Lemma strict_eq_VStr (v : value) (s : string) :
  strict_eq v (VStr s) = true <-> v = VStr s.
Proof.
  destruct v; simpl; split; try discriminate; intros H.
  - apply String.eqb_eq in H. now subst.
  - injection H as ->. apply String.eqb_refl.
Qed.

Lemma strict_eq_VStr_false (v : value) (s : string) :
  v <> VStr s -> strict_eq v (VStr s) = false.
Proof.
  intros Hne. destruct (strict_eq v (VStr s)) eqn:E; [|reflexivity].
  apply strict_eq_VStr in E. contradiction.
Qed.

(** ** Floating-point comparison *)

Lemma SFltb_asym (x y : spec_float) : SFltb x y = true -> SFltb y x = false.
Proof.
  unfold SFltb.
  destruct x as [sx|sx| |sx mx ex], y as [sy|sy| |sy my ey]; cbn;
    try destruct sx; try destruct sy; try discriminate; try reflexivity;
    rewrite (Z.compare_antisym ex ey);
    destruct (Z.compare ex ey); cbn; try discriminate; try reflexivity;
    pose proof (Pos.compare_cont_antisym mx my Eq) as A; cbn in A; rewrite <- A;
    destruct (Pos.compare_cont Eq mx my); cbn; try discriminate; reflexivity.
Qed.

Lemma ltb_asym (x y : float) :
  PrimFloat.ltb x y = true -> PrimFloat.ltb y x = false.
Proof. rewrite !FloatAxioms.ltb_spec. apply SFltb_asym. Qed.

(** A number above [MAXORDER] is neither zero nor NaN: it is truthy. *)
Lemma above_MAXORDER_nonzero (t : float) :
  PrimFloat.ltb MAXORDER t = true ->
  PrimFloat.eqb t 0%float = false /\ PrimFloat.is_nan t = false.
Proof.
  unfold PrimFloat.is_nan. rewrite FloatAxioms.ltb_spec, !FloatAxioms.eqb_spec.
  change (Prim2SF 0%float) with (S754_zero false).
  let v := eval vm_compute in (Prim2SF MAXORDER) in
  change (Prim2SF MAXORDER) with v.
  destruct (Prim2SF t) as [s|s| |s m e]; unfold SFltb, SFeqb; cbn;
    try destruct s; try discriminate; intros _; split; try reflexivity.
  rewrite Z.compare_refl, Pos.compare_cont_refl. reflexivity.
Qed.

Section Properties.

Variable encrypt : value -> value.
Variable parse_number : value -> float.

Local Notation apply_mixin := (apply_mixin encrypt parse_number).
Local Notation compose := (compose encrypt parse_number).
Local Notation run_pre := (run_pre encrypt parse_number).
Local Notation run_post := (run_post encrypt parse_number).
Local Notation processUpdate := (processUpdate encrypt parse_number).
Local Notation validateProperties := (validateProperties parse_number).
Local Notation validator_isValid := (validator_isValid parse_number).

(** ** The update pipeline *)

Lemma compose_app (l1 l2 : list mixin) (x : obj) :
  compose (l1 ++ l2) x = (y <- compose l1 x ;; compose l2 y).
Proof.
  revert x. induction l1 as [|f l1 IH]; intros x; simpl; [reflexivity|].
  destruct (apply_mixin f x); simpl; [apply IH | reflexivity].
Qed.

(** The first throw of a chain is the outcome of the chain. *)
Lemma guard_throws_compose (funcs : list mixin) (x : obj) (e : error) :
  guard_throws encrypt parse_number funcs x e -> compose funcs x = Throw e.
Proof.
  intros (before & g & after & y & -> & Hbefore & Hg).
  rewrite compose_app, Hbefore. simpl. now rewrite Hg.
Qed.

(** And a chain that throws has a guard that threw. *)
Lemma compose_throw_guard (funcs : list mixin) (x : obj) (e : error) :
  compose funcs x = Throw e -> guard_throws encrypt parse_number funcs x e.
Proof.
  revert x. induction funcs as [|f rest IH]; intros x; simpl; [discriminate|].
  destruct (apply_mixin f x) as [y|e'] eqn:Hf; simpl.
  - intros H. destruct (IH _ H) as (before & g & after & z & -> & Hb & Hg).
    exists (f :: before), g, after, z. simpl. rewrite Hf. simpl. auto.
  - intros [= ->]. exists [], f, rest, x. simpl. auto.
Qed.

(** C1. Atomicity of [processUpdate]: when a guard of the pre phase or
    of the post phase throws, the call throws that same error, returns
    no snapshot, and leaves the properties of the current model as they
    were. *)
Theorem processUpdate_atomic (h : heap) (e : error) :
  pre_guard_throws encrypt parse_number h e \/
  post_guard_throws encrypt parse_number h e ->
  fst (processUpdate h) = Throw e /\
  (forall S', fst (processUpdate h) <> Ok S') /\
  props (model (snd (processUpdate h))) = props (model h).
Proof.
  intros H.
  assert (Hthrow : fst (processUpdate h) = Throw e).
  { unfold processUpdate, run_pre, run_post; simpl.
    destruct H as [(s & Hs & Hg) | (s & updates & Hs & Hpre & Hg)].
    - rewrite Hs. now rewrite (guard_throws_compose _ _ _ Hg).
    - unfold run_pre in Hpre. rewrite Hpre. simpl. rewrite Hs.
      apply (guard_throws_compose _ _ _ Hg). }
  split; [exact Hthrow|]. split; [|reflexivity].
  intros S' HS'. rewrite Hthrow in HS'. discriminate.
Qed.


(** ** Status transitions *)

Lemma truthy_VStr (s : string) : s <> EmptyString -> truthy (VStr s) = true.
Proof.
  intros Hs. simpl. destruct (String.eqb_spec s EmptyString); [contradiction | reflexivity].
Qed.

(** The second module rejects exactly the five listed edges. *)
Lemma OrderWorkflow_status_edges (o prev : obj) (from to : string) :
  prevModel o = Some prev ->
  get prev orderStatus = VStr from ->
  from <> EmptyString ->
  (illegal_edge from to ->
   call_isValidFn (statusChangeValid OrderWorkflow.invalidStatusChanges) o (VStr to)
   = Throw InvalidStatusChange) /\
  (~ illegal_edge from to ->
   call_isValidFn (statusChangeValid OrderWorkflow.invalidStatusChanges) o (VStr to)
   = Ok true).
Proof.
  intros Hprev Hfrom Hne.
  unfold call_isValidFn, prev_orderStatus_opt. rewrite Hprev, Hfrom.
  rewrite (truthy_VStr _ Hne). simpl.
  unfold invalidStatusChange, prev_orderStatus. rewrite Hprev, Hfrom. simpl.
  split.
  - intros Hill. inversion Hill; subst; reflexivity.
  - intros Hlegal.
    repeat match goal with
           | |- context [String.eqb ?a ?b] =>
               destruct (String.eqb_spec a b); subst; simpl
           end;
      try reflexivity; try discriminate;
      exfalso; apply Hlegal; constructor.
Qed.

(** The first module lets SHIPPING -> APPROVED through: its third entry
    compares the proposed status with [undefined]. *)
Lemma Order_status_shipping_to_approved (o prev : obj) :
  prevModel o = Some prev ->
  get prev orderStatus = OrderStatus.SHIPPING ->
  call_isValidFn (statusChangeValid Order.invalidStatusChanges) o OrderStatus.APPROVED
  = Ok true.
Proof.
  intros Hprev Hfrom.
  unfold call_isValidFn, prev_orderStatus_opt. rewrite Hprev, Hfrom. reflexivity.
Qed.

(** C2, at the failing input. A model of the first module in status
    SHIPPING accepts the change to APPROVED, one of the five edges the
    status rule is to reject; the same update is rejected with
    'invalid status change' by the second module. *)
Theorem Order_accepts_shipping_to_approved :
  (exists S',
      fst (processUpdate
             {| model := sample_order OrderStatus.SHIPPING;
                changes := plain [(orderStatus, OrderStatus.APPROVED)] |}) = Ok S' /\
      get S' orderStatus = OrderStatus.APPROVED) /\
  fst (processUpdate
         {| model := sample_workflow_order OrderStatus.SHIPPING;
            changes := plain [(orderStatus, OrderStatus.APPROVED)] |})
  = Throw InvalidStatusChange.
Proof.
  split.
  - eexists. split; vm_compute; reflexivity.
  - vm_compute. reflexivity.
Qed.

(** ** What a guard that returns leaves in place *)

Lemma updateMixins_props (type : mixinType) (o : obj) (name : string) (cb : mixin) :
  props (updateMixins type o name cb) = props o /\
  prevModel (updateMixins type o name cb) = prevModel o.
Proof.
  unfold updateMixins. destruct (negb (has _ name)); destruct type; split; reflexivity.
Qed.

Lemma freezeProperties_ok (b : bool) (ks : list propKeyArg) (o o' : obj) :
  freezeProperties b ks o = Ok o' ->
  props o' = props o /\ prevModel o' = prevModel o.
Proof.
  unfold freezeProperties. intros H.
  destruct (if b then _ else _) as [[]|]; simpl in H; [|discriminate].
  injection H as <-. apply updateMixins_props.
Qed.

(** In update mode a freeze guard returns only when no key of the object
    is among the resolved frozen keys. *)
Lemma freezeProperties_update_ok (ks : list propKeyArg) (o o' : obj) :
  freezeProperties true ks o = Ok o' ->
  exists resolved,
    getDynamicProps o ks = Ok resolved /\
    filter (keys_include resolved) (Object_keys o) = [].
Proof.
  unfold freezeProperties. intros H.
  destruct (getDynamicProps o ks) as [resolved|]; simpl in H; [|discriminate].
  exists resolved. split; [reflexivity|].
  destruct (filter (keys_include resolved) (Object_keys o)); [reflexivity|].
  simpl in H. discriminate.
Qed.

Lemma allowProperties_ok (b : bool) (ks : list propKeyArg) (o o' : obj) :
  allowProperties b ks o = Ok o' ->
  props o' = props o /\ prevModel o' = prevModel o.
Proof.
  unfold allowProperties. intros H.
  destruct (if b then _ else _) as [[]|]; simpl in H; [|discriminate].
  injection H as <-. apply updateMixins_props.
Qed.

Lemma validateProperties_ok (vs : list validation) (o o' : obj) :
  validateProperties vs o = Ok o' ->
  props o' = props o /\ prevModel o' = prevModel o.
Proof.
  unfold validateProperties. intros H.
  destruct (filter_r _ vs) as [invalid|]; simpl in H; [|discriminate].
  destruct (Nat.ltb 0 (List.length invalid)); [discriminate|].
  injection H as <-. apply updateMixins_props.
Qed.

Lemma requireProperties_ok (ks : list propKeyArg) (o o' : obj) :
  requireProperties ks o = Ok o' -> o' = o.
Proof.
  unfold requireProperties. intros H.
  destruct (getDynamicProps o ks) as [resolved|]; simpl in H; [|discriminate].
  destruct (Nat.ltb 0 _); [discriminate|]. now injection H.
Qed.

(** The order modules' updater: nothing when [orderItems] is falsy,
    otherwise [orderTotal] is set to the total of the proposed items. *)
Lemma updateProperties_total (o o' : obj) :
  updateProperties true totalUpdaters o = Ok o' ->
  prevModel o' = prevModel o /\
  ((truthy (get o orderItems) = false /\ props o' = props o) \/
   (exists total,
       truthy (get o orderItems) = true /\
       calcTotal (get o orderItems) = Ok total /\
       props o' = assign (props o) [(orderTotal, VNum total)])).
Proof.
  unfold updateProperties, updateProps, totalUpdaters. simpl.
  destruct (truthy (get o orderItems)) eqn:Ht; simpl.
  - unfold call_updaterFn.
    destruct (calcTotal (get o orderItems)) as [total|]; simpl; [|discriminate].
    intros [= <-]. simpl.
    split; [apply updateMixins_props|]. right. exists total.
    repeat split. f_equal. apply updateMixins_props.
  - intros [= <-]. simpl.
    split; [apply updateMixins_props|]. left. split; [reflexivity|].
    apply updateMixins_props.
Qed.

(** ** Items and totals *)

Lemma every_r_valid_items (items : list value) :
  Forall valid_item items ->
  every_r (fun i =>
             itemId <- of_option "Cannot read properties of null (reading 'itemId')"
                         (get_prop i "itemId") ;;
             if truthy itemId
             then price <- of_option "Cannot read properties of null (reading 'price')"
                             (get_prop i "price") ;;
                  Ok (String.eqb (typeof price) "number")
             else Ok false) items = Ok true.
Proof.
  induction 1 as [|i rest (fields & p & -> & Hid & Hprice) _ IH]; simpl; [reflexivity|].
  rewrite Hid. simpl. rewrite Hprice. simpl. exact IH.
Qed.

Lemma checkItems_valid (items : list value) :
  valid_items items -> checkItems (VArr items) = Ok items.
Proof.
  intros [Hne Hall]. unfold checkItems. simpl.
  destruct items as [|i rest]; [contradiction|].
  change (Nat.ltb 0 (List.length (i :: rest))) with true. cbv iota.
  rewrite (every_r_valid_items _ Hall). reflexivity.
Qed.

(** [checkItems] returns the array it was given. *)
Lemma checkItems_array (items l : list value) :
  checkItems (VArr items) = Ok l -> l = items.
Proof.
  unfold checkItems. simpl. intros H.
  destruct (if Nat.ltb 0 (List.length items) then _ else _) as [[]|];
    simpl in H; congruence.
Qed.

(** On priced items the accessor of [calcTotal] reads the price field. *)
Lemma fold_left_priced (items : list value) (prices : list float) (a : float) :
  Forall2 priced items prices ->
  fold_left (fun total item => PrimFloat.add total (price_of item)) items a
  = fold_left PrimFloat.add prices a.
Proof.
  intros H. revert a. induction H as [|i p rest ps (fields & -> & _ & Hp) _ IH];
    intros a; cbn [fold_left]; [reflexivity|].
  assert (Hprice : price_of (VRec fields) = p)
    by (unfold price_of; cbn [get_prop]; now rewrite Hp).
  rewrite Hprice. apply IH.
Qed.

Lemma priced_valid (items : list value) (prices : list float) :
  Forall2 priced items prices -> Forall valid_item items.
Proof.
  induction 1 as [|i p rest ps (fields & -> & Hid & Hp) _ IH]; constructor; [|exact IH].
  now exists fields, p.
Qed.

Lemma calcTotal_priced (items : list value) (prices : list float) :
  items <> [] ->
  Forall2 priced items prices ->
  calcTotal (VArr items) = Ok (sum_of prices).
Proof.
  intros Hne Hp. unfold calcTotal.
  rewrite (checkItems_valid items (conj Hne (priced_valid _ _ Hp))). cbn [bind].
  now rewrite (fold_left_priced items prices).
Qed.

Lemma calcTotal_nonempty (items : list value) (total : float) :
  calcTotal (VArr items) = Ok total -> items <> [].
Proof. intros H ->. discriminate. Qed.

(** Behind [checkItems] every price is a number, so [price_of] never
    falls back on its default. *)
Lemma checkItems_prices (items : value) (l : list value) :
  checkItems items = Ok l ->
  Forall (fun i => exists p, get_prop i "price" = Some (VNum p)) l.
Proof.
  unfold checkItems. destruct (negb (truthy items)); [discriminate|].
  set (_items := match items with VArr l0 => l0 | _ => [items] end).
  destruct (Nat.ltb 0 (List.length _items)); simpl; [|discriminate].
  intros H.
  destruct (every_r _ _items) as [[]|] eqn:Hev; simpl in H; try discriminate.
  injection H as <-. clear -Hev.
  induction _items as [|i rest IH]; [constructor|].
  simpl in Hev.
  destruct (get_prop i "itemId") as [itemId|]; simpl in Hev; [|discriminate].
  destruct (truthy itemId); simpl in Hev; [|discriminate].
  destruct (get_prop i "price") as [price|] eqn:Hprice; simpl in Hev; [|discriminate].
  destruct (String.eqb (typeof price) "number") eqn:Hty; [|discriminate].
  constructor; [|exact (IH Hev)].
  destruct price; simpl in Hty; try discriminate. now exists n.
Qed.

(** ** Updates of an order model *)

Lemma has_key_set (b : bag) (k0 k : string) (v : value) :
  has_key (set b k0 v) k = has_key b k || String.eqb k k0.
Proof.
  unfold has_key, keys. induction b as [|[k' v'] rest IH]; simpl.
  - now rewrite orb_false_r.
  - destruct (String.eqb_spec k' k0) as [->|Hne]; simpl.
    + destruct (String.eqb k k0); simpl; [reflexivity | now rewrite orb_false_r].
    + rewrite IH. now rewrite orb_assoc.
Qed.

Lemma has_key_assign (a b : bag) (k : string) :
  has_key (assign a b) k = has_key a k || has_key b k.
Proof.
  unfold assign.
  assert (G : forall ks acc,
             has_key (fold_left (fun acc k0 => set acc k0 (lookup b k0)) ks acc) k
             = has_key acc k || existsb (String.eqb k) ks).
  { induction ks as [|k0 ks IH]; intros acc; simpl.
    - now rewrite orb_false_r.
    - rewrite IH, has_key_set. now rewrite orb_assoc. }
  apply G.
Qed.

Lemma getDynamicProps_frozenKeys (o p : obj) :
  prevModel o = Some p ->
  getDynamicProps o frozenKeys
  = Ok [ KStr customerInfo;
         if negb (strict_eq (get p orderStatus) OrderStatus.PENDING)
         then KStr orderItems else KNull;
         if negb (strict_eq (get p orderStatus) OrderStatus.PENDING)
         then KStr creditCardNumber else KNull;
         if negb (strict_eq (get p orderStatus) OrderStatus.PENDING)
         then KStr shippingAddress else KNull;
         if negb (strict_eq (get p orderStatus) OrderStatus.PENDING)
         then KStr billingAddress else KNull;
         if includes [OrderStatus.COMPLETE; OrderStatus.CANCELED] (get p orderStatus)
         then KStr orderStatus else KNull ].
Proof.
  intros Hp. unfold getDynamicProps, frozenKeys. simpl.
  unfold prev_orderStatus. rewrite Hp. reflexivity.
Qed.

(** What a successful update of an order model did: the freeze guard
    found no frozen key among the changes, and the new properties are the
    old ones overlaid with the changes and, when [orderItems] is proposed,
    with the recomputed [orderTotal]. *)
Lemma order_model_update (S c S' : obj) :
  order_model S ->
  fst (processUpdate {| model := S; changes := c |}) = Ok S' ->
  (exists resolved,
      getDynamicProps (set_prevModel c S) frozenKeys = Ok resolved /\
      filter (keys_include resolved) (Object_keys c) = []) /\
  ((truthy (get c orderItems) = false /\
    props S' = assign (props S) (props c)) \/
   (exists total,
       truthy (get c orderItems) = true /\
       calcTotal (get c orderItems) = Ok total /\
       props S' = assign (props S) (assign (props c) [(orderTotal, VNum total)]))).
Proof.
  intros Hmodel H.
  unfold processUpdate, run_pre, run_post in H. simpl in H.
  assert (Hchain : exists o1 o2 u,
             freezeProperties true frozenKeys (set_prevModel c S) = Ok o1 /\
             updateProperties true totalUpdaters o1 = Ok o2 /\
             props u = props o2 /\
             (exists vs, validateProperties vs (spread S u) = Ok S')).
  { destruct Hmodel as [[Hpre Hpost] | [Hpre Hpost]];
      rewrite Hpre, Hpost in H; simpl in H;
      destruct (freezeProperties true frozenKeys (set_prevModel c S)) as [o1|] eqn:Hfreeze;
      simpl in H; try discriminate;
      destruct (updateProperties true totalUpdaters o1) as [o2|] eqn:Hupd;
      simpl in H; try discriminate.
    - destruct (allowProperties true allowedKeys o2) as [o3|] eqn:Hallow;
        simpl in H; try discriminate.
      destruct (validateProperties _ (spread S o3)) as [S1|] eqn:Hval;
        simpl in H; try discriminate.
      injection H as ->.
      exists o1, o2, o3. split; [reflexivity|]. split; [exact Hupd|].
      split; [apply (allowProperties_ok _ _ _ _ Hallow)|]. eauto.
    - destruct (validateProperties _ (spread S o2)) as [S1|] eqn:Hval;
        simpl in H; try discriminate.
      injection H as ->.
      exists o1, o2, o2. split; [reflexivity|]. split; [exact Hupd|].
      split; [reflexivity|]. eauto. }
  destruct Hchain as (o1 & o2 & u & Hfreeze & Hupd & Hu & vs & Hval).
  destruct (freezeProperties_ok _ _ _ _ Hfreeze) as [Hp1 Hprev1].
  apply freezeProperties_update_ok in Hfreeze.
  apply validateProperties_ok in Hval. destruct Hval as [HpS' _].
  apply updateProperties_total in Hupd.
  destruct Hupd as [_ Hupd].
  split; [exact Hfreeze|].
  unfold get in *. rewrite Hp1 in Hupd. simpl in Hupd.
  simpl in HpS'. rewrite Hu in HpS'.
  destruct Hupd as [[Hf Hp2] | (total & Ht & Hcalc & Hp2)]; rewrite Hp2 in HpS'.
  - left. split; assumption.
  - right. exists total. repeat split; assumption.
Qed.

(** ** Derived total *)

Lemma order_model_update_total (S c S' : obj) (items' : list value) (prices : list float) :
  order_model S ->
  get c orderItems = VArr items' ->
  Forall2 priced items' prices ->
  fst (processUpdate {| model := S; changes := c |}) = Ok S' ->
  get S' orderTotal = VNum (sum_of prices).
Proof.
  intros Hmodel Hitems Hpriced H.
  destruct (order_model_update _ _ _ Hmodel H) as [_ Hprops].
  rewrite Hitems in Hprops. simpl in Hprops.
  destruct Hprops as [[Hf _] | (total & _ & Hcalc & Hp)]; [discriminate|].
  rewrite (calcTotal_priced items' prices (calcTotal_nonempty _ _ Hcalc) Hpriced) in Hcalc.
  injection Hcalc as <-.
  unfold get. rewrite Hp, lookup_assign, has_key_assign.
  replace (has_key [(orderTotal, VNum (sum_of prices))] orderTotal) with true
    by reflexivity.
  rewrite orb_true_r, lookup_assign. reflexivity.
Qed.

(** With the [checkFormat] that the sources give them, the factories
    throw on every input: at [checkItems], or else at the call of
    [checkFormat]. *)
Lemma OrderWorkflow_createOrder_throws (uuid : value) (input : bag) (S0 : obj) :
  OrderWorkflow.createOrder checkFormat_import uuid input <> Ok S0.
Proof.
  unfold OrderWorkflow.createOrder, checkFormat_import. cbv zeta.
  destruct (checkItems _); cbn [bind]; discriminate.
Qed.

Lemma Order_createOrder_throws
    (validateAddress : value -> result value)
    (authorizePayment : value -> value -> value -> float -> result value)
    (uuid : value) (input : bag) (S0 : obj) :
  Order.createOrder checkFormat_import validateAddress authorizePayment uuid input <> Ok S0.
Proof.
  unfold Order.createOrder, checkFormat_import. cbv zeta.
  destruct (checkItems _); cbn [bind]; discriminate.
Qed.

(** C3. Creation does not reach the derived total.  On the order of the
    repository's test, whose items are valid and whose total the test
    expects to be 90.22 + 87.60, [createOrder] of either module throws
    a TypeError at the call of [checkFormat], a name that './mixins'
    does not export; no input makes either factory return, whatever the
    adapters do.  [calcTotal], which would have supplied the total,
    returns 177.82 on these items. *)
Theorem createOrder_throws_at_checkFormat :
  (exists what,
      OrderWorkflow.createOrder checkFormat_import (VStr "order-1") sample_input
      = Throw (TypeError what)) /\
  (forall validateAddress authorizePayment,
      exists what,
        Order.createOrder checkFormat_import validateAddress authorizePayment
          (VStr "order-1") sample_input = Throw (TypeError what)) /\
  (forall uuid input S0,
      OrderWorkflow.createOrder checkFormat_import uuid input <> Ok S0) /\
  (forall validateAddress authorizePayment uuid input S0,
      Order.createOrder checkFormat_import validateAddress authorizePayment uuid input
      <> Ok S0) /\
  calcTotal (VArr sample_items) = Ok 177.82%float /\
  PrimFloat.add 90.22%float 87.60%float = 177.82%float.
Proof.
  split; [|split; [|split; [|split; [|split]]]].
  - eexists. vm_compute. reflexivity.
  - intros va ap. eexists. vm_compute. reflexivity.
  - exact OrderWorkflow_createOrder_throws.
  - exact Order_createOrder_throws.
  - vm_compute. reflexivity.
  - vm_compute. reflexivity.
Qed.

(** ** Validation of the order total *)

Lemma truthy_MAXORDER : truthy (VNum MAXORDER) = true.
Proof. vm_compute. reflexivity. Qed.

(** The rule on [orderTotal] accepts a number exactly when it is strictly
    below [MAXORDER]. *)
Lemma totalRule_isValid (o : obj) (t : float) :
  validator_isValid totalRule o (VNum t) = Ok (PrimFloat.ltb t MAXORDER).
Proof.
  unfold validator_isValid, validator_tests, totalRule. simpl every_r.
  unfold test_isValid, test_values, test_regex, test_typeof, test_maxnum, test_maxlen.
  cbn [isValid values regex typeOf maxnum maxlen bind].
  unfold gt, ToNumber.
  destruct (PrimFloat.ltb t MAXORDER); reflexivity.
Qed.

Lemma some_r_edges (edges : list (value * value)) (o p : obj) (propVal : value) :
  prevModel o = Some p ->
  exists b,
    some_r (fun i => invalidStatusChange (fst i) (snd i) o propVal) edges = Ok b.
Proof.
  intros Hp. induction edges as [|[from to] rest [b IH]]; simpl; [now exists false|].
  unfold invalidStatusChange at 1, prev_orderStatus. rewrite Hp. simpl.
  destruct (strict_eq propVal to); simpl.
  - destruct (strict_eq (get p orderStatus) from); [now exists true | now exists b].
  - now exists b.
Qed.

(** The status rule: the transition check first, then membership in the
    status values. *)
Lemma statusRule_isValid (edges : list (value * value)) (o : obj) (propVal : value) :
  validator_isValid (statusRule edges) o propVal
  = (ok <- call_isValidFn (statusChangeValid edges) o propVal ;;
     if ok then Ok (includes OrderStatus.values propVal) else Ok false).
Proof.
  unfold validator_isValid, validator_tests, statusRule.
  cbn [every_r test_isValid test_values test_regex test_typeof test_maxnum test_maxlen
       isValid values regex typeOf maxnum maxlen].
  destruct (call_isValidFn (statusChangeValid edges) o propVal) as [[]|]; cbn [bind];
    try reflexivity.
  destruct (includes OrderStatus.values propVal); reflexivity.
Qed.

Lemma call_isValidFn_throws (edges : list (value * value)) (o : obj) (propVal : value) (e : error) :
  call_isValidFn (statusChangeValid edges) o propVal = Throw e -> e = InvalidStatusChange.
Proof.
  unfold call_isValidFn, prev_orderStatus_opt.
  destruct (prevModel o) as [p|] eqn:Hp; [|discriminate].
  destruct (negb (truthy (get p orderStatus))); [discriminate|].
  destruct (some_r_edges edges o p propVal Hp) as [b Hb]. rewrite Hb. cbn [bind].
  destruct b; congruence.
Qed.

(** The status rule throws nothing but 'invalid status change'. *)
Lemma statusRule_throws (edges : list (value * value)) (o : obj) (propVal : value) (e : error) :
  validator_isValid (statusRule edges) o propVal = Throw e -> e = InvalidStatusChange.
Proof.
  rewrite statusRule_isValid.
  destruct (call_isValidFn (statusChangeValid edges) o propVal) as [[]|] eqn:Hc;
    cbn [bind]; try discriminate.
  intros [= <-]. exact (call_isValidFn_throws _ _ _ _ Hc).
Qed.

(** What validation makes of a numeric [orderTotal]: the rule rejects it
    when it is truthy and not strictly below [MAXORDER]. *)
Lemma orderValidations_total (edges : list (value * value)) (o : obj) (t : float) :
  get o orderTotal = VNum t ->
  (truthy (VNum t) && negb (PrimFloat.ltb t MAXORDER) = true ->
   exists e,
     validateProperties (orderValidations edges) o = Throw e /\
     (e = InvalidStatusChange \/
      exists propKeys, e = InvalidValue propKeys /\ In orderTotal propKeys)) /\
  (truthy (VNum t) && negb (PrimFloat.ltb t MAXORDER) = false ->
   forall propKeys,
     validateProperties (orderValidations edges) o = Throw (InvalidValue propKeys) ->
     ~ In orderTotal propKeys).
Proof.
  intros Htotal.
  unfold validateProperties, orderValidations.
  cbn [filter_r].
  change (propKey totalRule) with orderTotal.
  rewrite Htotal, totalRule_isValid. cbn [bind].
  replace (if negb (truthy (VNum t))
           then Ok false
           else Ok (negb (PrimFloat.ltb t MAXORDER)))
    with (@Ok bool (truthy (VNum t) && negb (PrimFloat.ltb t MAXORDER)))
    by (destruct (truthy (VNum t)); reflexivity).
  cbn [bind].
  destruct (if negb (truthy (get o (propKey (statusRule edges))))
            then Ok false
            else ok <- validator_isValid (statusRule edges) o
                         (get o (propKey (statusRule edges))) ;; Ok (negb ok))
    as [keep|e0] eqn:Hstatus.
  - cbn [bind]. split.
    + intros ->.
      destruct keep; cbn [List.length Nat.ltb Nat.leb map];
        eexists; (split; [reflexivity|]); right; eexists; (split; [reflexivity|]);
        simpl; auto.
    + intros -> propKeys.
      destruct keep; cbn [List.length Nat.ltb Nat.leb map]; [|discriminate].
      intros [= <-]. simpl. intros [Heq | []]. discriminate.
  - cbn [bind]. split.
    + intros _. exists e0. split; [reflexivity|]. left.
      destruct (negb (truthy (get o (propKey (statusRule edges))))); [discriminate|].
      destruct (validator_isValid (statusRule edges) o _) eqn:Hv;
        simpl in Hstatus; [discriminate|].
      injection Hstatus as <-. exact (statusRule_throws _ _ _ _ Hv).
    + intros _ propKeys Heq. exfalso.
      destruct (negb (truthy (get o (propKey (statusRule edges))))); [discriminate|].
      destruct (validator_isValid (statusRule edges) o _) eqn:Hv;
        simpl in Hstatus; [discriminate|].
      injection Hstatus as <-. injection Heq as ->.
      apply statusRule_throws in Hv. discriminate.
Qed.

(** C4, as amended. On a merged snapshot whose [orderTotal] is a number:
    when it exceeds 99999.99, validation fails, with an error naming
    [orderTotal] unless the status rule, which is evaluated first, has
    thrown; when it is strictly below 99999.99, the ceiling test passes
    and no validation error names [orderTotal]. *)
Theorem order_total_ceiling (edges : list (value * value)) (o : obj) (t : float) :
  get o orderTotal = VNum t ->
  (PrimFloat.ltb MAXORDER t = true ->
   exists e,
     validateProperties (orderValidations edges) o = Throw e /\
     (e = InvalidStatusChange \/
      exists propKeys, e = InvalidValue propKeys /\ In orderTotal propKeys)) /\
  (PrimFloat.ltb t MAXORDER = true ->
   validator_isValid totalRule o (VNum t) = Ok true /\
   forall propKeys,
     validateProperties (orderValidations edges) o = Throw (InvalidValue propKeys) ->
     ~ In orderTotal propKeys).
Proof.
  intros Htotal.
  destruct (orderValidations_total edges o t Htotal) as [Hreject Haccept].
  split.
  - intros Habove. apply Hreject.
    destruct (above_MAXORDER_nonzero t Habove) as [Hzero Hnan].
    cbn [truthy]. now rewrite Hzero, Hnan, (ltb_asym _ _ Habove).
  - intros Hbelow. split.
    + now rewrite totalRule_isValid, Hbelow.
    + apply Haccept. rewrite Hbelow. apply andb_false_r.
Qed.

(** ** Self-registration *)

Lemma find_mixin_has (s : mixinSet) (name : string) :
  has s name = true -> exists cb, find_mixin s name = Some cb.
Proof.
  induction s as [|[n m] rest IH]; simpl; [discriminate|].
  destruct (String.eqb n name); simpl; [eauto | exact IH].
Qed.

Lemma find_mixin_appended (s : mixinSet) (name : string) (cb : mixin) :
  has s name = false -> find_mixin (s ++ [(name, cb)]) name = Some cb.
Proof.
  induction s as [|[n m] rest IH]; simpl.
  - now rewrite String.eqb_refl.
  - destruct (String.eqb n name); simpl; [discriminate | exact IH].
Qed.

Lemma mixinSets_with_mixinSet (type : mixinType) (o : obj) (s : mixinSet) :
  mixinSets type (with_mixinSet type o s) = Some s.
Proof. destruct type; reflexivity. Qed.

(** Whether [name] is already in the set of [o] for the phase [type]. *)
Lemma updateMixins_registers (type : mixinType) (o : obj) (name : string) (cb : mixin) :
  exists s stored,
    mixinSets type (updateMixins type o name cb) = Some s /\
    find_mixin s name = Some stored /\
    ((forall s0, mixinSets type o = Some s0 -> has s0 name = false) -> stored = cb).
Proof.
  unfold updateMixins.
  destruct (mixinSets type o) as [s0|] eqn:Hs0.
  - destruct (has s0 name) eqn:Hhas; cbn [negb].
    + destruct (find_mixin_has _ _ Hhas) as [stored Hstored].
      exists s0, stored. repeat split; try assumption.
      intros Hnew. specialize (Hnew s0 eq_refl). congruence.
    + exists (s0 ++ [(name, cb)]), cb. rewrite mixinSets_with_mixinSet.
      repeat split. now apply find_mixin_appended.
  - cbn [has existsb negb]. exists [(name, cb)], cb.
    rewrite mixinSets_with_mixinSet. repeat split.
    simpl. now rewrite String.eqb_refl.
Qed.

Lemma mixinSets_extend (type : mixinType) (o : obj) (partial : bag) :
  mixinSets type (extend o partial) = mixinSets type o.
Proof. destruct type; reflexivity. Qed.

(** Every guard other than [requireProperties], when it returns,
    returns an object whose hidden set for the guard's phase holds a
    function under the guard's name, and that function is the guard in
    update mode when the name was not in the set before;
    [requireProperties] returns its argument as it is. *)
Lemma guards_register_themselves (m : mixin) (o o' : obj) :
  apply_mixin m o = Ok o' ->
  (is_require m = false ->
   exists s stored,
     mixinSets (mixin_phase m) o' = Some s /\
     find_mixin s (mixin_name m) = Some stored /\
     ((forall s0, mixinSets (mixin_phase m) o = Some s0 ->
                  has s0 (mixin_name m) = false) ->
      stored = update_mode m)) /\
  (is_require m = true -> o' = o).
Proof.
  intros H. split.
  - intros Hreq. destruct m; try discriminate; cbn [apply_mixin] in H;
      cbn [mixin_phase mixin_name update_mode].
    + unfold encryptProperties in H.
      destruct (getDynamicProps o propKeys); cbn [bind] in H; [|discriminate].
      destruct (transformProps encrypt o a); cbn [bind] in H; [|discriminate].
      injection H as <-. rewrite mixinSets_extend. apply updateMixins_registers.
    + unfold freezeProperties in H.
      destruct (if isUpdate then _ else _); cbn [bind] in H; [|discriminate].
      injection H as <-. apply updateMixins_registers.
    + unfold hashPasswords in H.
      destruct (getDynamicProps o propKeys); cbn [bind] in H; [|discriminate].
      destruct (transformProps hash o a); cbn [bind] in H; [|discriminate].
      injection H as <-. rewrite mixinSets_extend. apply updateMixins_registers.
    + unfold allowProperties in H.
      destruct (if isUpdate then _ else _); cbn [bind] in H; [|discriminate].
      injection H as <-. apply updateMixins_registers.
    + unfold validateProperties in H.
      destruct (filter_r _ validations) as [invalid|]; cbn [bind] in H; [|discriminate].
      destruct (Nat.ltb 0 (List.length invalid)); [discriminate|].
      injection H as <-. apply updateMixins_registers.
    + unfold updateProperties in H.
      destruct (updateProps isUpdate updaters o); cbn [bind] in H; [|discriminate].
      injection H as <-. rewrite mixinSets_extend. apply updateMixins_registers.
  - intros Hreq. destruct m; try discriminate. cbn [apply_mixin] in H.
    exact (requireProperties_ok _ _ _ H).
Qed.

(** C5. The require guard does not register itself, so no update re-runs
    it.  It returns its argument as it is, on every object.  Applied to
    a customer that has the required property it leaves no mixin set
    behind, and the next update, which removes the property, succeeds.
    The freeze guard, one of the six others, applied to the same object
    stores itself under its name and rejects the next update.  The sets
    of the order modules hold no require guard, and a shipped order is
    completed by an update although it has no proof of delivery. *)
Theorem require_guard_never_reruns :
  (forall propKeys o o', requireProperties propKeys o = Ok o' -> o' = o) /\
  (apply_mixin (requirePropertiesMixin [Name customerInfo]) named_customer
   = Ok named_customer /\
   mixinSets pre named_customer = None /\ mixinSets post named_customer = None) /\
  (exists S',
      fst (processUpdate {| model := named_customer;
                            changes := plain [(customerInfo, VNull)] |}) = Ok S' /\
      get S' customerInfo = VNull) /\
  (exists o1 s,
      apply_mixin (freezePropertiesMixin [Name customerInfo]) named_customer = Ok o1 /\
      mixinSets pre o1 = Some s /\
      find_mixin s "freezeProperties" = Some (FreezeProperties true [Name customerInfo]) /\
      fst (processUpdate {| model := o1; changes := plain [(customerInfo, VNull)] |})
      = Throw (ReadonlyUpdate [customerInfo])) /\
  (find_mixin Order.preSet "requireProperties" = None /\
   find_mixin OrderWorkflow.preSet "requireProperties" = None) /\
  (exists S',
      fst (processUpdate {| model := sample_workflow_order OrderStatus.SHIPPING;
                            changes := plain [(orderStatus, OrderStatus.COMPLETE)] |})
      = Ok S' /\
      get S' orderStatus = OrderStatus.COMPLETE /\
      get S' proofOfDelivery = VUndefined).
Proof.
  split; [|split; [|split; [|split; [|split]]]].
  - intros propKeys o o' H. exact (requireProperties_ok _ _ _ H).
  - repeat split.
  - eexists. split; vm_compute; reflexivity.
  - eexists _, _. repeat split; vm_compute; reflexivity.
  - split; reflexivity.
  - eexists. repeat split; vm_compute; reflexivity.
Qed.

(** ** Required properties *)

Lemma getDynamicProps_requiredKeys (o : obj) :
  getDynamicProps o requiredKeys
  = Ok [ KStr customerInfo; KStr orderItems; KStr creditCardNumber;
         KStr shippingAddress; KStr billingAddress;
         if negb (truthy (get o orderStatus)) then KUndefined
         else if strict_eq (get o orderStatus) OrderStatus.COMPLETE
              then KStr proofOfDelivery else KUndefined ].
Proof.
  unfold getDynamicProps, requiredKeys. cbn [map_r bind call_keyFn].
  destruct (negb (truthy (get o orderStatus))); reflexivity.
Qed.

Lemma requireProperties_missing (o : obj) (resolved : list key) (k : key) :
  getDynamicProps o requiredKeys = Ok resolved ->
  In k resolved ->
  truthy (get o (key_name k)) = false ->
  exists missing,
    requireProperties requiredKeys o = Throw (MissingRequired missing) /\
    In k missing /\
    missing = filter (fun k => negb (truthy (get o (key_name k)))) resolved.
Proof.
  intros Hres Hin Hfalsy. unfold requireProperties. rewrite Hres. cbn [bind].
  set (missing := filter _ resolved).
  assert (Hk : In k missing).
  { apply filter_In. split; [assumption|]. now rewrite Hfalsy. }
  exists missing. split; [|split; [assumption | reflexivity]].
  destruct missing; [contradiction | reflexivity].
Qed.

(** When the proposed status is COMPLETE and [proofOfDelivery] is absent
    or falsy, the guard fails and lists [proofOfDelivery]. *)
Lemma requireProperties_completing (o : obj) :
  get o orderStatus = OrderStatus.COMPLETE ->
  truthy (get o proofOfDelivery) = false ->
  exists missing,
    requireProperties requiredKeys o = Throw (MissingRequired missing) /\
    In (KStr proofOfDelivery) missing.
Proof.
  intros Hstatus Hpod.
  destruct (requireProperties_missing o _ (KStr proofOfDelivery)
              (getDynamicProps_requiredKeys o)) as (missing & H & Hin & _).
  - rewrite Hstatus. simpl. auto 10.
  - exact Hpod.
  - eauto.
Qed.


(** C6, at the failing input. An object that has every required property
    and the status PENDING is rejected by the Order's require guard: the
    key that [requiredForCompletion] declined to return is reported as
    missing, with the message 'missing required properties: ' and nothing
    after it. *)
Theorem require_fails_when_not_completing :
  requireProperties requiredKeys (plain (sample_props OrderStatus.PENDING 177.82%float))
  = Throw (MissingRequired [KUndefined]) /\
  message (MissingRequired [KUndefined]) = "missing required properties: ".
Proof. split; reflexivity. Qed.

(** C7, at the failing input. For the creation input without
    [billingAddress] the guard reports [billingAddress] and, after it,
    the [undefined] key: the message is
    'missing required properties: billingAddress,' and not the
    'missing required properties: billingAddress' that the repository's
    test expects. *)
Theorem require_missing_billingAddress_message :
  requireProperties requiredKeys (plain sample_input_no_billing)
  = Throw (MissingRequired [KStr billingAddress; KUndefined]) /\
  message (MissingRequired [KStr billingAddress; KUndefined])
  = "missing required properties: billingAddress," /\
  message (MissingRequired [KStr billingAddress; KUndefined])
  <> "missing required properties: billingAddress".
Proof. repeat split; try reflexivity. discriminate. Qed.

(** ** Frozen properties *)

Lemma freezeProperties_throws (ks : list propKeyArg) (o : obj) (resolved : list key)
    (k : string) :
  getDynamicProps o ks = Ok resolved ->
  In k (Object_keys o) ->
  keys_include resolved k = true ->
  exists mutations,
    freezeProperties true ks o = Throw (ReadonlyUpdate mutations) /\
    In k mutations.
Proof.
  intros Hres Hin Hk. unfold freezeProperties. rewrite Hres. cbn [bind].
  set (mutations := filter (keys_include resolved) (Object_keys o)).
  assert (Hmut : In k mutations) by (apply filter_In; auto).
  exists mutations. split; [|assumption].
  destruct mutations; [contradiction | reflexivity].
Qed.

(** The freeze guard is the first of an order model's pre phase: what it
    throws is what the update throws. *)
Lemma order_model_freeze_first (S c : obj) (e : error) :
  order_model S ->
  freezeProperties true frozenKeys (set_prevModel c S) = Throw e ->
  fst (processUpdate {| model := S; changes := c |}) = Throw e.
Proof.
  intros Hmodel Hfreeze. unfold processUpdate, run_pre. cbn [fst model changes].
  destruct Hmodel as [[Hpre _] | [Hpre _]]; rewrite Hpre;
    cbn [mixin_values map snd Order.preSet OrderWorkflow.preSet compose apply_mixin];
    rewrite Hfreeze; reflexivity.
Qed.

(** The guard on its own, for any object that carries a predecessor. *)
Lemma freezeProperties_frozen (o p : obj) (k : string) :
  prevModel o = Some p ->
  In k (Object_keys o) ->
  k = customerInfo \/
  (get p orderStatus <> OrderStatus.PENDING /\
   In k [orderItems; creditCardNumber; shippingAddress; billingAddress]) \/
  ((get p orderStatus = OrderStatus.COMPLETE \/
    get p orderStatus = OrderStatus.CANCELED) /\ k = orderStatus) ->
  exists mutations,
    freezeProperties true frozenKeys o = Throw (ReadonlyUpdate mutations) /\
    In k mutations.
Proof.
  intros Hp Hin Hk.
  apply (freezeProperties_throws _ _ _ _ (getDynamicProps_frozenKeys o p Hp) Hin).
  destruct Hk as [-> | [[Hstatus Hk] | [Hstatus ->]]].
  - reflexivity.
  - pose proof (strict_eq_VStr_false _ _ Hstatus) as Hs.
    change (VStr "PENDING") with OrderStatus.PENDING in Hs. rewrite Hs. cbn [negb].
    destruct Hk as [<- | [<- | [<- | [<- | []]]]]; reflexivity.
  - destruct Hstatus as [-> | ->];
      destruct (negb (strict_eq _ OrderStatus.PENDING)); reflexivity.
Qed.

(** C8. Freeze on approval and on completion: an update of an order model
    whose status is not PENDING and whose change set holds one of
    [orderItems], [creditCardNumber], [shippingAddress], [billingAddress]
    fails in the freeze guard with the read-only error listing that key,
    whatever value is proposed; so does an update of a model whose status
    is COMPLETE or CANCELED when the change set holds [orderStatus]. *)
Theorem frozen_after_approval (S c : obj) (k : string) :
  order_model S ->
  In k (Object_keys c) ->
  (get S orderStatus <> OrderStatus.PENDING /\
   In k [orderItems; creditCardNumber; shippingAddress; billingAddress]) \/
  ((get S orderStatus = OrderStatus.COMPLETE \/
    get S orderStatus = OrderStatus.CANCELED) /\ k = orderStatus) ->
  exists mutations,
    freezeProperties true frozenKeys (set_prevModel c S)
    = Throw (ReadonlyUpdate mutations) /\
    fst (processUpdate {| model := S; changes := c |})
    = Throw (ReadonlyUpdate mutations) /\
    In k mutations.
Proof.
  intros Hmodel Hin Hk.
  destruct (freezeProperties_frozen (set_prevModel c S) S k eq_refl Hin (or_intror Hk))
    as (mutations & Hfreeze & Hmut).
  exists mutations. split; [assumption|]. split; [|assumption].
  now apply order_model_freeze_first.
Qed.

(** C10. [customerInfo] is frozen without condition: every update of an
    order model whose change set holds [customerInfo] fails with the
    read-only error listing it, whatever the status of the model, and
    every update that succeeds leaves [customerInfo] as it was. *)
Theorem customerInfo_never_changes (S c : obj) :
  order_model S ->
  (In customerInfo (Object_keys c) ->
   exists mutations,
     fst (processUpdate {| model := S; changes := c |})
     = Throw (ReadonlyUpdate mutations) /\
     In customerInfo mutations) /\
  (forall S',
      fst (processUpdate {| model := S; changes := c |}) = Ok S' ->
      get S' customerInfo = get S customerInfo).
Proof.
  intros Hmodel. split.
  - intros Hin.
    destruct (freezeProperties_frozen (set_prevModel c S) S customerInfo eq_refl Hin
                (or_introl eq_refl)) as (mutations & Hfreeze & Hmut).
    exists mutations. split; [|assumption]. now apply order_model_freeze_first.
  - intros S' H.
    destruct (order_model_update _ _ _ Hmodel H) as [(resolved & Hres & Hnone) Hprops].
    rewrite (getDynamicProps_frozenKeys (set_prevModel c S) S eq_refl) in Hres.
    injection Hres as <-.
    assert (Hnot : has_key (props c) customerInfo = false).
    { destruct (has_key (props c) customerInfo) eqn:Hhas; [|reflexivity].
      apply has_key_In in Hhas.
      assert (Hin : In customerInfo []); [|contradiction].
      rewrite <- Hnone. apply filter_In. split; [exact Hhas | reflexivity]. }
    unfold get.
    destruct Hprops as [[_ Hp] | (total & _ & _ & Hp)]; rewrite Hp, lookup_assign.
    + now rewrite Hnot.
    + rewrite has_key_assign, Hnot. reflexivity.
Qed.

(** ** The empty update *)

Lemma get_empty (o : obj) (k : string) : props o = [] -> get o k = VUndefined.
Proof. unfold get. now intros ->. Qed.

(** On an object without properties that carries a predecessor, every
    key function returns. *)
Lemma getDynamicProps_empty (o p : obj) (ks : list propKeyArg) :
  props o = [] ->
  prevModel o = Some p ->
  exists resolved,
    getDynamicProps o ks = Ok resolved /\ (ks <> [] -> resolved <> []).
Proof.
  intros Hprops Hp. unfold getDynamicProps.
  induction ks as [|k rest (resolved & IH & _)]; cbn [map_r].
  - exists []. split; [reflexivity | auto].
  - assert (Hk : exists r, match k with
                           | Computed f => call_keyFn f o
                           | Name n => Ok (KStr n)
                           end = Ok r).
    { destruct k as [n|f]; [eauto|].
      destruct f; cbn [call_keyFn]; unfold prev_orderStatus;
        rewrite ?Hp, ?(get_empty o _ Hprops); cbn [bind truthy negb andb]; eauto. }
    destruct Hk as [r ->]. rewrite IH. cbn [bind].
    exists (r :: resolved). split; [reflexivity | discriminate].
Qed.

Lemma fold_assign_nil (l : list key) (f : key -> bag) :
  (forall k, f k = []) ->
  fold_left (fun p c => assign c p) (map f l) [] = [].
Proof.
  intros Hf. induction l as [|k rest IH]; cbn [map fold_left]; [reflexivity|].
  rewrite Hf. exact IH.
Qed.

Lemma transformProps_empty (f : value -> value) (o : obj) (resolved : list key) :
  props o = [] -> resolved <> [] -> transformProps f o resolved = Ok [].
Proof.
  intros Hprops Hne. unfold transformProps.
  destruct resolved as [|k rest]; [contradiction|].
  cbn [map reduce1]. rewrite (get_empty o _ Hprops). cbn [truthy].
  f_equal. apply fold_assign_nil. intros k0.
  now rewrite (get_empty o _ Hprops).
Qed.

Lemma updateMixins_pre_post (o : obj) (name : string) (cb : mixin) :
  postMixins (updateMixins pre o name cb) = postMixins o.
Proof. unfold updateMixins. destruct (negb (has _ name)); reflexivity. Qed.

(** A registered pre-phase guard maps an empty change set to an empty
    change set. *)
Lemma registered_pre_empty (e : string * mixin) (o p : obj) :
  registered_pre e ->
  props o = [] -> prevModel o = Some p -> postMixins o = None ->
  exists o',
    apply_mixin (snd e) o = Ok o' /\
    props o' = [] /\ prevModel o' = Some p /\ postMixins o' = None.
Proof.
  intros [_ Hreg] Hprops Hp Hpost.
  destruct (snd e) as [ks | b ks | ks | h ks | b ks | vs | b us];
    try contradiction; cbn [apply_mixin].
  - destruct (getDynamicProps_empty o p ks Hprops Hp) as (resolved & Hres & Hne).
    unfold encryptProperties. rewrite Hres. cbn [bind].
    rewrite (transformProps_empty _ _ _ Hprops (Hne Hreg)). cbn [bind].
    eexists. split; [reflexivity|]. cbn [extend props prevModel postMixins].
    destruct (updateMixins_props pre o "encryptProperties" (EncryptProperties ks))
      as [-> ->].
    rewrite updateMixins_pre_post, Hprops. auto.
  - subst b. destruct (getDynamicProps_empty o p ks Hprops Hp) as (resolved & Hres & _).
    unfold freezeProperties. rewrite Hres. unfold Object_keys. rewrite Hprops.
    cbn [bind keys map filter List.length Nat.ltb Nat.leb].
    eexists. split; [reflexivity|].
    destruct (updateMixins_props pre o "freezeProperties" (FreezeProperties true ks))
      as [-> ->].
    rewrite updateMixins_pre_post. auto.
  - destruct (getDynamicProps_empty o p ks Hprops Hp) as (resolved & Hres & Hne).
    unfold hashPasswords. rewrite Hres. cbn [bind].
    rewrite (transformProps_empty _ _ _ Hprops (Hne Hreg)). cbn [bind].
    eexists. split; [reflexivity|]. cbn [extend props prevModel postMixins].
    destruct (updateMixins_props pre o "hashPasswords" (HashPasswords h ks))
      as [-> ->].
    rewrite updateMixins_pre_post, Hprops. auto.
  - subst b. destruct (getDynamicProps_empty o p ks Hprops Hp) as (resolved & Hres & _).
    unfold allowProperties. rewrite Hres. unfold Object_keys. rewrite Hprops.
    cbn [bind keys map filter List.length Nat.ltb Nat.leb].
    eexists. split; [reflexivity|].
    destruct (updateMixins_props pre o "allowProperties" (AllowProperties true ks))
      as [-> ->].
    rewrite updateMixins_pre_post. auto.
  - subst b. unfold updateProperties, updateProps.
    assert (Hnone : filter (fun u => truthy (get o (updKey u))) us = []).
    { induction us as [|u rest IH]; cbn [filter]; [reflexivity|].
      now rewrite (get_empty o _ Hprops). }
    rewrite Hnone. cbn [List.length Nat.ltb Nat.leb bind].
    eexists. split; [reflexivity|]. cbn [extend props prevModel postMixins].
    destruct (updateMixins_props pre o "updateProperties" (UpdateProperties true us))
      as [-> ->].
    rewrite updateMixins_pre_post, Hprops. auto.
Qed.

Lemma compose_registered_pre_empty (s : mixinSet) (o p : obj) :
  Forall registered_pre s ->
  props o = [] -> prevModel o = Some p -> postMixins o = None ->
  exists o',
    compose (mixin_values s) o = Ok o' /\
    props o' = [] /\ prevModel o' = Some p /\ postMixins o' = None.
Proof.
  intros Hall. revert o. induction Hall as [|e rest He _ IH]; intros o Hprops Hp Hpost.
  - exists o. cbn. auto.
  - destruct (registered_pre_empty e o p He Hprops Hp Hpost)
      as (o1 & H1 & Hprops1 & Hp1 & Hpost1).
    destruct (IH o1 Hprops1 Hp1 Hpost1) as (o' & H' & Hrest).
    exists o'. split; [|exact Hrest].
    cbn [mixin_values map compose]. rewrite H1. exact H'.
Qed.

Lemma filter_r_nil {A : Type} (p : A -> result bool) (l : list A) :
  filter_r p l = Ok [] <-> Forall (fun a => p a = Ok false) l.
Proof.
  induction l as [|a rest IH]; cbn [filter_r].
  - split; [constructor | reflexivity].
  - split.
    + intros H. destruct (p a) as [[]|] eqn:Ha; cbn [bind] in H; try discriminate;
        destruct (filter_r p rest) as [kept|] eqn:Hk; cbn [bind] in H;
        try discriminate.
      injection H as ->. constructor; [exact Ha | now apply IH].
    + intros H. inversion H as [|? ? Ha Hrest]; subst. rewrite Ha. cbn [bind].
      apply IH in Hrest. rewrite Hrest. reflexivity.
Qed.

(** A status rule without self edge accepts the status that the
    predecessor already has. *)
Lemma status_unchanged_valid (edges : list (value * value)) (o p : obj) :
  prevModel o = Some p ->
  (forall e x, In e edges -> strict_eq x (snd e) = true -> strict_eq x (fst e) = false) ->
  call_isValidFn (statusChangeValid edges) o (get p orderStatus) = Ok true.
Proof.
  intros Hp Hedges. unfold call_isValidFn, prev_orderStatus_opt. rewrite Hp.
  destruct (negb (truthy (get p orderStatus))); [reflexivity|].
  assert (Hnone : some_r (fun i => invalidStatusChange (fst i) (snd i) o (get p orderStatus))
                    edges = Ok false).
  { induction edges as [|e rest IH]; cbn [some_r]; [reflexivity|].
    unfold invalidStatusChange at 1, prev_orderStatus. rewrite Hp.
    destruct (strict_eq (get p orderStatus) (snd e)) eqn:Hto; cbn [bind].
    - rewrite (Hedges e _ (or_introl eq_refl) Hto).
      apply IH. intros e0 x Hin. apply Hedges. now right.
    - apply IH. intros e0 x Hin. apply Hedges. now right. }
  rewrite Hnone. reflexivity.
Qed.

(** Only the [isValid] test of a rule looks at the object. *)
Lemma validator_isValid_transfer (v : validation) (o1 o2 : obj) (propVal : value) :
  match isValid v with
  | Some f => call_isValidFn f o2 propVal = Ok true
  | None => True
  end ->
  validator_isValid v o1 propVal = Ok true ->
  validator_isValid v o2 propVal = Ok true.
Proof.
  unfold validator_isValid, validator_tests. cbn [every_r]. unfold test_isValid.
  destruct (isValid v) as [f|].
  - intros -> H. cbn [bind].
    destruct (call_isValidFn f o1 propVal) as [[]|]; cbn [bind] in H;
      try discriminate. exact H.
  - intros _ H. exact H.
Qed.

(** A model that passes a validation still passes it as the merge of the
    empty update: same properties, itself as predecessor. *)
Lemma validateProperties_transfer (vs : list validation) (S merged S0 : obj) :
  Forall status_rule_ok vs ->
  props merged = props S ->
  prevModel merged = Some S ->
  validateProperties vs S = Ok S0 ->
  exists merged', validateProperties vs merged = Ok merged'.
Proof.
  intros Hrules Hprops Hprev H. unfold validateProperties in *.
  destruct (filter_r _ vs) as [invalid|] eqn:Hinvalid; cbn [bind] in H; [|discriminate].
  destruct invalid as [|v0 rest]; [|discriminate].
  apply filter_r_nil in Hinvalid.
  assert (Hmerged : filter_r
            (fun v => let propVal := get merged (propKey v) in
                      if negb (truthy propVal) then Ok false
                      else ok <- validator_isValid v merged propVal ;; Ok (negb ok))
            vs = Ok []).
  { apply filter_r_nil. rewrite Forall_forall in *. intros v Hv.
    specialize (Hinvalid v Hv). specialize (Hrules v Hv). cbv zeta in *.
    assert (Hget : get merged (propKey v) = get S (propKey v))
      by (unfold get; now rewrite Hprops).
    rewrite Hget.
    destruct (negb (truthy (get S (propKey v)))); [reflexivity|].
    destruct (validator_isValid v S (get S (propKey v))) as [[]|] eqn:Hv1;
      cbn [bind negb] in Hinvalid; try discriminate.
    rewrite (validator_isValid_transfer v S merged _); [reflexivity| |exact Hv1].
    unfold status_rule_ok in Hrules.
    destruct (isValid v) as [[edges]|]; [|exact I].
    destruct Hrules as [-> Hedges].
    now apply status_unchanged_valid. }
  cbv zeta in Hmerged |- *. rewrite Hmerged. cbn [bind List.length Nat.ltb Nat.leb]. eauto.
Qed.

Lemma validateProperties_registered (vs : list validation) (o o' : obj) (s : mixinSet) :
  postMixins o = Some s ->
  has s "validateProperties" = true ->
  validateProperties vs o = Ok o' -> o' = o.
Proof.
  intros Hs Hhas H. unfold validateProperties in H.
  destruct (filter_r _ vs) as [invalid|]; cbn [bind] in H; [|discriminate].
  destruct (Nat.ltb 0 (List.length invalid)); [discriminate|].
  injection H as <-. unfold updateMixins. cbn [mixinSets]. rewrite Hs, Hhas.
  reflexivity.
Qed.

Lemma compose_registered_post (s l : mixinSet) (S merged S0 : obj) :
  Forall registered_post l ->
  postMixins S = Some s ->
  postMixins merged = Some s ->
  has s "validateProperties" = true ->
  props merged = props S ->
  prevModel merged = Some S ->
  compose (mixin_values l) S = Ok S0 ->
  compose (mixin_values l) merged = Ok merged.
Proof.
  intros Hall HS Hm Hhas Hprops Hprev. revert S0.
  induction Hall as [|e rest (_ & vs & He & Hrules) _ IH]; intros S0 H.
  - reflexivity.
  - cbn [mixin_values map compose] in *. rewrite He in *. cbn [apply_mixin] in *.
    destruct (validateProperties vs S) as [S1|] eqn:H1; cbn [bind] in H; [|discriminate].
    pose proof (validateProperties_registered _ _ _ _ HS Hhas H1) as ->.
    destruct (validateProperties_transfer vs S merged S Hrules Hprops Hprev H1)
      as [m' Hm'].
    pose proof (validateProperties_registered _ _ _ _ Hm Hhas Hm') as ->.
    rewrite Hm'. cbn [bind]. exact (IH _ H).
Qed.

(** C9. The empty update: for every snapshot [S], [processUpdate(S, {})]
    returns, and the snapshot it returns has the properties of [S], in
    the same order and with the same values; only the symbol-keyed parts
    (predecessor and mixin sets) may differ. *)
Theorem empty_update_keeps_properties (S : obj) :
  snapshot encrypt parse_number S ->
  exists S',
    fst (processUpdate {| model := S; changes := plain [] |}) = Ok S' /\
    props S' = props S.
Proof.
  intros (Hpre & Hpost & S0 & Hself).
  unfold processUpdate. cbn [fst model changes].
  assert (Hupdates : exists updates,
             run_pre S (set_prevModel (plain []) S) = Ok updates /\
             props updates = [] /\ prevModel updates = Some S /\
             postMixins updates = None).
  { unfold run_pre. destruct (preMixins S) as [s|] eqn:Hs.
    - apply compose_registered_pre_empty; auto.
    - eexists. split; [reflexivity|]. cbn. auto. }
  destruct Hupdates as (updates & -> & Hprops & Hprev & Hnone). cbn [bind].
  set (merged := spread S updates).
  assert (Hmprops : props merged = props S)
    by (unfold merged, spread; cbn [props]; now rewrite Hprops).
  assert (Hmprev : prevModel merged = Some S)
    by (unfold merged, spread; cbn [prevModel]; now rewrite Hprev).
  assert (Hmpost : postMixins merged = postMixins S)
    by (unfold merged, spread; cbn [postMixins]; now rewrite Hnone).
  unfold run_post in *. destruct (postMixins S) as [s|] eqn:Hs.
  - exists merged. split; [|exact Hmprops].
    destruct s as [|e rest] eqn:Hset; [reflexivity|]. rewrite <- Hset in *.
    apply compose_registered_post with (s := s) (S := S) (S0 := S0); auto.
    specialize (Hpost s eq_refl). rewrite Hset in Hpost |- *.
    inversion Hpost as [|? ? [Hname _] _]; subst.
    cbn [has existsb]. rewrite Hname. reflexivity.
  - exists merged. split; [reflexivity | exact Hmprops].
Qed.

(** ** Where the sets of an order model come from, and that they stay *)

Lemma validateProperties_result (vs : list validation) (o o' : obj) :
  validateProperties vs o = Ok o' ->
  o' = updateMixins post o "validateProperties" (ValidateProperties vs).
Proof.
  unfold validateProperties. intros H.
  destruct (filter_r _ vs) as [invalid|]; cbn [bind] in H; [|discriminate].
  destruct (Nat.ltb 0 (List.length invalid)); [discriminate|]. now injection H.
Qed.

Lemma freezeProperties_result (b : bool) (ks : list propKeyArg) (o o' : obj) :
  freezeProperties b ks o = Ok o' ->
  o' = updateMixins pre o "freezeProperties" (FreezeProperties true ks).
Proof.
  unfold freezeProperties. intros H.
  destruct (if b then _ else _) as [[]|]; cbn [bind] in H; [|discriminate].
  now injection H.
Qed.

Lemma allowProperties_result (b : bool) (ks : list propKeyArg) (o o' : obj) :
  allowProperties b ks o = Ok o' ->
  o' = updateMixins pre o "allowProperties" (AllowProperties true ks).
Proof.
  unfold allowProperties. intros H.
  destruct (if b then _ else _) as [[]|]; cbn [bind] in H; [|discriminate].
  now injection H.
Qed.

Lemma updateProperties_result (b : bool) (us : list updater) (o o' : obj) :
  updateProperties b us o = Ok o' ->
  exists partial,
    o' = extend (updateMixins pre o "updateProperties" (UpdateProperties true us)) partial.
Proof.
  unfold updateProperties. intros H.
  destruct (updateProps b us o) as [partial|]; cbn [bind] in H; [|discriminate].
  exists partial. now injection H.
Qed.

(** Applied in turn to a model without mixin sets, the mixins of the
    first module leave on it the sets [Order.preSet] and [Order.postSet]. *)
Lemma Order_mixins_register (o o' : obj) :
  preMixins o = None ->
  postMixins o = None ->
  compose Order.mixins o = Ok o' ->
  preMixins o' = Some Order.preSet /\ postMixins o' = Some Order.postSet.
Proof.
  destruct o as [ps pv pre0 post0]. cbn [preMixins postMixins]. intros -> -> H.
  unfold Order.mixins, requirePropertiesMixin, freezePropertiesMixin,
    updatePropertiesMixin, validatePropertiesMixin, allowPropertiesMixin in H.
  cbn [compose apply_mixin] in H.
  destruct (requireProperties requiredKeys _) as [o1|] eqn:H1; cbn [bind] in H;
    [|discriminate].
  apply requireProperties_ok in H1. subst o1.
  destruct (freezeProperties false frozenKeys _) as [o2|] eqn:H2; cbn [bind] in H;
    [|discriminate].
  apply freezeProperties_result in H2. subst o2.
  destruct (updateProperties false totalUpdaters _) as [o3|] eqn:H3; cbn [bind] in H;
    [|discriminate].
  apply updateProperties_result in H3. destruct H3 as [partial ->].
  destruct (validateProperties _ _) as [o4|] eqn:H4; cbn [bind] in H; [|discriminate].
  apply validateProperties_result in H4. subst o4.
  destruct (allowProperties false allowedKeys _) as [o5|] eqn:H5; cbn [bind] in H;
    [|discriminate].
  apply allowProperties_result in H5. subst o5.
  injection H as <-. split; reflexivity.
Qed.

Lemma OrderWorkflow_mixins_register (o o' : obj) :
  preMixins o = None ->
  postMixins o = None ->
  compose OrderWorkflow.orderMixins o = Ok o' ->
  preMixins o' = Some OrderWorkflow.preSet /\ postMixins o' = Some OrderWorkflow.postSet.
Proof.
  destruct o as [ps pv pre0 post0]. cbn [preMixins postMixins]. intros -> -> H.
  unfold OrderWorkflow.orderMixins, requirePropertiesMixin, freezePropertiesMixin,
    updatePropertiesMixin, validatePropertiesMixin in H.
  cbn [compose apply_mixin] in H.
  destruct (requireProperties requiredKeys _) as [o1|] eqn:H1; cbn [bind] in H;
    [|discriminate].
  apply requireProperties_ok in H1. subst o1.
  destruct (freezeProperties false frozenKeys _) as [o2|] eqn:H2; cbn [bind] in H;
    [|discriminate].
  apply freezeProperties_result in H2. subst o2.
  destruct (updateProperties false totalUpdaters _) as [o3|] eqn:H3; cbn [bind] in H;
    [|discriminate].
  apply updateProperties_result in H3. destruct H3 as [partial ->].
  destruct (validateProperties _ _) as [o4|] eqn:H4; cbn [bind] in H; [|discriminate].
  apply validateProperties_result in H4. subst o4.
  injection H as <-. split; reflexivity.
Qed.

(** The sets are sticky: a successful update of an order model by a plain
    change set returns a model with the same sets, whose predecessor is
    the model updated, and which passes its own post phase unchanged. *)
Lemma order_model_sticky (S c S' : obj) :
  order_model S ->
  preMixins c = None ->
  postMixins c = None ->
  fst (processUpdate {| model := S; changes := c |}) = Ok S' ->
  preMixins S' = preMixins S /\ postMixins S' = postMixins S /\
  prevModel S' = Some S /\ run_post S' S' = Ok S'.
Proof.
  destruct c as [ps pv pre0 post0]. cbn [preMixins postMixins]. intros Hmodel -> -> H.
  unfold processUpdate, run_pre, run_post in H. cbn [fst model changes] in H.
  destruct Hmodel as [[Hpre Hpost] | [Hpre Hpost]]; rewrite Hpre, Hpost in *;
    cbn [mixin_values map snd Order.preSet Order.postSet OrderWorkflow.preSet
         OrderWorkflow.postSet compose apply_mixin] in H;
    destruct (freezeProperties true frozenKeys _) as [o1|] eqn:H1; cbn [bind] in H;
    try discriminate;
    apply freezeProperties_result in H1; subst o1;
    destruct (updateProperties true totalUpdaters _) as [o2|] eqn:H2; cbn [bind] in H;
    try discriminate;
    apply updateProperties_result in H2; destruct H2 as [partial ->].
  - destruct (allowProperties true allowedKeys _) as [o3|] eqn:H3; cbn [bind] in H;
      [|discriminate].
    apply allowProperties_result in H3. subst o3.
    destruct (validateProperties _ _) as [o4|] eqn:H4; cbn [bind] in H; [|discriminate].
    pose proof (validateProperties_result _ _ _ H4) as Hshape.
    unfold updateMixins, spread in Hshape. cbn in Hshape. rewrite Hpost in Hshape.
    cbn in Hshape. subst o4. injection H as <-.
    unfold run_post. cbn. rewrite ?Hpost. cbn.
    repeat split.
    unfold updateMixins, spread in H4. cbn in H4. rewrite ?Hpost in H4. cbn in H4.
    rewrite H4. reflexivity.
  - destruct (validateProperties _ _) as [o4|] eqn:H4; cbn [bind] in H; [|discriminate].
    pose proof (validateProperties_result _ _ _ H4) as Hshape.
    unfold updateMixins, spread in Hshape. cbn in Hshape. rewrite Hpost in Hshape.
    cbn in Hshape. subst o4. injection H as <-.
    unfold run_post. cbn. rewrite ?Hpost. cbn.
    repeat split.
    unfold updateMixins, spread in H4. cbn in H4. rewrite ?Hpost in H4. cbn in H4.
    rewrite H4. reflexivity.
Qed.

(** A throw of [processUpdate] is the throw of one of its guards. *)
Lemma processUpdate_throw_origin (h : heap) (e : error) :
  fst (processUpdate h) = Throw e ->
  pre_guard_throws encrypt parse_number h e \/
  post_guard_throws encrypt parse_number h e.
Proof.
  unfold processUpdate. cbn [fst model changes]. intros H.
  destruct (run_pre (model h) (set_prevModel (changes h) (model h)))
    as [updates|e'] eqn:Hpre; cbn [bind] in H.
  - right. unfold run_post in H.
    destruct (postMixins (model h)) as [s|] eqn:Hs; [|discriminate].
    exists s, updates. split; [exact Hs|]. split; [exact Hpre|].
    now apply compose_throw_guard.
  - injection H as ->. left. unfold run_pre in Hpre.
    destruct (preMixins (model h)) as [s|] eqn:Hs; [|discriminate].
    exists s. split; [exact Hs|]. now apply compose_throw_guard.
Qed.

Lemma order_edges_no_self_edge (edges : list (value * value)) :
  edges = Order.invalidStatusChanges \/ edges = OrderWorkflow.invalidStatusChanges ->
  forall e x, In e edges -> strict_eq x (snd e) = true -> strict_eq x (fst e) = false.
Proof.
  intros Hedges e x Hin Hx.
  destruct Hedges as [-> | ->]; cbn in Hin;
    repeat (destruct Hin as [<- | Hin]); try contradiction; cbn [fst snd] in *;
    try (apply strict_eq_VStr in Hx; subst x; reflexivity).
  destruct x; try discriminate. reflexivity.
Qed.

Lemma order_model_sets_registered (S : obj) :
  order_model S ->
  (forall s, preMixins S = Some s -> Forall registered_pre s) /\
  (forall s, postMixins S = Some s -> Forall registered_post s).
Proof.
  intros [[Hpre Hpost] | [Hpre Hpost]]; rewrite Hpre, Hpost; split;
    intros s [= <-]; repeat constructor;
    eexists; (split; [reflexivity|]); repeat constructor;
    apply order_edges_no_self_edge; auto.
Qed.

(** A model returned by the update of an order model is again an order
    model and a snapshot. *)
Lemma order_model_update_snapshot (S c S' : obj) :
  order_model S ->
  preMixins c = None ->
  postMixins c = None ->
  fst (processUpdate {| model := S; changes := c |}) = Ok S' ->
  order_model S' /\ snapshot encrypt parse_number S'.
Proof.
  intros Hmodel Hcpre Hcpost H.
  destruct (order_model_sticky S c S' Hmodel Hcpre Hcpost H)
    as (Hpre' & Hpost' & _ & Hself).
  assert (Hmodel' : order_model S').
  { unfold order_model, carries in *. rewrite Hpre', Hpost'. exact Hmodel. }
  split; [exact Hmodel'|].
  destruct (order_model_sets_registered S' Hmodel') as [Hrpre Hrpost].
  split; [exact Hrpre|]. split; [exact Hrpost|]. now exists S'.
Qed.

(** * Further properties *)

(** ** The guards on their own *)

Lemma getDynamicProps_names (o : obj) (names : list string) :
  getDynamicProps o (map Name names) = Ok (map KStr names).
Proof.
  unfold getDynamicProps. induction names as [|n rest IH]; cbn [map map_r]; [reflexivity|].
  cbn [bind]. rewrite IH. reflexivity.
Qed.

Lemma keys_include_names (names : list string) (k : string) :
  keys_include (map KStr names) k = mem k names.
Proof.
  unfold keys_include, mem. induction names as [|n rest IH]; cbn [map existsb]; [reflexivity|].
  rewrite IH, (String.eqb_sym n k). reflexivity.
Qed.

Lemma keys_include_frozen (status : value) (k : string) :
  keys_include
    [ KStr customerInfo;
      if negb (strict_eq status OrderStatus.PENDING) then KStr orderItems else KNull;
      if negb (strict_eq status OrderStatus.PENDING) then KStr creditCardNumber else KNull;
      if negb (strict_eq status OrderStatus.PENDING) then KStr shippingAddress else KNull;
      if negb (strict_eq status OrderStatus.PENDING) then KStr billingAddress else KNull;
      if includes [OrderStatus.COMPLETE; OrderStatus.CANCELED] status
      then KStr orderStatus else KNull ] k
  = frozen_now status k.
Proof.
  unfold frozen_now, keys_include, mem, approval_frozen. cbn [existsb].
  rewrite !(String.eqb_sym k).
  destruct (negb (strict_eq status OrderStatus.PENDING));
    destruct (includes [OrderStatus.COMPLETE; OrderStatus.CANCELED] status);
    cbn [andb orb negb];
    repeat match goal with
           | |- context [String.eqb ?a k] => destruct (String.eqb a k)
           end; reflexivity.
Qed.

(** The freeze guard of the order modules, by the freezing policy. *)
Lemma freezeProperties_policy (o p : obj) :
  prevModel o = Some p ->
  freezeProperties true frozenKeys o
  = match filter (frozen_now (get p orderStatus)) (Object_keys o) with
    | [] => Ok (updateMixins pre o "freezeProperties" (FreezeProperties true frozenKeys))
    | mutations => Throw (ReadonlyUpdate mutations)
    end.
Proof.
  intros Hp. unfold freezeProperties.
  rewrite (getDynamicProps_frozenKeys o p Hp). cbn [bind].
  rewrite (filter_ext _ _ (keys_include_frozen (get p orderStatus))).
  destruct (filter (frozen_now (get p orderStatus)) (Object_keys o)); reflexivity.
Qed.

(** X1. The order modules' freeze guard, in update mode on a change set
    with a predecessor, throws exactly when the change set holds a key
    that the freezing policy freezes for the predecessor's status
    ([customerInfo] always; the items, card number and both addresses
    once the status is not PENDING; [orderStatus] once it is COMPLETE or
    CANCELED); the error lists all such keys in the order of the change
    set, and otherwise the guard only registers itself. *)
Theorem freeze_guard_exact (o p : obj) :
  prevModel o = Some p ->
  freezeProperties true frozenKeys o
  = match filter (frozen_now (get p orderStatus)) (Object_keys o) with
    | [] => Ok (updateMixins pre o "freezeProperties" (FreezeProperties true frozenKeys))
    | mutations => Throw (ReadonlyUpdate mutations)
    end.
Proof. exact (freezeProperties_policy o p). Qed.

Lemma allowProperties_names (names : list string) (o : obj) :
  allowProperties true (map Name names) o
  = match filter (fun k => negb (mem k names)) (Object_keys o) with
    | [] => Ok (updateMixins pre o "allowProperties" (AllowProperties true (map Name names)))
    | unknownProps => Throw (InvalidProperties unknownProps)
    end.
Proof.
  unfold allowProperties. rewrite getDynamicProps_names. cbn [bind].
  unfold internalPropList. rewrite app_nil_r.
  rewrite (filter_ext _ (fun k => negb (mem k names))
             (fun k => f_equal negb (keys_include_names names k))).
  destruct (filter _ (Object_keys o)); reflexivity.
Qed.

(** X2. An allow guard over literal names, in update mode, returns
    exactly when every key of the change set is among the names;
    otherwise it throws 'invalid properties' with the keys that are not,
    in the order of the change set. *)
Theorem allow_guard_exact (names : list string) (o : obj) :
  allowProperties true (map Name names) o
  = match filter (fun k => negb (mem k names)) (Object_keys o) with
    | [] => Ok (updateMixins pre o "allowProperties" (AllowProperties true (map Name names)))
    | unknownProps => Throw (InvalidProperties unknownProps)
    end.
Proof. exact (allowProperties_names names o). Qed.

(** X3. A require guard over literal names returns its argument exactly
    when every named property is truthy; otherwise it throws 'missing
    required properties' with the names whose property is absent or
    falsy, in the order they were given. *)
Theorem require_guard_exact (names : list string) (o : obj) :
  requireProperties (map Name names) o
  = match filter (fun k => negb (truthy (get o k))) names with
    | [] => Ok o
    | missing => Throw (MissingRequired (map KStr missing))
    end.
Proof.
  unfold requireProperties. rewrite getDynamicProps_names. cbn [bind].
  assert (Hfilter : filter (fun k => negb (truthy (get o (key_name k)))) (map KStr names)
                    = map KStr (filter (fun k => negb (truthy (get o k))) names)).
  { induction names as [|n rest IH]; cbn [map filter key_name]; [reflexivity|].
    destruct (negb (truthy (get o n))); cbn [map]; now rewrite IH. }
  rewrite Hfilter.
  destruct (filter (fun k => negb (truthy (get o k))) names); reflexivity.
Qed.

(** ** The transforms *)

Lemma keys_set_present (b : bag) (k : string) (v : value) :
  has_key b k = true -> keys (set b k v) = keys b.
Proof.
  unfold has_key, keys. induction b as [|[k' v'] rest IH]; cbn [map existsb set fst];
    [discriminate|].
  destruct (String.eqb_spec k' k) as [->|Hne]; cbn [map fst].
  - reflexivity.
  - rewrite (String.eqb_sym k k').
    destruct (String.eqb_spec k' k); [contradiction|]. cbn [orb].
    intros H. now rewrite (IH H).
Qed.

(** Merging in a bag whose keys are all present keeps the keys and their
    order. *)
Lemma keys_assign_present (a b : bag) :
  (forall k, has_key b k = true -> has_key a k = true) ->
  keys (assign a b) = keys a.
Proof.
  intros Hsub. unfold assign.
  assert (G : forall ks acc,
             (forall k, In k ks -> has_key acc k = true) ->
             keys (fold_left (fun acc k => set acc k (lookup b k)) ks acc) = keys acc).
  { induction ks as [|k0 ks IH]; intros acc Hin; cbn [fold_left]; [reflexivity|].
    rewrite IH.
    - apply keys_set_present. apply Hin. now left.
    - intros k Hk. rewrite has_key_set. rewrite (Hin k (or_intror Hk)). reflexivity. }
  apply G. intros k Hk. apply Hsub. now apply has_key_In.
Qed.

Lemma truthy_has_key (b : bag) (k : string) :
  truthy (lookup b k) = true -> has_key b k = true.
Proof.
  intros Ht. destruct (has_key b k) eqn:Hk; [reflexivity|].
  rewrite (has_key_false_lookup _ _ Hk) in Ht. discriminate.
Qed.

(** The fold of [reduce((p, c) => ({ ...c, ...p }))] over bags that agree
    with one function [F] on their keys. *)
Lemma fold_assign_agree (F : string -> value) (L : list bag) (acc : bag) :
  (forall c k, In c (acc :: L) -> has_key c k = true -> lookup c k = F k) ->
  forall k,
    has_key (fold_left (fun p c => assign c p) L acc) k
    = has_key acc k || existsb (fun c => has_key c k) L /\
    (has_key (fold_left (fun p c => assign c p) L acc) k = true ->
     lookup (fold_left (fun p c => assign c p) L acc) k = F k).
Proof.
  revert acc. induction L as [|c rest IH]; intros acc Hagree k; cbn [fold_left existsb].
  - rewrite orb_false_r. split; [reflexivity|]. intros Hk. apply Hagree; [now left | exact Hk].
  - assert (Hstep : forall c0 k0, In c0 (assign c acc :: rest) ->
                                  has_key c0 k0 = true -> lookup c0 k0 = F k0).
    { intros c0 k0 [<- | Hin] Hk0.
      - rewrite lookup_assign.
        destruct (has_key acc k0) eqn:Hacc.
        + apply Hagree; [now left | exact Hacc].
        + rewrite has_key_assign, Hacc, orb_false_r in Hk0.
          apply Hagree; [right; now left | exact Hk0].
      - apply Hagree; [right; now right | exact Hk0]. }
    destruct (IH (assign c acc) Hstep k) as [Hhas Hlook].
    split; [|exact Hlook].
    rewrite Hhas, has_key_assign.
    destruct (has_key c k), (has_key acc k); reflexivity.
Qed.

(** What [encryptProps] / [hashPwds] compute for a non-empty key list: a
    bag holding [f (o[k])] for exactly the listed keys whose property is
    truthy. *)
Lemma transformProps_spec (f : value -> value) (o : obj) (ks : list key) :
  ks <> [] ->
  exists partial,
    transformProps f o ks = Ok partial /\
    forall k,
      has_key partial k
      = existsb (fun x => String.eqb (key_name x) k) ks && truthy (get o k) /\
      (has_key partial k = true -> lookup partial k = f (get o k)).
Proof.
  intros Hne. unfold transformProps.
  set (g := fun k0 : key =>
              if truthy (get o (key_name k0))
              then [(key_name k0, f (get o (key_name k0)))]
              else []).
  destruct ks as [|k0 rest]; [contradiction|]. cbn [map reduce1].
  eexists. split; [reflexivity|]. intros k.
  assert (Hg : forall x c k1, c = g x -> has_key c k1 = true ->
                              key_name x = k1 /\ truthy (get o k1) = true /\
                              lookup c k1 = f (get o k1)).
  { intros x c k1 -> Hk1. unfold g in *.
    destruct (truthy (get o (key_name x))) eqn:Ht; [|discriminate].
    unfold has_key in Hk1. cbn [keys map fst existsb] in Hk1.
    rewrite orb_false_r in Hk1. apply String.eqb_eq in Hk1. subst k1.
    cbn [lookup]. rewrite String.eqb_refl. auto. }
  assert (Hagree : forall c k1, In c (g k0 :: map g rest) ->
                                has_key c k1 = true -> lookup c k1 = f (get o k1)).
  { intros c k1 Hin Hk1.
    assert (Hx : exists x, c = g x).
    { destruct Hin as [<- | Hin]; [eauto|].
      apply in_map_iff in Hin. destruct Hin as (x & <- & _). eauto. }
    destruct Hx as [x Hx]. now destruct (Hg x c k1 Hx Hk1) as (_ & _ & ?). }
  destruct (fold_assign_agree (fun k1 => f (get o k1)) (map g rest) (g k0) Hagree k)
    as [Hhas Hlook].
  split; [|exact Hlook].
  rewrite Hhas.
  assert (Hone : forall x, has_key (g x) k
                           = String.eqb (key_name x) k && truthy (get o k)).
  { intros x. unfold g.
    destruct (String.eqb_spec (key_name x) k) as [<-|Hneq].
    - destruct (truthy (get o (key_name x))); [|reflexivity].
      unfold has_key. cbn. now rewrite String.eqb_refl.
    - destruct (truthy (get o (key_name x))); [|reflexivity].
      unfold has_key. cbn. rewrite orb_false_r.
      destruct (String.eqb_spec k (key_name x)); [congruence | reflexivity]. }
  rewrite Hone. cbn [existsb].
  assert (Hrest : existsb (fun c => has_key c k) (map g rest)
                  = existsb (fun x => String.eqb (key_name x) k) rest && truthy (get o k)).
  { clear -Hone. induction rest as [|x rest IH]; cbn [map existsb]; [reflexivity|].
    rewrite IH, Hone.
    destruct (String.eqb (key_name x) k), (truthy (get o k)),
      (existsb (fun x0 => String.eqb (key_name x0) k) rest); reflexivity. }
  rewrite Hrest.
  destruct (String.eqb (key_name k0) k), (truthy (get o k)),
    (existsb (fun x => String.eqb (key_name x) k) rest); reflexivity.
Qed.

Lemma extend_transformed (f : value -> value) (o mixins : obj) (ks : list key) (partial : bag) :
  props mixins = props o ->
  (forall k,
      has_key partial k
      = existsb (fun x => String.eqb (key_name x) k) ks && truthy (get o k) /\
      (has_key partial k = true -> lookup partial k = f (get o k))) ->
  Object_keys (extend mixins partial) = Object_keys o /\
  forall k, get (extend mixins partial) k = transformed f ks o k.
Proof.
  intros Hprops Hpartial. unfold Object_keys, get, extend. cbn [props]. rewrite Hprops.
  split.
  - apply keys_assign_present. intros k Hk.
    destruct (Hpartial k) as [Hhas _]. rewrite Hk in Hhas.
    symmetry in Hhas. apply andb_true_iff in Hhas. destruct Hhas as [_ Ht].
    now apply truthy_has_key.
  - intros k. rewrite lookup_assign. unfold transformed, get.
    destruct (Hpartial k) as [Hhas Hlook]. unfold get in Hhas. rewrite <- Hhas.
    destruct (has_key partial k); [now apply Hlook | reflexivity].
Qed.

(** The transform guards on a non-empty list of resolved keys. *)
Lemma encryptProperties_spec (propKeys : list propKeyArg) (o : obj) (ks : list key) :
  getDynamicProps o propKeys = Ok ks ->
  ks <> [] ->
  exists o',
    encryptProperties encrypt propKeys o = Ok o' /\
    Object_keys o' = Object_keys o /\
    forall k, get o' k = transformed encrypt ks o k.
Proof.
  intros Hks Hne. unfold encryptProperties. rewrite Hks. cbn [bind].
  destruct (transformProps_spec encrypt o ks Hne) as (partial & -> & Hpartial).
  cbn [bind]. eexists. split; [reflexivity|].
  apply extend_transformed; [apply updateMixins_props | exact Hpartial].
Qed.

Lemma hashPasswords_spec
    (hash : value -> value) (propKeys : list propKeyArg) (o : obj) (ks : list key) :
  getDynamicProps o propKeys = Ok ks ->
  ks <> [] ->
  exists o',
    hashPasswords hash propKeys o = Ok o' /\
    Object_keys o' = Object_keys o /\
    forall k, get o' k = transformed hash ks o k.
Proof.
  intros Hks Hne. unfold hashPasswords. rewrite Hks. cbn [bind].
  destruct (transformProps_spec hash o ks Hne) as (partial & -> & Hpartial).
  cbn [bind]. eexists. split; [reflexivity|].
  apply extend_transformed; [apply updateMixins_props | exact Hpartial].
Qed.

(** X4. The encrypt and hash guards, once their keys are resolved: with
    no key they throw a TypeError (reduce of an empty array) on every
    object; with at least one key they return an object with the same
    keys in the same order, in which each listed property that was truthy
    is replaced by its transform and every other property is as it
    was. *)
Theorem transform_guards_exact
    (hash : value -> value) (propKeys : list propKeyArg) (o : obj) (ks : list key) :
  getDynamicProps o propKeys = Ok ks ->
  (ks = [] ->
   encryptProperties encrypt propKeys o
   = Throw (TypeError "Reduce of empty array with no initial value") /\
   hashPasswords hash propKeys o
   = Throw (TypeError "Reduce of empty array with no initial value")) /\
  (ks <> [] ->
   (exists o',
       encryptProperties encrypt propKeys o = Ok o' /\
       Object_keys o' = Object_keys o /\
       forall k, get o' k = transformed encrypt ks o k) /\
   (exists o',
       hashPasswords hash propKeys o = Ok o' /\
       Object_keys o' = Object_keys o /\
       forall k, get o' k = transformed hash ks o k)).
Proof.
  intros Hks. split.
  - intros ->. unfold encryptProperties, hashPasswords. rewrite Hks. split; reflexivity.
  - intros Hne. split.
    + now apply encryptProperties_spec.
    + now apply hashPasswords_spec.
Qed.

Lemma checkFormat_call (k : string) (expr : value -> bool) (o : obj) :
  call_keyFn (checkFormat k expr) o
  = if format_ok expr o k then Ok (KStr k) else Throw (InvalidFormat k).
Proof.
  unfold format_ok. cbn [call_keyFn].
  destruct (truthy (get o k)), (expr (get o k)); reflexivity.
Qed.

(** X5. The global mixin [encryptPersonalInfo] checks the formats before
    it encrypts anything: it throws 'invalid email', 'invalid phone' or
    'invalid mobile' for the first of these properties that is present
    and does not match its pattern; when all three pass it returns an
    object with the same keys in which the eight personal properties
    that were truthy are encrypted and nothing else has changed. *)
Theorem encryptPersonalInfo_checks_then_encrypts (email phone : value -> bool) (o : obj) :
  (format_ok email o "email" = false ->
   apply_mixin (encryptPersonalInfo email phone) o = Throw (InvalidFormat "email")) /\
  (format_ok email o "email" = true -> format_ok phone o "phone" = false ->
   apply_mixin (encryptPersonalInfo email phone) o = Throw (InvalidFormat "phone")) /\
  (format_ok email o "email" = true -> format_ok phone o "phone" = true ->
   format_ok phone o "mobile" = false ->
   apply_mixin (encryptPersonalInfo email phone) o = Throw (InvalidFormat "mobile")) /\
  (format_ok email o "email" = true -> format_ok phone o "phone" = true ->
   format_ok phone o "mobile" = true ->
   exists o',
     apply_mixin (encryptPersonalInfo email phone) o = Ok o' /\
     Object_keys o' = Object_keys o /\
     forall k,
       get o' k = if mem k personalNames && truthy (get o k)
                  then encrypt (get o k) else get o k).
Proof.
  unfold encryptPersonalInfo. cbn [apply_mixin].
  repeat split.
  - intros He. unfold encryptProperties, getDynamicProps. cbn [map_r bind].
    rewrite checkFormat_call, He. reflexivity.
  - intros He Hp. unfold encryptProperties, getDynamicProps. cbn [map_r bind].
    rewrite !checkFormat_call, He, Hp. reflexivity.
  - intros He Hp Hm. unfold encryptProperties, getDynamicProps. cbn [map_r bind].
    rewrite !checkFormat_call, He, Hp, Hm. reflexivity.
  - intros He Hp Hm.
    assert (Hks : getDynamicProps o
                    [ Name "lastName"; Name "address";
                      Computed (checkFormat "email" email);
                      Computed (checkFormat "phone" phone);
                      Computed (checkFormat "mobile" phone);
                      Name "creditCard"; Name "ccv"; Name "ssn" ]
                  = Ok (map KStr personalNames)).
    { unfold getDynamicProps. cbn [map_r bind].
      rewrite !checkFormat_call, He, Hp, Hm. reflexivity. }
    destruct (encryptProperties_spec _ o _ Hks) as (o' & Ho' & Hkeys & Hget);
      [discriminate|].
    exists o'. split; [exact Ho'|]. split; [exact Hkeys|].
    intros k. rewrite Hget. unfold transformed.
    replace (existsb (fun x => String.eqb (key_name x) k) (map KStr personalNames))
      with (mem k personalNames); [reflexivity|].
    unfold mem, personalNames. cbn [map existsb key_name].
    rewrite !(String.eqb_sym k). reflexivity.
Qed.

(** ** The registry *)

Lemma has_appended (s : mixinSet) (name : string) (cb : mixin) :
  has (s ++ [(name, cb)]) name = true.
Proof.
  unfold has. rewrite existsb_app. cbn. rewrite String.eqb_refl. apply orb_true_r.
Qed.

Lemma find_mixin_app_kept (s : mixinSet) (n name : string) (m cb : mixin) :
  find_mixin s n = Some m -> find_mixin (s ++ [(name, cb)]) n = Some m.
Proof.
  induction s as [|[n0 m0] rest IH]; cbn [find_mixin app]; [discriminate|].
  destruct (String.eqb n0 n); [auto | exact IH].
Qed.

Lemma updateMixins_present (type : mixinType) (o : obj) (s : mixinSet)
    (name : string) (cb : mixin) :
  mixinSets type o = Some s -> has s name = true -> updateMixins type o name cb = o.
Proof. intros Hs Hhas. unfold updateMixins. now rewrite Hs, Hhas. Qed.

Lemma updateMixins_has (type : mixinType) (o : obj) (name : string) (cb : mixin) :
  exists s,
    mixinSets type (updateMixins type o name cb) = Some s /\ has s name = true.
Proof.
  unfold updateMixins. destruct (mixinSets type o) as [s0|] eqn:Hs0.
  - destruct (has s0 name) eqn:Hhas; cbn [negb].
    + exists s0. auto.
    + exists (s0 ++ [(name, cb)]). rewrite mixinSets_with_mixinSet.
      split; [reflexivity | apply has_appended].
  - cbn [has existsb negb app]. exists [(name, cb)].
    rewrite mixinSets_with_mixinSet. split; [reflexivity|].
    apply (has_appended [] name cb).
Qed.

(** X6. Attaching is idempotent and touches nothing else: registering a
    name a second time, with whatever function, returns the object
    unchanged; a registration leaves the string-keyed properties, the
    predecessor and the set of the other phase as they were, and keeps
    every function that was already in the set under its name. *)
Theorem updateMixins_attach_once
    (type : mixinType) (o : obj) (name : string) (cb cb' : mixin) :
  updateMixins type (updateMixins type o name cb) name cb' = updateMixins type o name cb /\
  props (updateMixins type o name cb) = props o /\
  prevModel (updateMixins type o name cb) = prevModel o /\
  mixinSets (match type with pre => post | post => pre end) (updateMixins type o name cb)
  = mixinSets (match type with pre => post | post => pre end) o /\
  (forall s0 n m,
      mixinSets type o = Some s0 -> find_mixin s0 n = Some m ->
      exists s1,
        mixinSets type (updateMixins type o name cb) = Some s1 /\
        find_mixin s1 n = Some m).
Proof.
  split; [|split; [|split; [|split]]].
  - destruct (updateMixins_has type o name cb) as (s & Hs & Hhas).
    exact (updateMixins_present _ _ _ _ _ Hs Hhas).
  - apply updateMixins_props.
  - apply updateMixins_props.
  - unfold updateMixins. destruct (negb (has _ name)); destruct type; reflexivity.
  - intros s0 n m Hs0 Hfind. unfold updateMixins. rewrite Hs0.
    destruct (has s0 name); cbn [negb].
    + exists s0. auto.
    + exists (s0 ++ [(name, cb)]). rewrite mixinSets_with_mixinSet.
      split; [reflexivity | now apply find_mixin_app_kept].
Qed.

(** ** The pipeline *)

(** X9. The mixin sets are sticky across updates: a successful update of
    an order model by a plain change set returns a model that carries the
    same two sets, has the updated model as predecessor, passes its own
    post phase unchanged, and is therefore again an order model and a
    snapshot. *)
Theorem order_model_sets_persist (S c S' : obj) :
  order_model S ->
  plain_changes c ->
  fst (processUpdate {| model := S; changes := c |}) = Ok S' ->
  preMixins S' = preMixins S /\ postMixins S' = postMixins S /\
  prevModel S' = Some S /\ run_post S' S' = Ok S' /\
  order_model S' /\ snapshot encrypt parse_number S'.
Proof.
  intros Hmodel (_ & Hcpre & Hcpost) H.
  destruct (order_model_sticky S c S' Hmodel Hcpre Hcpost H) as (H1 & H2 & H3 & H4).
  destruct (order_model_update_snapshot S c S' Hmodel Hcpre Hcpost H) as [H5 H6].
  auto 10.
Qed.

(** X10. At creation, applying the mixins of an order module in turn to
    a model without sets, when they all return, leaves the properties as
    they were and registers the update-mode freeze, update and (first
    module) allow guards in the pre set, the validation in the post set,
    and no require guard. *)
Theorem order_mixins_register_sets (o o' : obj) :
  preMixins o = None ->
  postMixins o = None ->
  (compose Order.mixins o = Ok o' ->
   preMixins o' = Some Order.preSet /\ postMixins o' = Some Order.postSet /\
   props o' = props o) /\
  (compose OrderWorkflow.orderMixins o = Ok o' ->
   preMixins o' = Some OrderWorkflow.preSet /\
   postMixins o' = Some OrderWorkflow.postSet /\
   props o' = props o).
Proof.
  intros Hpre Hpost. split; intros H.
  - destruct (Order_mixins_register o o' Hpre Hpost H) as [H1 H2].
    split; [exact H1|]. split; [exact H2|].
    unfold Order.mixins, requirePropertiesMixin, freezePropertiesMixin,
      updatePropertiesMixin, validatePropertiesMixin, allowPropertiesMixin in H.
    cbn [compose apply_mixin] in H.
    destruct (requireProperties requiredKeys o) as [o1|] eqn:E1; cbn [bind] in H;
      [|discriminate].
    apply requireProperties_ok in E1. subst o1.
    destruct (freezeProperties false frozenKeys o) as [o2|] eqn:E2; cbn [bind] in H;
      [|discriminate].
    destruct (freezeProperties_ok _ _ _ _ E2) as [P2 _].
    destruct (updateProperties false totalUpdaters o2) as [o3|] eqn:E3; cbn [bind] in H;
      [|discriminate].
    assert (P3 : props o3 = props o2).
    { unfold updateProperties, updateProps in E3. cbn [bind] in E3.
      injection E3 as <-. cbn [extend props]. rewrite assign_nil_r.
      apply updateMixins_props. }
    destruct (validateProperties _ o3) as [o4|] eqn:E4; cbn [bind] in H; [|discriminate].
    destruct (validateProperties_ok _ _ _ E4) as [P4 _].
    destruct (allowProperties false allowedKeys o4) as [o5|] eqn:E5; cbn [bind] in H;
      [|discriminate].
    destruct (allowProperties_ok _ _ _ _ E5) as [P5 _].
    injection H as <-. congruence.
  - destruct (OrderWorkflow_mixins_register o o' Hpre Hpost H) as [H1 H2].
    split; [exact H1|]. split; [exact H2|].
    unfold OrderWorkflow.orderMixins, requirePropertiesMixin, freezePropertiesMixin,
      updatePropertiesMixin, validatePropertiesMixin in H.
    cbn [compose apply_mixin] in H.
    destruct (requireProperties requiredKeys o) as [o1|] eqn:E1; cbn [bind] in H;
      [|discriminate].
    apply requireProperties_ok in E1. subst o1.
    destruct (freezeProperties false frozenKeys o) as [o2|] eqn:E2; cbn [bind] in H;
      [|discriminate].
    destruct (freezeProperties_ok _ _ _ _ E2) as [P2 _].
    destruct (updateProperties false totalUpdaters o2) as [o3|] eqn:E3; cbn [bind] in H;
      [|discriminate].
    assert (P3 : props o3 = props o2).
    { unfold updateProperties, updateProps in E3. cbn [bind] in E3.
      injection E3 as <-. cbn [extend props]. rewrite assign_nil_r.
      apply updateMixins_props. }
    destruct (validateProperties _ o3) as [o4|] eqn:E4; cbn [bind] in H; [|discriminate].
    destruct (validateProperties_ok _ _ _ E4) as [P4 _].
    injection H as <-. congruence.
Qed.

(** ** Updates of an order model, continued *)

Lemma updateProperties_prev (b : bool) (us : list updater) (o o' : obj) :
  updateProperties b us o = Ok o' -> prevModel o' = prevModel o.
Proof.
  unfold updateProperties. intros H.
  destruct (updateProps b us o); cbn [bind] in H; [|discriminate].
  injection H as <-. cbn [extend prevModel]. apply updateMixins_props.
Qed.

(** The post phase of a successful update: the validations of the
    model's module ran on the merged object, whose predecessor is the
    model, and returned it. *)
Lemma order_model_update_validated (S c S' : obj) :
  order_model S ->
  fst (processUpdate {| model := S; changes := c |}) = Ok S' ->
  exists edges merged,
    ((carries S Order.preSet Order.postSet /\ edges = Order.invalidStatusChanges) \/
     (carries S OrderWorkflow.preSet OrderWorkflow.postSet /\
      edges = OrderWorkflow.invalidStatusChanges)) /\
    prevModel merged = Some S /\
    props merged = props S' /\
    validateProperties (orderValidations edges) merged = Ok S'.
Proof.
  intros Hmodel H.
  unfold processUpdate, run_pre, run_post in H. cbn [fst model changes] in H.
  destruct Hmodel as [[Hpre Hpost] | [Hpre Hpost]]; rewrite Hpre, Hpost in H;
    cbn [mixin_values map snd Order.preSet Order.postSet OrderWorkflow.preSet
         OrderWorkflow.postSet compose apply_mixin] in H;
    destruct (freezeProperties true frozenKeys (set_prevModel c S)) as [o1|] eqn:H1;
    cbn [bind] in H; try discriminate;
    destruct (freezeProperties_ok _ _ _ _ H1) as [_ P1];
    destruct (updateProperties true totalUpdaters o1) as [o2|] eqn:H2;
    cbn [bind] in H; try discriminate;
    pose proof (updateProperties_prev _ _ _ _ H2) as P2.
  - destruct (allowProperties true allowedKeys o2) as [o3|] eqn:H3; cbn [bind] in H;
      [|discriminate].
    destruct (allowProperties_ok _ _ _ _ H3) as [_ P3].
    destruct (validateProperties _ (spread S o3)) as [S1|] eqn:H4; cbn [bind] in H;
      [|discriminate].
    injection H as ->.
    exists Order.invalidStatusChanges, (spread S o3).
    split; [left; unfold carries; auto|].
    split; [cbn [spread prevModel]; rewrite P3, P2, P1; reflexivity|].
    split; [symmetry; apply (validateProperties_ok _ _ _ H4) | exact H4].
  - destruct (validateProperties _ (spread S o2)) as [S1|] eqn:H4; cbn [bind] in H;
      [|discriminate].
    injection H as ->.
    exists OrderWorkflow.invalidStatusChanges, (spread S o2).
    split; [right; unfold carries; auto|].
    split; [cbn [spread prevModel]; rewrite P2, P1; reflexivity|].
    split; [symmetry; apply (validateProperties_ok _ _ _ H4) | exact H4].
Qed.

Lemma same_value_zero_VStr (s : string) (v : value) :
  same_value_zero (VStr s) v = true -> VStr s = v.
Proof.
  destruct v; cbn; try discriminate. intros H. apply String.eqb_eq in H. now subst.
Qed.

(** Every rule whose property is truthy held on an object that the
    validation returned. *)
Lemma validateProperties_passed (vs : list validation) (o o' : obj) (v : validation) :
  validateProperties vs o = Ok o' ->
  In v vs ->
  truthy (get o (propKey v)) = true ->
  validator_isValid v o (get o (propKey v)) = Ok true.
Proof.
  unfold validateProperties. intros H Hin Ht.
  destruct (filter_r _ vs) as [invalid|] eqn:Hinvalid; cbn [bind] in H; [|discriminate].
  destruct invalid as [|v0 rest]; [|discriminate].
  apply filter_r_nil in Hinvalid. rewrite Forall_forall in Hinvalid.
  specialize (Hinvalid v Hin). cbv zeta in Hinvalid. rewrite Ht in Hinvalid.
  cbn [negb] in Hinvalid.
  destruct (validator_isValid v o (get o (propKey v))) as [[]|]; cbn [bind negb] in Hinvalid;
    congruence.
Qed.

(** X11. What validation guarantees of every snapshot that an update of
    an order model returns: its [orderStatus], when truthy, is one of the
    five status values, and its [orderTotal], when a non-zero number, is
    strictly below 99999.99. *)
Theorem order_update_result_valid (S c S' : obj) :
  order_model S ->
  fst (processUpdate {| model := S; changes := c |}) = Ok S' ->
  (truthy (get S' orderStatus) = true ->
   In (get S' orderStatus) OrderStatus.values) /\
  (forall t, get S' orderTotal = VNum t -> truthy (VNum t) = true ->
             PrimFloat.ltb t MAXORDER = true).
Proof.
  intros Hmodel H.
  destruct (order_model_update_validated S c S' Hmodel H)
    as (edges & merged & _ & _ & Hprops & Hval).
  assert (Hget : forall k, get merged k = get S' k) by (intros k; unfold get; now rewrite Hprops).
  split.
  - intros Ht.
    pose proof (validateProperties_passed _ _ _ (statusRule edges) Hval
                  (or_introl eq_refl)) as Hrule.
    change (propKey (statusRule edges)) with orderStatus in Hrule.
    rewrite Hget in Hrule. specialize (Hrule Ht).
    rewrite statusRule_isValid in Hrule.
    destruct (call_isValidFn _ merged _) as [[]|]; cbn [bind] in Hrule; try discriminate.
    remember (includes OrderStatus.values (get S' orderStatus)) as b eqn:Hin.
    destruct b; [|discriminate]. symmetry in Hin. unfold includes in Hin.
    apply existsb_exists in Hin. destruct Hin as (x & Hx & Heq).
    assert (x = get S' orderStatus); [|now subst].
    unfold OrderStatus.values in Hx. cbn in Hx.
    repeat (destruct Hx as [<- | Hx]; [now apply same_value_zero_VStr|]).
    contradiction.
  - intros t Htotal Ht.
    pose proof (validateProperties_passed _ _ _ totalRule Hval
                  (or_intror (or_introl eq_refl))) as Hrule.
    change (propKey totalRule) with orderTotal in Hrule.
    rewrite Hget, Htotal in Hrule. specialize (Hrule Ht).
    rewrite totalRule_isValid in Hrule.
    destruct (PrimFloat.ltb t MAXORDER); [reflexivity | discriminate].
Qed.

Lemma keys_set (b : bag) (k : string) (v : value) :
  keys (set b k v) = if has_key b k then keys b else keys b ++ [k].
Proof.
  destruct (has_key b k) eqn:Hk; [now apply keys_set_present|].
  unfold has_key, keys in *. induction b as [|[k' v'] rest IH]; cbn [map existsb set fst app] in *;
    [reflexivity|].
  apply orb_false_iff in Hk. destruct Hk as [Hk Hrest].
  rewrite String.eqb_sym in Hk. rewrite Hk. cbn [map fst]. now rewrite (IH Hrest).
Qed.

(** The merge law of a successful update of an order model. *)
Lemma order_model_merge (S c S' : obj) :
  order_model S ->
  fst (processUpdate {| model := S; changes := c |}) = Ok S' ->
  (forall k, k <> orderTotal ->
             get S' k = if has_key (props c) k then get c k else get S k) /\
  (truthy (get c orderItems) = false ->
   get S' orderTotal
   = if has_key (props c) orderTotal then get c orderTotal else get S orderTotal) /\
  (forall k, has_key (props S) k = true -> has_key (props S') k = true).
Proof.
  intros Hmodel H.
  destruct (order_model_update _ _ _ Hmodel H) as [_ Hprops].
  unfold get.
  destruct Hprops as [[Hfalsy Hp] | (total & Htruthy & _ & Hp)]; rewrite Hp.
  - split; [|split].
    + intros k _. apply lookup_assign.
    + intros _. apply lookup_assign.
    + intros k Hk. now rewrite has_key_assign, Hk.
  - split; [|split].
    + intros k Hk. rewrite lookup_assign, has_key_assign, lookup_assign.
      replace (has_key [(orderTotal, VNum total)] k) with false.
      * now rewrite orb_false_r.
      * unfold has_key. cbn. rewrite orb_false_r. symmetry.
        now apply String.eqb_neq.
    + unfold get in Htruthy. congruence.
    + intros k Hk. now rewrite has_key_assign, Hk.
Qed.

(** X12. The merge law of an order model: in the snapshot that a
    successful update returns, every property other than [orderTotal]
    has the proposed value when the change set holds its key and the
    model's value otherwise; [orderTotal] follows the same rule when no
    truthy [orderItems] is proposed (so a caller can set it directly);
    and every key of the model is a key of the result: an update never
    drops a property. *)
Theorem order_update_merges (S c S' : obj) :
  order_model S ->
  fst (processUpdate {| model := S; changes := c |}) = Ok S' ->
  (forall k, k <> orderTotal ->
             get S' k = if has_key (props c) k then get c k else get S k) /\
  (truthy (get c orderItems) = false ->
   get S' orderTotal
   = if has_key (props c) orderTotal then get c orderTotal else get S orderTotal) /\
  (forall k, has_key (props S) k = true -> has_key (props S') k = true).
Proof. exact (order_model_merge S c S'). Qed.

(** A key that the policy freezes is not in the change set of a
    successful update, and keeps its value. *)
Lemma frozen_key_kept (S c S' : obj) (k : string) :
  order_model S ->
  fst (processUpdate {| model := S; changes := c |}) = Ok S' ->
  frozen_now (get S orderStatus) k = true ->
  has_key (props c) k = false /\ get S' k = get S k.
Proof.
  intros Hmodel H Hfrozen.
  assert (Hnot : has_key (props c) k = false).
  { destruct (has_key (props c) k) eqn:Hk; [|reflexivity]. exfalso.
    apply has_key_In in Hk.
    pose proof (freezeProperties_policy (set_prevModel c S) S eq_refl) as Hfreeze.
    assert (Hin : In k (filter (frozen_now (get S orderStatus))
                          (Object_keys (set_prevModel c S))))
      by (apply filter_In; split; [exact Hk | exact Hfrozen]).
    destruct (filter (frozen_now (get S orderStatus)) (Object_keys (set_prevModel c S)))
      as [|m ms]; [contradiction|].
    rewrite (order_model_freeze_first S c _ Hmodel Hfreeze) in H. discriminate. }
  split; [exact Hnot|].
  destruct (order_model_merge S c S' Hmodel H) as [Hmerge _].
  rewrite Hmerge, Hnot; [reflexivity|].
  intros ->. unfold frozen_now, mem, approval_frozen in Hfrozen. cbn in Hfrozen.
  rewrite !andb_false_r in Hfrozen. discriminate.
Qed.

(** X13. Frozen properties keep their value: across every successful
    update of an order model, each key that the freezing policy freezes
    for the model's status has in the result the value it had in the
    model. *)
Theorem frozen_properties_unchanged (S c S' : obj) (k : string) :
  order_model S ->
  fst (processUpdate {| model := S; changes := c |}) = Ok S' ->
  frozen_now (get S orderStatus) k = true ->
  get S' k = get S k.
Proof. intros Hmodel H Hfrozen. now apply (frozen_key_kept S c S' k). Qed.

Lemma Order_status_edges (o prev : obj) (from to : string) :
  prevModel o = Some prev ->
  get prev orderStatus = VStr from ->
  from <> EmptyString ->
  illegal_edge from to ->
  ~ (from = "SHIPPING" /\ to = "APPROVED") ->
  call_isValidFn (statusChangeValid Order.invalidStatusChanges) o (VStr to)
  = Throw InvalidStatusChange.
Proof.
  intros Hprev Hfrom Hne Hill Hnot.
  unfold call_isValidFn, prev_orderStatus_opt. rewrite Hprev, Hfrom.
  rewrite (truthy_VStr _ Hne). simpl.
  unfold invalidStatusChange, prev_orderStatus. rewrite Hprev, Hfrom. simpl.
  inversion Hill; subst; try reflexivity. exfalso. auto.
Qed.

(** X14. The status machine at the level of updates: a successful update
    of an order model never takes one of the five illegal edges from the
    model's status to the result's status, with the one exception of
    SHIPPING -> APPROVED on a model of the first module. *)
Theorem order_update_takes_no_illegal_edge (S c S' : obj) (from to : string) :
  order_model S ->
  fst (processUpdate {| model := S; changes := c |}) = Ok S' ->
  get S orderStatus = VStr from ->
  get S' orderStatus = VStr to ->
  illegal_edge from to ->
  carries S Order.preSet Order.postSet /\ from = "SHIPPING" /\ to = "APPROVED".
Proof.
  intros Hmodel H Hfrom Hto Hill.
  destruct (order_model_update_validated S c S' Hmodel H)
    as (edges & merged & Hedges & Hprev & Hprops & Hval).
  assert (Hget : get merged orderStatus = VStr to) by (unfold get in *; now rewrite Hprops).
  assert (Hfrom_ne : from <> EmptyString) by (inversion Hill; discriminate).
  assert (Hto_ne : to <> EmptyString) by (inversion Hill; discriminate).
  pose proof (validateProperties_passed _ _ _ (statusRule edges) Hval (or_introl eq_refl))
    as Hrule.
  change (propKey (statusRule edges)) with orderStatus in Hrule.
  rewrite Hget in Hrule. specialize (Hrule (truthy_VStr _ Hto_ne)).
  rewrite statusRule_isValid in Hrule.
  destruct Hedges as [[Hcarries ->] | [Hcarries ->]].
  - split; [exact Hcarries|].
    destruct (String.eqb_spec from "SHIPPING") as [->|Hf];
      destruct (String.eqb_spec to "APPROVED") as [->|Ht]; auto;
      rewrite (Order_status_edges merged S _ _ Hprev Hfrom Hfrom_ne Hill) in Hrule;
      try discriminate; intros [? ?]; congruence.
  - destruct (OrderWorkflow_status_edges merged S from to Hprev Hfrom Hfrom_ne)
      as [Hthrow _].
    rewrite (Hthrow Hill) in Hrule. discriminate.
Qed.

(** ** Terminal states *)

Lemma frozen_now_terminal (status : value) (k : string) :
  status = OrderStatus.COMPLETE \/ status = OrderStatus.CANCELED ->
  In k (customerInfo :: orderStatus :: approval_frozen) ->
  frozen_now status k = true.
Proof.
  intros [-> | ->] Hin; cbn in Hin;
    repeat (destruct Hin as [<- | Hin]; [reflexivity|]); contradiction.
Qed.

(** A run of updates that starts in a final status. *)
Lemma terminal_run_keeps (cs : list obj) (S S' : obj) (k : string) :
  order_model S ->
  Forall plain_changes cs ->
  get S orderStatus = OrderStatus.COMPLETE \/ get S orderStatus = OrderStatus.CANCELED ->
  apply_updates encrypt parse_number S cs = Ok S' ->
  In k (customerInfo :: orderStatus :: approval_frozen) ->
  get S' k = get S k.
Proof.
  intros Hmodel Hplain. revert S Hmodel.
  induction Hplain as [|c rest (_ & Hcpre & Hcpost) _ IH]; intros S Hmodel Hterminal H Hk;
    cbn [apply_updates] in H.
  - now injection H as <-.
  - destruct (fst (processUpdate {| model := S; changes := c |})) as [S1|] eqn:H1;
      cbn [bind] in H; [|discriminate].
    assert (Hstatus : get S1 orderStatus = get S orderStatus).
    { apply (frozen_key_kept S c S1 orderStatus Hmodel H1).
      apply frozen_now_terminal; [exact Hterminal | cbn; auto]. }
    assert (Hmodel1 : order_model S1).
    { destruct (order_model_sticky S c S1 Hmodel Hcpre Hcpost H1) as (Hp & Hq & _).
      unfold order_model, carries in *. rewrite Hp, Hq. exact Hmodel. }
    rewrite (IH S1 Hmodel1); [| now rewrite Hstatus | exact H | exact Hk].
    apply (frozen_key_kept S c S1 k Hmodel H1).
    now apply frozen_now_terminal.
Qed.

(** X15. COMPLETE and CANCELED are final: along any run of successful
    updates of an order model by plain change sets that starts in one of
    these statuses, the status, [customerInfo], the items, the card
    number and both addresses keep the values they had at the start. *)
Theorem terminal_status_is_final (cs : list obj) (S S' : obj) (k : string) :
  order_model S ->
  Forall plain_changes cs ->
  get S orderStatus = OrderStatus.COMPLETE \/ get S orderStatus = OrderStatus.CANCELED ->
  apply_updates encrypt parse_number S cs = Ok S' ->
  In k (customerInfo :: orderStatus :: approval_frozen) ->
  get S' k = get S k.
Proof.
  exact (terminal_run_keeps cs S S' k).
Qed.

(** ** Validation of an order, exactly *)

Lemma some_r_edges_exact (edges : list (value * value)) (o p : obj) (propVal : value) :
  prevModel o = Some p ->
  some_r (fun i => invalidStatusChange (fst i) (snd i) o propVal) edges
  = Ok (existsb (fun e => strict_eq propVal (snd e) && strict_eq (get p orderStatus) (fst e))
          edges).
Proof.
  intros Hp. induction edges as [|e rest IH]; cbn [some_r existsb]; [reflexivity|].
  unfold invalidStatusChange at 1, prev_orderStatus. rewrite Hp.
  destruct (strict_eq propVal (snd e)); cbn [bind andb orb].
  - destruct (strict_eq (get p orderStatus) (fst e)); cbn [orb]; [reflexivity | exact IH].
  - exact IH.
Qed.

Lemma call_isValidFn_exact (edges : list (value * value)) (o : obj) (propVal : value) :
  call_isValidFn (statusChangeValid edges) o propVal
  = if transition_accepted edges (prev_orderStatus_opt o) propVal
    then Ok true else Throw InvalidStatusChange.
Proof.
  unfold call_isValidFn, transition_accepted, prev_orderStatus_opt.
  destruct (prevModel o) as [p|] eqn:Hp; [|reflexivity].
  destruct (negb (truthy (get p orderStatus))); cbn [orb]; [reflexivity|].
  rewrite (some_r_edges_exact edges o p propVal Hp). cbn [bind].
  destruct (existsb _ edges); reflexivity.
Qed.

Lemma totalRule_isValid_any (o : obj) (v : value) :
  validator_isValid totalRule o v = Ok (gt parse_number MAXORDER v).
Proof.
  unfold validator_isValid, validator_tests, totalRule. simpl every_r.
  unfold test_isValid, test_values, test_regex, test_typeof, test_maxnum, test_maxlen.
  cbn [isValid values regex typeOf maxnum maxlen bind].
  destruct (gt parse_number MAXORDER v); reflexivity.
Qed.

(** The outcome of the order modules' validation on any object. *)
Lemma validateProperties_order (edges : list (value * value)) (o : obj) :
  validateProperties (orderValidations edges) o
  = if negb (truthy (get o orderStatus))
       || transition_accepted edges (prev_orderStatus_opt o) (get o orderStatus)
    then match invalid_keys parse_number o with
         | [] => Ok (updateMixins post o "validateProperties"
                       (ValidateProperties (orderValidations edges)))
         | propKeys => Throw (InvalidValue propKeys)
         end
    else Throw InvalidStatusChange.
Proof.
  unfold validateProperties, orderValidations, invalid_keys. cbn [filter_r].
  change (propKey totalRule) with orderTotal.
  change (propKey (statusRule edges)) with orderStatus.
  rewrite statusRule_isValid, call_isValidFn_exact, totalRule_isValid_any.
  destruct (truthy (get o orderStatus)); cbn [negb orb andb bind].
  - destruct (transition_accepted edges (prev_orderStatus_opt o) (get o orderStatus));
      cbn [bind]; [|reflexivity].
    destruct (includes OrderStatus.values (get o orderStatus)); cbn [negb];
      destruct (truthy (get o orderTotal)); cbn [negb andb bind];
      try destruct (gt parse_number MAXORDER (get o orderTotal)); reflexivity.
  - destruct (truthy (get o orderTotal)); cbn [negb andb bind];
      try destruct (gt parse_number MAXORDER (get o orderTotal)); reflexivity.
Qed.

(** X16. The outcome of the order modules' validation, for every object:
    'invalid status change' when the status is truthy and the module's
    table forbids the step from the predecessor's status; otherwise
    'invalid value for ...' naming [orderStatus] if it is truthy and no
    status value, then [orderTotal] if it is truthy and not below
    99999.99; and when neither is named, the object itself with the
    validation registered.  Falsy properties are never validated. *)
Theorem order_validation_exact (edges : list (value * value)) (o : obj) :
  validateProperties (orderValidations edges) o
  = if negb (truthy (get o orderStatus))
       || transition_accepted edges (prev_orderStatus_opt o) (get o orderStatus)
    then match invalid_keys parse_number o with
         | [] => Ok (updateMixins post o "validateProperties"
                       (ValidateProperties (orderValidations edges)))
         | propKeys => Throw (InvalidValue propKeys)
         end
    else Throw InvalidStatusChange.
Proof. exact (validateProperties_order edges o). Qed.

(** ** When an update of an order model is accepted *)

Lemma updateProperties_total_exact (o : obj) :
  updateProperties true totalUpdaters o
  = if truthy (get o orderItems)
    then total <- calcTotal (get o orderItems) ;;
         Ok (extend (updateMixins pre o "updateProperties"
                       (UpdateProperties true totalUpdaters))
               [(orderTotal, VNum total)])
    else Ok (extend (updateMixins pre o "updateProperties"
                       (UpdateProperties true totalUpdaters)) []).
Proof.
  unfold updateProperties, updateProps, totalUpdaters. simpl.
  destruct (truthy (get o orderItems)); simpl; [|reflexivity].
  unfold call_updaterFn.
  destruct (calcTotal (get o orderItems)); reflexivity.
Qed.

Lemma order_post_exact (edges : list (value * value)) (S u : obj) :
  prevModel u = Some S ->
  match validateProperties (orderValidations edges) (spread S u) with
  | Ok S' =>
      status_accepted edges (get S orderStatus)
        (lookup (assign (props S) (props u)) orderStatus)
      && total_accepted parse_number (lookup (assign (props S) (props u)) orderTotal)
      = true /\
      props S' = assign (props S) (props u)
  | Throw _ =>
      status_accepted edges (get S orderStatus)
        (lookup (assign (props S) (props u)) orderStatus)
      && total_accepted parse_number (lookup (assign (props S) (props u)) orderTotal)
      = false
  end.
Proof.
  intros Hprev. rewrite validateProperties_order.
  assert (Hp : prev_orderStatus_opt (spread S u) = get S orderStatus)
    by (unfold prev_orderStatus_opt; cbn [spread prevModel]; now rewrite Hprev).
  rewrite Hp. unfold invalid_keys, status_accepted, total_accepted.
  change (get (spread S u) orderStatus)
    with (lookup (assign (props S) (props u)) orderStatus).
  change (get (spread S u) orderTotal)
    with (lookup (assign (props S) (props u)) orderTotal).
  destruct (truthy (lookup (assign (props S) (props u)) orderStatus));
    destruct (transition_accepted edges (get S orderStatus)
                (lookup (assign (props S) (props u)) orderStatus));
    destruct (includes OrderStatus.values
                (lookup (assign (props S) (props u)) orderStatus));
    destruct (truthy (lookup (assign (props S) (props u)) orderTotal));
    destruct (gt parse_number MAXORDER (lookup (assign (props S) (props u)) orderTotal));
    cbn [negb orb andb app]; try reflexivity;
    (split; [reflexivity | apply updateMixins_props]).
Qed.

Lemma filter_negb_nil {A : Type} (f : A -> bool) (l : list A) :
  filter (fun x => negb (f x)) l = [] <-> forallb f l = true.
Proof.
  induction l as [|a rest IH]; cbn [filter forallb]; [tauto|].
  destruct (f a); cbn [negb andb]; [exact IH | split; discriminate].
Qed.

Lemma allowed_keys_with_total (b : bag) (v : value) :
  forallb (fun k => mem k allowedNames) (keys (assign b [(orderTotal, v)]))
  = forallb (fun k => mem k allowedNames) (keys b).
Proof.
  unfold assign. cbn [keys map fst fold_left lookup]. rewrite String.eqb_refl.
  rewrite keys_set. destruct (has_key b orderTotal); [reflexivity|].
  rewrite forallb_app. cbn. apply andb_true_r.
Qed.

(** The pipeline against the acceptance conditions. *)
Lemma update_accepted_spec (S c : obj) (with_allow : bool) (edges : list (value * value)) :
  module_of S with_allow edges ->
  match fst (processUpdate {| model := S; changes := c |}) with
  | Ok S' =>
      update_accepted parse_number with_allow edges S c = true /\
      merged_props S c = Ok (props S')
  | Throw _ => update_accepted parse_number with_allow edges S c = false
  end.
Proof.
  intros Hmod. unfold processUpdate, run_pre, run_post. cbn [fst model changes].
  unfold update_accepted, merged_props.
  pose proof (freezeProperties_policy (set_prevModel c S) S eq_refl) as Hfreeze.
  change (Object_keys (set_prevModel c S)) with (Object_keys c) in Hfreeze.
  set (o1 := updateMixins pre (set_prevModel c S) "freezeProperties"
               (FreezeProperties true frozenKeys)) in *.
  assert (Hp1 : props o1 = props c)
    by exact (proj1 (updateMixins_props pre (set_prevModel c S) _ _)).
  assert (Hprev1 : prevModel o1 = Some S)
    by exact (proj2 (updateMixins_props pre (set_prevModel c S) _ _)).
  assert (Hitems : get o1 orderItems = get c orderItems) by (unfold get; now rewrite Hp1).
  pose proof (updateProperties_total_exact o1) as Hupd. rewrite Hitems in Hupd.
  set (m1 := updateMixins pre o1 "updateProperties" (UpdateProperties true totalUpdaters))
    in *.
  assert (Hpm : props m1 = props c)
    by (unfold m1; rewrite (proj1 (updateMixins_props _ _ _ _)); exact Hp1).
  assert (Hprevm : prevModel m1 = Some S)
    by (unfold m1; rewrite (proj2 (updateMixins_props _ _ _ _)); exact Hprev1).
  destruct Hmod as [([Hpre Hpost] & -> & ->) | ([Hpre Hpost] & -> & ->)];
    rewrite Hpre, Hpost;
    cbn [mixin_values map snd Order.preSet Order.postSet OrderWorkflow.preSet
         OrderWorkflow.postSet compose apply_mixin];
    rewrite Hfreeze;
    destruct (filter (frozen_now (get S orderStatus)) (Object_keys c)) as [|m ms];
    cbn [bind]; try reflexivity;
    rewrite Hupd;
    destruct (truthy (get c orderItems));
    try (destruct (calcTotal (get c orderItems)) as [total|]; cbn [bind];
         [|reflexivity]);
    cbn [bind negb orb].
  - (* first module, items proposed *)
    change allowedKeys with (map Name allowedNames). rewrite allowProperties_names.
    unfold Object_keys at 1. cbn [extend props]. rewrite Hpm.
    destruct (forallb (fun k => mem k allowedNames) (Object_keys c)) eqn:Hallow.
    + pose proof Hallow as Hallow'. unfold Object_keys in Hallow'.
      rewrite <- (allowed_keys_with_total (props c) (VNum total)) in Hallow'.
      apply filter_negb_nil in Hallow'. rewrite Hallow'. cbn [bind].
      set (o3 := updateMixins pre (extend m1 [(orderTotal, VNum total)]) "allowProperties"
                   (AllowProperties true (map Name allowedNames))).
      assert (Hp3 : props o3 = assign (props c) [(orderTotal, VNum total)])
        by (unfold o3; rewrite (proj1 (updateMixins_props _ _ _ _));
            cbn [extend props]; now rewrite Hpm).
      assert (Hprev3 : prevModel o3 = Some S)
        by (unfold o3; rewrite (proj2 (updateMixins_props _ _ _ _)); exact Hprevm).
      pose proof (order_post_exact Order.invalidStatusChanges S o3 Hprev3) as Hpost3.
      rewrite Hp3 in Hpost3.
      destruct (validateProperties _ (spread S o3)) as [S'|].
      * destruct Hpost3 as [Hacc Hprops]. split; [exact Hacc | now rewrite Hprops].
      * exact Hpost3.
    + destruct (filter (fun k => negb (mem k allowedNames))
                  (keys (assign (props c) [(orderTotal, VNum total)]))) eqn:Hunknown.
      * apply filter_negb_nil in Hunknown.
        rewrite allowed_keys_with_total in Hunknown. unfold Object_keys in Hallow.
        congruence.
      * reflexivity.
  - (* first module, no items *)
    change allowedKeys with (map Name allowedNames). rewrite allowProperties_names.
    unfold Object_keys at 1. cbn [extend props]. rewrite Hpm, assign_nil_r.
    destruct (forallb (fun k => mem k allowedNames) (Object_keys c)) eqn:Hallow.
    + pose proof Hallow as Hallow'. unfold Object_keys in Hallow'.
      apply filter_negb_nil in Hallow'. rewrite Hallow'. cbn [bind].
      set (o3 := updateMixins pre (extend m1 []) "allowProperties"
                   (AllowProperties true (map Name allowedNames))).
      assert (Hp3 : props o3 = props c)
        by (unfold o3; rewrite (proj1 (updateMixins_props _ _ _ _));
            cbn [extend props]; now rewrite Hpm).
      assert (Hprev3 : prevModel o3 = Some S)
        by (unfold o3; rewrite (proj2 (updateMixins_props _ _ _ _)); exact Hprevm).
      pose proof (order_post_exact Order.invalidStatusChanges S o3 Hprev3) as Hpost3.
      rewrite Hp3 in Hpost3.
      destruct (validateProperties _ (spread S o3)) as [S'|].
      * destruct Hpost3 as [Hacc Hprops]. split; [exact Hacc | now rewrite Hprops].
      * exact Hpost3.
    + destruct (filter (fun k => negb (mem k allowedNames)) (keys (props c))) eqn:Hunknown.
      * apply filter_negb_nil in Hunknown. unfold Object_keys in Hallow. congruence.
      * reflexivity.
  - (* second module, items proposed *)
    set (o2 := extend m1 [(orderTotal, VNum total)]).
    assert (Hp2 : props o2 = assign (props c) [(orderTotal, VNum total)])
      by (unfold o2; cbn [extend props]; now rewrite Hpm).
    pose proof (order_post_exact OrderWorkflow.invalidStatusChanges S o2 Hprevm) as Hpost2.
    rewrite Hp2 in Hpost2.
    destruct (validateProperties _ (spread S o2)) as [S'|].
    + destruct Hpost2 as [Hacc Hprops]. split; [exact Hacc | now rewrite Hprops].
    + exact Hpost2.
  - (* second module, no items *)
    set (o2 := extend m1 []).
    assert (Hp2 : props o2 = props c)
      by (unfold o2; cbn [extend props]; now rewrite Hpm).
    pose proof (order_post_exact OrderWorkflow.invalidStatusChanges S o2 Hprevm) as Hpost2.
    rewrite Hp2 in Hpost2.
    destruct (validateProperties _ (spread S o2)) as [S'|].
    + destruct Hpost2 as [Hacc Hprops]. split; [exact Hacc | now rewrite Hprops].
    + exact Hpost2.
Qed.

(** X17. An update of an order model succeeds exactly when the acceptance
    conditions hold: no proposed key is frozen at the model's status, the
    recomputation of the total does not throw, the first module's
    allow-list covers the proposed keys, and the merged status and total
    pass their rules.  The snapshot then has the merged properties. *)
Theorem order_update_accepted_exactly
    (S c : obj) (with_allow : bool) (edges : list (value * value)) :
  module_of S with_allow edges ->
  (update_accepted parse_number with_allow edges S c = true ->
   exists S', fst (processUpdate {| model := S; changes := c |}) = Ok S' /\
              merged_props S c = Ok (props S')) /\
  (update_accepted parse_number with_allow edges S c = false ->
   exists e, fst (processUpdate {| model := S; changes := c |}) = Throw e).
Proof.
  intros Hmod. pose proof (update_accepted_spec S c with_allow edges Hmod) as H.
  destruct (fst (processUpdate {| model := S; changes := c |})) as [S'|e].
  - destruct H as [Hacc Hprops]. split.
    + intros _. exists S'. split; [reflexivity | exact Hprops].
    + congruence.
  - split; [congruence|]. intros _. now exists e.
Qed.

(** An update that proposes a status and nothing else. *)
Lemma status_update_accepted
    (S : obj) (with_allow : bool) (edges : list (value * value)) (x : value) :
  update_accepted parse_number with_allow edges S (plain [(orderStatus, x)])
  = negb (includes [OrderStatus.COMPLETE; OrderStatus.CANCELED] (get S orderStatus))
    && status_accepted edges (get S orderStatus) x
    && total_accepted parse_number (get S orderTotal).
Proof.
  unfold update_accepted, merged_props.
  change (Object_keys (plain [(orderStatus, x)])) with [orderStatus].
  change (get (plain [(orderStatus, x)]) orderItems) with VUndefined.
  cbn [truthy filter]. unfold frozen_now.
  change (String.eqb orderStatus customerInfo) with false.
  change (mem orderStatus approval_frozen) with false.
  change (String.eqb orderStatus orderStatus) with true.
  rewrite andb_false_r, andb_true_r. cbn [orb].
  change (props (plain [(orderStatus, x)])) with [(orderStatus, x)].
  rewrite !lookup_assign.
  change (has_key [(orderStatus, x)] orderStatus) with true.
  change (has_key [(orderStatus, x)] orderTotal) with false.
  change (lookup [(orderStatus, x)] orderStatus) with x.
  change (forallb (fun k => mem k allowedNames) [orderStatus]) with true.
  rewrite orb_true_r. cbn [andb].
  destruct (includes [OrderStatus.COMPLETE; OrderStatus.CANCELED] (get S orderStatus));
    reflexivity.
Qed.

Lemma status_update_result
    (S S' : obj) (with_allow : bool) (edges : list (value * value)) (x : value) :
  module_of S with_allow edges ->
  fst (processUpdate {| model := S; changes := plain [(orderStatus, x)] |}) = Ok S' ->
  module_of S' with_allow edges /\
  get S' orderStatus = x /\ get S' orderTotal = get S orderTotal.
Proof.
  intros Hmod H.
  assert (Hmodel : order_model S)
    by (destruct Hmod as [[Hc _] | [Hc _]]; [left | right]; exact Hc).
  destruct (order_model_sticky S (plain [(orderStatus, x)]) S' Hmodel eq_refl eq_refl H)
    as (Hpre & Hpost & _).
  pose proof (update_accepted_spec S (plain [(orderStatus, x)]) with_allow edges Hmod) as Hs.
  rewrite H in Hs. destruct Hs as [_ Hprops].
  unfold merged_props in Hprops.
  change (get (plain [(orderStatus, x)]) orderItems) with VUndefined in Hprops.
  cbn [truthy] in Hprops. injection Hprops as Hprops.
  split; [|split].
  - unfold module_of, carries in *. rewrite Hpre, Hpost. exact Hmod.
  - unfold get. rewrite <- Hprops, lookup_assign. reflexivity.
  - unfold get. rewrite <- Hprops, lookup_assign. reflexivity.
Qed.

Lemma falsy_not_status (z : value) (l : list value) :
  truthy z = false ->
  Forall (fun x => exists s, x = VStr s /\ s <> EmptyString) l ->
  includes l z = false.
Proof.
  intros Hz Hl. unfold includes. induction Hl as [|x rest (s & -> & Hs) _ IH];
    [reflexivity|].
  cbn [existsb]. rewrite IH, orb_false_r.
  destruct (same_value_zero (VStr s) z) eqn:E; [|reflexivity].
  apply same_value_zero_VStr in E. subst z. cbn in Hz.
  apply negb_false_iff, String.eqb_eq in Hz. contradiction.
Qed.

Lemma status_values_truthy (v : value) :
  includes OrderStatus.values v = true -> truthy v = true.
Proof.
  unfold includes, OrderStatus.values. cbn [existsb]. intros H.
  repeat (apply orb_true_iff in H; destruct H as [H | H];
          [apply same_value_zero_VStr in H; subst v; reflexivity|]).
  discriminate.
Qed.

(** X18. The table of invalid status changes is consulted only against a
    truthy predecessor status: from an order that is not complete or
    canceled, an update to a falsy status followed by an update to any
    status value succeeds, whatever the table says about the step from
    the original status. *)
Theorem falsy_status_resets_transitions
    (S : obj) (with_allow : bool) (edges : list (value * value)) (z v : value) :
  module_of S with_allow edges ->
  includes [OrderStatus.COMPLETE; OrderStatus.CANCELED] (get S orderStatus) = false ->
  total_accepted parse_number (get S orderTotal) = true ->
  truthy z = false ->
  includes OrderStatus.values v = true ->
  exists S',
    apply_updates encrypt parse_number S
      [plain [(orderStatus, z)]; plain [(orderStatus, v)]] = Ok S' /\
    get S' orderStatus = v.
Proof.
  intros Hmod Hopen Htotal Hz Hv. cbn [apply_updates].
  pose proof (update_accepted_spec S (plain [(orderStatus, z)]) with_allow edges Hmod)
    as H1.
  rewrite status_update_accepted, Hopen, Htotal in H1.
  unfold status_accepted in H1. rewrite Hz in H1. cbn [negb orb andb] in H1.
  destruct (fst (processUpdate {| model := S; changes := plain [(orderStatus, z)] |}))
    as [S1|e1] eqn:E1; [|discriminate].
  cbn [bind].
  destruct (status_update_result S S1 with_allow edges z Hmod E1)
    as (Hmod1 & Hst1 & Htot1).
  pose proof (update_accepted_spec S1 (plain [(orderStatus, v)]) with_allow edges Hmod1)
    as H2.
  rewrite status_update_accepted, Hst1, Htot1, Htotal in H2.
  rewrite (falsy_not_status z [OrderStatus.COMPLETE; OrderStatus.CANCELED] Hz) in H2.
  2:{ repeat constructor; eexists; (split; [reflexivity | discriminate]). }
  unfold status_accepted, transition_accepted in H2.
  rewrite Hz, Hv in H2. cbn [negb orb andb] in H2. rewrite orb_true_r in H2.
  destruct (fst (processUpdate {| model := S1; changes := plain [(orderStatus, v)] |}))
    as [S2|e2] eqn:E2; [|discriminate].
  cbn [bind]. exists S2. split; [reflexivity|].
  now destruct (status_update_result S1 S2 with_allow edges v Hmod1 E2) as (_ & Hst2 & _).
Qed.

(** ** The allow-list of the first module *)

Lemma forallb_mem_has_key (names : list string) (b : bag) (k : string) :
  forallb (fun x => mem x names) (keys b) = true ->
  mem k names = false ->
  has_key b k = false.
Proof.
  intros Hall Hk. destruct (has_key b k) eqn:E; [|reflexivity].
  apply has_key_In in E. rewrite forallb_forall in Hall.
  rewrite (Hall k E) in Hk. discriminate.
Qed.

(** X19. In the first module a property outside the allow-list never
    changes: across every successful update of a model that carries the
    module's sets, each such property (the order number, the methods of
    the order) has in the result the value it had in the model. *)
Theorem unlisted_properties_unchanged (S c S' : obj) (k : string) :
  carries S Order.preSet Order.postSet ->
  fst (processUpdate {| model := S; changes := c |}) = Ok S' ->
  mem k allowedNames = false ->
  get S' k = get S k.
Proof.
  intros Hc H Hk.
  assert (Hmod : module_of S true Order.invalidStatusChanges)
    by (left; repeat split; apply Hc).
  pose proof (update_accepted_spec S c true Order.invalidStatusChanges Hmod) as Hs.
  rewrite H in Hs. destruct Hs as [Hacc _].
  unfold update_accepted in Hacc.
  destruct (filter _ (Object_keys c)); [|discriminate].
  destruct (merged_props S c); [|discriminate].
  cbn [negb orb] in Hacc.
  apply andb_true_iff in Hacc. destruct Hacc as [Hacc _].
  apply andb_true_iff in Hacc. destruct Hacc as [Hall _].
  pose proof (forallb_mem_has_key allowedNames (props c) k Hall Hk) as Hnot.
  destruct (order_model_merge S c S' (or_introl Hc) H) as (Hmerge & _).
  rewrite Hmerge, Hnot; [reflexivity|].
  intros ->. discriminate.
Qed.

(** ** [checkItems], exactly *)

Lemma every_r_items_true (l : list value) :
  every_r (fun i =>
             itemId <- of_option "Cannot read properties of null (reading 'itemId')"
                         (get_prop i "itemId") ;;
             if truthy itemId
             then price <- of_option "Cannot read properties of null (reading 'price')"
                             (get_prop i "price") ;;
                  Ok (String.eqb (typeof price) "number")
             else Ok false) l = Ok true ->
  Forall valid_item l.
Proof.
  induction l as [|i rest IH]; [constructor|].
  cbn [every_r]. intros H.
  destruct i as [| |b|n|s|a|fields|name arity]; cbn in H; try discriminate.
  destruct (truthy (lookup fields "itemId")) eqn:Hid; cbn in H; [|discriminate].
  destruct (lookup fields "price") as [| |b|p|s|a|f|name arity] eqn:Hprice;
    cbn in H; try discriminate.
  constructor; [|exact (IH H)].
  exists fields, p. repeat split; assumption.
Qed.

Lemma every_r_items_error (l : list value) (e : error) :
  every_r (fun i =>
             itemId <- of_option "Cannot read properties of null (reading 'itemId')"
                         (get_prop i "itemId") ;;
             if truthy itemId
             then price <- of_option "Cannot read properties of null (reading 'price')"
                             (get_prop i "price") ;;
                  Ok (String.eqb (typeof price) "number")
             else Ok false) l = Throw e ->
  exists what, e = TypeError what.
Proof.
  induction l as [|i rest IH]; cbn [every_r]; [discriminate|].
  destruct (get_prop i "itemId") as [itemId|]; cbn [of_option bind];
    [|intros [= <-]; eauto].
  destruct (truthy itemId); cbn [bind]; [|discriminate].
  destruct (get_prop i "price") as [price|]; cbn [of_option bind];
    [|intros [= <-]; eauto].
  destruct (String.eqb (typeof price) "number"); [exact IH | discriminate].
Qed.

(** The items that [checkItems] examines: the array itself, or the
    one-element array of a value that is no array. *)
Lemma checkItems_spec (items : value) :
  (forall l, checkItems items = Ok l <->
             truthy items = true /\
             l = match items with VArr l0 => l0 | _ => [items] end /\
             valid_items l) /\
  (checkItems items = Throw NoItems <-> truthy items = false).
Proof.
  unfold checkItems.
  destruct (truthy items) eqn:Ht; cbn [negb].
  - set (_items := match items with VArr l0 => l0 | _ => [items] end).
    split.
    + intros l. split.
      * intros H. split; [reflexivity|].
        destruct _items as [|i rest] eqn:Hitems; [discriminate|].
        change (Nat.ltb 0 (List.length (i :: rest))) with true in H. cbv iota in H.
        destruct (every_r _ (i :: rest)) as [[]|] eqn:Hev; cbn [bind] in H;
          try discriminate.
        injection H as <-. split; [reflexivity|].
        split; [discriminate | exact (every_r_items_true _ Hev)].
      * intros (_ & -> & Hne & Hall).
        destruct _items as [|i rest]; [contradiction|].
        change (Nat.ltb 0 (List.length (i :: rest))) with true. cbv iota.
        rewrite (every_r_valid_items _ Hall). reflexivity.
    + split; [|discriminate]. intros H. exfalso.
      destruct (Nat.ltb 0 (List.length _items)); cbn [bind] in H; [|discriminate].
      destruct (every_r _ _items) as [[]|e] eqn:Hev; cbn [bind] in H; try discriminate.
      injection H as ->. destruct (every_r_items_error _ _ Hev) as [what Hw].
      discriminate.
  - split; [|split; reflexivity].
    intros l. split; [discriminate | intros (Hcontra & _); discriminate].
Qed.

(** X20. [checkItems] returns exactly on a truthy argument whose items
    (the array itself, or the value alone when it is no array) are
    non-empty and each a record with a truthy [itemId] and a numeric
    [price], and then returns those items; it reports 'order contains no
    items' exactly on a falsy argument, so an empty array is reported as
    invalid items instead. *)
Theorem checkItems_exact (items : value) :
  (forall l, checkItems items = Ok l <->
             truthy items = true /\
             l = match items with VArr l0 => l0 | _ => [items] end /\
             valid_items l) /\
  (checkItems items = Throw NoItems <-> truthy items = false).
Proof. exact (checkItems_spec items). Qed.

(** ** Creation against the require guard *)




(** ** Deletion *)

Lemma readyToDelete_ok (m m' : obj) :
  readyToDelete m = Ok m' <->
  m' = m /\
  (get m orderStatus = OrderStatus.COMPLETE \/ get m orderStatus = OrderStatus.CANCELED).
Proof.
  unfold readyToDelete, includes. cbn [existsb]. rewrite orb_false_r.
  split.
  - destruct (same_value_zero OrderStatus.COMPLETE (get m orderStatus)) eqn:E1;
      [|destruct (same_value_zero OrderStatus.CANCELED (get m orderStatus)) eqn:E2];
      cbn [orb negb]; try discriminate; intros [= <-]; (split; [reflexivity|]).
    + left. symmetry. exact (same_value_zero_VStr _ _ E1).
    + right. symmetry. exact (same_value_zero_VStr _ _ E2).
  - intros (-> & [-> | ->]); reflexivity.
Qed.

(** X22. An order that may be deleted stays so: when [readyToDelete]
    lets a model through, it lets through every snapshot that a run of
    successful updates by plain change sets reaches from it. *)
Theorem deletable_stays_deletable (cs : list obj) (S S' : obj) :
  order_model S ->
  Forall plain_changes cs ->
  readyToDelete S = Ok S ->
  apply_updates encrypt parse_number S cs = Ok S' ->
  readyToDelete S' = Ok S'.
Proof.
  intros Hmodel Hplain Hdel Hrun.
  apply readyToDelete_ok in Hdel. destruct Hdel as [_ Hterminal].
  apply readyToDelete_ok. split; [reflexivity|].
  rewrite (terminal_run_keeps cs S S' orderStatus Hmodel Hplain Hterminal Hrun);
    [exact Hterminal | cbn; auto].
Qed.

(** ** Dispatch on the status *)

Lemma call_method_cases (invoke : string -> obj -> result value) (order : obj) (m : string) :
  (call_method invoke order m = (Ok tt, [m]) /\ resolved invoke order m) \/
  (exists e, call_method invoke order m = (Throw e, [m])) \/
  (exists e, call_method invoke order m = (Throw e, [])).
Proof.
  unfold call_method, resolved.
  destruct (get order m) as [| |b|n|s|a|f|name arity]; try (right; right; eauto; fail).
  destruct (invoke name order) as [v|e] eqn:E; cbn [bind].
  - left. split; [reflexivity|]. now exists name, arity, v.
  - right. left. now exists e.
Qed.

Lemma dispatch_calls
    (invoke : string -> obj -> result value) (order : obj) (r : result unit)
    (t : list string) :
  handleStatusChange invoke order = Some (r, t) ->
  (In "shipOrder" t ->
   resolved invoke order "completePayment" /\ t = ["completePayment"; "shipOrder"]) /\
  (r = Ok tt -> forall m, In m t -> resolved invoke order m).
Proof.
  unfold handleStatusChange.
  destruct (get order orderStatus) as [| |b|n|key|a|f|name arity]; try discriminate.
  unfold OrderActions.
  destruct (String.eqb key "PENDING").
  { intros [= <- <-]. split; [intros [] | intros _ m []]. }
  destruct (String.eqb key "APPROVED").
  { unfold shipOrder, and_then. cbv zeta.
    destruct (call_method_cases invoke order "completePayment")
      as [[-> Hpay] | [[e ->] | [e ->]]]; cbn [fst snd app].
    - destruct (call_method_cases invoke order "shipOrder")
        as [[-> Hship] | [[e ->] | [e ->]]]; cbn [fst snd app];
        intros [= <- <-]; (split; [intros Hin | intros Hr m Hm]); try discriminate.
      + now split.
      + destruct Hm as [<- | [<- | []]]; assumption.
      + now split.
      + destruct Hin as [Hin | []]; discriminate.
    - intros [= <- <-]. split; [intros [Hin | []]; discriminate | discriminate].
    - intros [= <- <-]. split; [intros [] | discriminate]. }
  destruct (String.eqb key "SHIPPING").
  { unfold trackShipment.
    destruct (call_method_cases invoke order "trackShipment")
      as [[-> Hcall] | [[e ->] | [e ->]]]; intros [= <- <-];
      (split; [intros Hin | intros Hr m Hm]); try discriminate;
      try (destruct Hin as [Hin | []]; discriminate); try contradiction.
    destruct Hm as [<- | []]. exact Hcall. }
  destruct (String.eqb key "CANCELED").
  { unfold refundPayment.
    destruct (call_method_cases invoke order "refundPayment")
      as [[-> Hcall] | [[e ->] | [e ->]]]; intros [= <- <-];
      (split; [intros Hin | intros Hr m Hm]); try discriminate;
      try (destruct Hin as [Hin | []]; discriminate); try contradiction.
    destruct Hm as [<- | []]. exact Hcall. }
  destruct (String.eqb key "COMPLETE"); [|discriminate].
  unfold verifyDelivery.
  destruct (call_method_cases invoke order "verifyDelivery")
    as [[-> Hcall] | [[e ->] | [e ->]]]; intros [= <- <-];
    (split; [intros Hin | intros Hr m Hm]); try discriminate;
    try (destruct Hin as [Hin | []]; discriminate); try contradiction.
  destruct Hm as [<- | []]. exact Hcall.
Qed.

(** X23. Dispatch on the status in the first module: whatever the
    adapters do, the order's [shipOrder] is called only after its
    [completePayment] resolved, and the two are then the only calls; and
    the dispatch resolves only when every method it called resolved. *)
Theorem shipping_only_after_payment
    (invoke : string -> obj -> result value) (order : obj) (r : result unit)
    (t : list string) :
  handleStatusChange invoke order = Some (r, t) ->
  (In "shipOrder" t ->
   resolved invoke order "completePayment" /\ t = ["completePayment"; "shipOrder"]) /\
  (r = Ok tt -> forall m, In m t -> resolved invoke order m).
Proof. exact (dispatch_calls invoke order r t). Qed.

(** ** The total after an update *)

(** X25. The total that the code derives is the sum of the price fields:
    for items that are records with a truthy [itemId] and the prices
    [prices], in this order, [calcTotal] returns the sum of [prices]
    taken from the left starting at 0, and a successful update of an
    order model that proposes these items returns a snapshot whose
    [orderTotal] is that sum. *)
Theorem update_total_is_sum_of_prices
    (S c S' : obj) (items : list value) (prices : list float) :
  order_model S ->
  get c orderItems = VArr items ->
  Forall2 priced items prices ->
  fst (processUpdate {| model := S; changes := c |}) = Ok S' ->
  calcTotal (VArr items) = Ok (sum_of prices) /\
  get S' orderTotal = VNum (sum_of prices).
Proof.
  intros Hmodel Hitems Hpriced H.
  split; [|exact (order_model_update_total S c S' items prices Hmodel Hitems Hpriced H)].
  destruct (order_model_update _ _ _ Hmodel H) as [_ Hprops].
  rewrite Hitems in Hprops. cbn [truthy] in Hprops.
  destruct Hprops as [[Hf _] | (total & _ & Hcalc & _)]; [discriminate|].
  exact (calcTotal_priced items prices (calcTotal_nonempty _ _ Hcalc) Hpriced).
Qed.

End Properties.

(** ** The properties at the sample data *)

Lemma sample_items_valid : valid_items sample_items.
Proof.
  split; [discriminate|].
  repeat constructor; eexists _, _; repeat split; reflexivity.
Qed.

Lemma sample_items_priced : Forall2 priced sample_items [90.22%float; 87.60%float].
Proof. repeat constructor; eexists; repeat split; reflexivity. Qed.

Lemma new_items_priced : Forall2 priced new_items [12.5%float; 30%float].
Proof. repeat constructor; eexists; repeat split; reflexivity. Qed.

(** The total of the repository's test order: 90.22 + 87.60. *)
Example sample_total :
  sum_of [90.22%float; 87.60%float] = 177.82%float /\
  calcTotal (VArr sample_items) = Ok 177.82%float.
Proof. split; vm_compute; reflexivity. Qed.

Lemma sample_order_is_order_model (status : value) : order_model (sample_order status).
Proof. left. split; reflexivity. Qed.

(** [processUpdate_atomic] on a shipped order whose shipping address is
    to change: the freeze guard throws and the order stays as it was. *)
Lemma processUpdate_atomic_witness :
  fst (processUpdate sample_encrypt sample_parse frozen_update)
  = Throw (ReadonlyUpdate [shippingAddress]) /\
  (forall S', fst (processUpdate sample_encrypt sample_parse frozen_update) <> Ok S') /\
  props (model (snd (processUpdate sample_encrypt sample_parse frozen_update)))
  = props (model frozen_update).
Proof.
  apply (processUpdate_atomic sample_encrypt sample_parse frozen_update
           (ReadonlyUpdate [shippingAddress])).
  left. exists Order.preSet. split; [reflexivity|].
  exists [], (FreezeProperties true frozenKeys),
    [UpdateProperties true totalUpdaters; AllowProperties true allowedKeys],
    (set_prevModel (changes frozen_update) (model frozen_update)).
  repeat split.
Defined.


(** [order_total_ceiling] on an order whose total is 9000087.82. *)
Lemma order_total_ceiling_witness :
  (PrimFloat.ltb MAXORDER 9000087.82%float = true ->
   exists e,
     validateProperties sample_parse (orderValidations Order.invalidStatusChanges)
       oversize_order = Throw e /\
     (e = InvalidStatusChange \/
      exists propKeys, e = InvalidValue propKeys /\ In orderTotal propKeys)) /\
  (PrimFloat.ltb 9000087.82%float MAXORDER = true ->
   validator_isValid sample_parse totalRule oversize_order (VNum 9000087.82%float)
   = Ok true /\
   forall propKeys,
     validateProperties sample_parse (orderValidations Order.invalidStatusChanges)
       oversize_order = Throw (InvalidValue propKeys) ->
     ~ In orderTotal propKeys).
Proof.
  apply (order_total_ceiling sample_parse Order.invalidStatusChanges oversize_order
           9000087.82%float).
  reflexivity.
Defined.

(** The order of the repository's test 'exceeds max order' is rejected
    with 'invalid value for orderTotal'. *)
Example oversize_order_rejected :
  PrimFloat.ltb MAXORDER 9000087.82%float = true /\
  validateProperties sample_parse (orderValidations Order.invalidStatusChanges)
    oversize_order = Throw (InvalidValue [orderTotal]) /\
  message (InvalidValue [orderTotal]) = "invalid value for orderTotal".
Proof. repeat split; vm_compute; reflexivity. Qed.

(** C4, the claim as stated fails twice.  A total above the ceiling on a
    snapshot whose status went from SHIPPING back to PENDING fails with
    'invalid status change', an error that does not name [orderTotal];
    and a total of exactly 99999.99, which is less than or equal to
    99999.99, fails the ceiling test and the validation. *)
Lemma order_total_claim_fails :
  (PrimFloat.ltb MAXORDER 9000087.82%float = true /\
   get oversize_reverted_order orderTotal = VNum 9000087.82%float /\
   validateProperties sample_parse (orderValidations Order.invalidStatusChanges)
     oversize_reverted_order = Throw InvalidStatusChange) /\
  (PrimFloat.leb 99999.99%float MAXORDER = true /\
   get ceiling_order orderTotal = VNum 99999.99%float /\
   validator_isValid sample_parse totalRule ceiling_order (VNum 99999.99%float)
   = Ok false /\
   validateProperties sample_parse (orderValidations Order.invalidStatusChanges)
     ceiling_order = Throw (InvalidValue [orderTotal])).
Proof. repeat split; vm_compute; reflexivity. Qed.

(** [guards_register_themselves] on the freeze guard of the order modules,
    applied in creation mode to an object without sets. *)
Lemma guards_register_themselves_witness :
  (is_require (FreezeProperties false frozenKeys) = false ->
   exists s stored,
     mixinSets (mixin_phase (FreezeProperties false frozenKeys))
       (updateMixins pre named_customer "freezeProperties"
          (FreezeProperties true frozenKeys)) = Some s /\
     find_mixin s (mixin_name (FreezeProperties false frozenKeys)) = Some stored /\
     ((forall s0,
          mixinSets (mixin_phase (FreezeProperties false frozenKeys)) named_customer
          = Some s0 ->
          has s0 (mixin_name (FreezeProperties false frozenKeys)) = false) ->
      stored = update_mode (FreezeProperties false frozenKeys))) /\
  (is_require (FreezeProperties false frozenKeys) = true ->
   updateMixins pre named_customer "freezeProperties" (FreezeProperties true frozenKeys)
   = named_customer).
Proof.
  apply (guards_register_themselves sample_encrypt sample_parse
           (FreezeProperties false frozenKeys) named_customer).
  reflexivity.
Defined.

(** The require guard, applied for the first time to an object on which
    it passes, returns that object with no mixin set at all. *)
Lemma require_registers_nothing :
  apply_mixin sample_encrypt sample_parse (RequireProperties [Name customerInfo])
    named_customer = Ok named_customer /\
  mixinSets pre named_customer = None /\
  mixinSets post named_customer = None /\
  ~ (exists s stored,
        mixinSets (mixin_phase (RequireProperties [Name customerInfo])) named_customer
        = Some s /\
        find_mixin s (mixin_name (RequireProperties [Name customerInfo])) = Some stored).
Proof.
  repeat split. intros (s & stored & Hs & _). discriminate.
Qed.

(** [frozen_after_approval] on a shipped order whose shipping address is to
    change. *)
Lemma frozen_after_approval_witness :
  exists mutations,
    freezeProperties true frozenKeys
      (set_prevModel (changes frozen_update) (model frozen_update))
    = Throw (ReadonlyUpdate mutations) /\
    fst (processUpdate sample_encrypt sample_parse frozen_update)
    = Throw (ReadonlyUpdate mutations) /\
    In shippingAddress mutations.
Proof.
  apply (frozen_after_approval sample_encrypt sample_parse
           (model frozen_update) (changes frozen_update) shippingAddress).
  - apply sample_order_is_order_model.
  - simpl. auto.
  - left. split; [discriminate | simpl; auto].
Defined.

Lemma sample_order_is_snapshot :
  snapshot sample_encrypt sample_parse (sample_order OrderStatus.PENDING).
Proof.
  destruct (order_model_sets_registered (sample_order OrderStatus.PENDING)
              (sample_order_is_order_model OrderStatus.PENDING)) as [Hpre Hpost].
  split; [exact Hpre|]. split; [exact Hpost|].
  eexists. vm_compute. reflexivity.
Qed.

(** [empty_update_keeps_properties] on a pending order. *)
Lemma empty_update_keeps_properties_witness :
  exists S',
    fst (processUpdate sample_encrypt sample_parse
           {| model := sample_order OrderStatus.PENDING; changes := plain [] |}) = Ok S' /\
    props S' = props (sample_order OrderStatus.PENDING).
Proof.
  apply (empty_update_keeps_properties sample_encrypt sample_parse
           (sample_order OrderStatus.PENDING)).
  exact sample_order_is_snapshot.
Defined.

(** [customerInfo_never_changes] on a pending order whose items change. *)
Lemma customerInfo_never_changes_witness :
  (In customerInfo (Object_keys (changes items_update)) ->
   exists mutations,
     fst (processUpdate sample_encrypt sample_parse
            {| model := model items_update; changes := changes items_update |})
     = Throw (ReadonlyUpdate mutations) /\
     In customerInfo mutations) /\
  (forall S',
      fst (processUpdate sample_encrypt sample_parse
             {| model := model items_update; changes := changes items_update |}) = Ok S' ->
      get S' customerInfo = get (model items_update) customerInfo).
Proof.
  apply (customerInfo_never_changes sample_encrypt sample_parse
           (model items_update) (changes items_update)).
  apply sample_order_is_order_model.
Defined.

(** A pending order refuses a change of [customerInfo]. *)
Example customerInfo_update_rejected :
  fst (processUpdate sample_encrypt sample_parse
         {| model := sample_order OrderStatus.PENDING;
            changes := plain [(customerInfo, VStr "user2")] |})
  = Throw (ReadonlyUpdate [customerInfo]).
Proof. vm_compute. reflexivity. Qed.

(** A shipped order refuses the step back to PENDING in both modules, and
    accepts its own status again. *)
Example shipping_to_pending_rejected :
  fst (processUpdate sample_encrypt sample_parse
         {| model := sample_order OrderStatus.SHIPPING;
            changes := plain [(orderStatus, OrderStatus.PENDING)] |})
  = Throw InvalidStatusChange /\
  fst (processUpdate sample_encrypt sample_parse
         {| model := sample_workflow_order OrderStatus.SHIPPING;
            changes := plain [(orderStatus, OrderStatus.PENDING)] |})
  = Throw InvalidStatusChange /\
  exists S',
    fst (processUpdate sample_encrypt sample_parse
           {| model := sample_workflow_order OrderStatus.SHIPPING;
              changes := plain [(orderStatus, OrderStatus.SHIPPING)] |}) = Ok S' /\
    get S' orderStatus = OrderStatus.SHIPPING.
Proof.
  split; [vm_compute; reflexivity|]. split; [vm_compute; reflexivity|].
  eexists. split; vm_compute; reflexivity.
Qed.

(** ** The further properties at the sample data *)

(** [freeze_guard_exact] on the change of address of a shipped order. *)
Lemma freeze_guard_exact_witness :
  freezeProperties true frozenKeys address_change
  = match filter (frozen_now (get (model frozen_update) orderStatus))
            (Object_keys address_change) with
    | [] => Ok (updateMixins pre address_change "freezeProperties"
                  (FreezeProperties true frozenKeys))
    | mutations => Throw (ReadonlyUpdate mutations)
    end.
Proof. apply (freeze_guard_exact address_change (model frozen_update)). reflexivity. Defined.

Example address_change_frozen :
  freezeProperties true frozenKeys address_change
  = Throw (ReadonlyUpdate [shippingAddress]).
Proof. reflexivity. Qed.

(** [transform_guards_exact] on the customer's name. *)
Lemma transform_guards_exact_witness :
  ([KStr customerInfo] = [] ->
   encryptProperties sample_encrypt [Name customerInfo] named_customer
   = Throw (TypeError "Reduce of empty array with no initial value") /\
   hashPasswords sample_encrypt [Name customerInfo] named_customer
   = Throw (TypeError "Reduce of empty array with no initial value")) /\
  ([KStr customerInfo] <> [] ->
   (exists o',
       encryptProperties sample_encrypt [Name customerInfo] named_customer = Ok o' /\
       Object_keys o' = Object_keys named_customer /\
       forall k, get o' k = transformed sample_encrypt [KStr customerInfo] named_customer k) /\
   (exists o',
       hashPasswords sample_encrypt [Name customerInfo] named_customer = Ok o' /\
       Object_keys o' = Object_keys named_customer /\
       forall k, get o' k = transformed sample_encrypt [KStr customerInfo] named_customer k)).
Proof.
  apply (transform_guards_exact sample_encrypt sample_encrypt [Name customerInfo]
           named_customer [KStr customerInfo]).
  reflexivity.
Defined.

Lemma items_update_result :
  fst (processUpdate sample_encrypt sample_parse
         {| model := model items_update; changes := changes items_update |})
  = Ok sample_updated.
Proof. vm_compute. reflexivity. Qed.

(** [order_model_sets_persist] on the update of the items. *)
Lemma order_model_sets_persist_witness :
  preMixins sample_updated = preMixins (model items_update) /\
  postMixins sample_updated = postMixins (model items_update) /\
  prevModel sample_updated = Some (model items_update) /\
  run_post sample_encrypt sample_parse sample_updated sample_updated = Ok sample_updated /\
  order_model sample_updated /\ snapshot sample_encrypt sample_parse sample_updated.
Proof.
  apply (order_model_sets_persist sample_encrypt sample_parse
           (model items_update) (changes items_update) sample_updated).
  - apply sample_order_is_order_model.
  - repeat split.
  - exact items_update_result.
Defined.

(** [order_mixins_register_sets] on the delivered order. *)
Lemma order_mixins_register_sets_witness :
  (compose sample_encrypt sample_parse Order.mixins delivered_order
   = Ok delivered_registered ->
   preMixins delivered_registered = Some Order.preSet /\
   postMixins delivered_registered = Some Order.postSet /\
   props delivered_registered = props delivered_order) /\
  (compose sample_encrypt sample_parse OrderWorkflow.orderMixins delivered_order
   = Ok delivered_registered ->
   preMixins delivered_registered = Some OrderWorkflow.preSet /\
   postMixins delivered_registered = Some OrderWorkflow.postSet /\
   props delivered_registered = props delivered_order).
Proof.
  apply (order_mixins_register_sets sample_encrypt sample_parse delivered_order
           delivered_registered); reflexivity.
Defined.

Example delivered_order_passes :
  compose sample_encrypt sample_parse Order.mixins delivered_order
  = Ok delivered_registered /\
  delivered_registered <> plain [].
Proof. split; [vm_compute; reflexivity | discriminate]. Qed.

(** [order_update_result_valid] on the update of the items. *)
Lemma order_update_result_valid_witness :
  (truthy (get sample_updated orderStatus) = true ->
   In (get sample_updated orderStatus) OrderStatus.values) /\
  (forall t, get sample_updated orderTotal = VNum t -> truthy (VNum t) = true ->
             PrimFloat.ltb t MAXORDER = true).
Proof.
  apply (order_update_result_valid sample_encrypt sample_parse
           (model items_update) (changes items_update) sample_updated).
  - apply sample_order_is_order_model.
  - exact items_update_result.
Defined.

(** [order_update_merges] on the update of the items. *)
Lemma order_update_merges_witness :
  (forall k, k <> orderTotal ->
             get sample_updated k
             = if has_key (props (changes items_update)) k
               then get (changes items_update) k else get (model items_update) k) /\
  (truthy (get (changes items_update) orderItems) = false ->
   get sample_updated orderTotal
   = if has_key (props (changes items_update)) orderTotal
     then get (changes items_update) orderTotal
     else get (model items_update) orderTotal) /\
  (forall k, has_key (props (model items_update)) k = true ->
             has_key (props sample_updated) k = true).
Proof.
  apply (order_update_merges sample_encrypt sample_parse
           (model items_update) (changes items_update) sample_updated).
  - apply sample_order_is_order_model.
  - exact items_update_result.
Defined.

(** [frozen_properties_unchanged] on the update of the items: the
    customer stays. *)
Lemma frozen_properties_unchanged_witness :
  get sample_updated customerInfo = get (model items_update) customerInfo.
Proof.
  apply (frozen_properties_unchanged sample_encrypt sample_parse
           (model items_update) (changes items_update) sample_updated customerInfo).
  - apply sample_order_is_order_model.
  - exact items_update_result.
  - reflexivity.
Defined.

Lemma reapproval_result :
  fst (processUpdate sample_encrypt sample_parse
         {| model := model reapproval; changes := changes reapproval |})
  = Ok reapproved_order.
Proof. vm_compute. reflexivity. Qed.

(** [order_update_takes_no_illegal_edge] on the one illegal edge that an
    update takes. *)
Lemma order_update_takes_no_illegal_edge_witness :
  carries (model reapproval) Order.preSet Order.postSet /\
  "SHIPPING" = "SHIPPING" /\ "APPROVED" = "APPROVED".
Proof.
  apply (order_update_takes_no_illegal_edge sample_encrypt sample_parse
           (model reapproval) (changes reapproval) reapproved_order
           "SHIPPING" "APPROVED").
  - apply sample_order_is_order_model.
  - exact reapproval_result.
  - reflexivity.
  - reflexivity.
  - constructor.
Defined.

Lemma delivery_proof_result :
  apply_updates sample_encrypt sample_parse (sample_order OrderStatus.COMPLETE)
    [delivery_proof] = Ok completed_with_proof.
Proof. vm_compute. reflexivity. Qed.

(** [terminal_status_is_final] on a complete order that receives its
    proof of delivery. *)
Lemma terminal_status_is_final_witness :
  get completed_with_proof orderStatus = get (sample_order OrderStatus.COMPLETE) orderStatus.
Proof.
  apply (terminal_status_is_final sample_encrypt sample_parse [delivery_proof]
           (sample_order OrderStatus.COMPLETE) completed_with_proof orderStatus).
  - apply sample_order_is_order_model.
  - repeat constructor.
  - left. reflexivity.
  - exact delivery_proof_result.
  - cbn. auto.
Defined.

Example delivery_proof_recorded :
  get completed_with_proof proofOfDelivery = VStr "signed".
Proof. vm_compute. reflexivity. Qed.

(** [order_update_accepted_exactly] on the update of the items. *)
Lemma order_update_accepted_exactly_witness :
  (update_accepted sample_parse true Order.invalidStatusChanges
     (model items_update) (changes items_update) = true ->
   exists S',
     fst (processUpdate sample_encrypt sample_parse
            {| model := model items_update; changes := changes items_update |}) = Ok S' /\
     merged_props (model items_update) (changes items_update) = Ok (props S')) /\
  (update_accepted sample_parse true Order.invalidStatusChanges
     (model items_update) (changes items_update) = false ->
   exists e,
     fst (processUpdate sample_encrypt sample_parse
            {| model := model items_update; changes := changes items_update |}) = Throw e).
Proof.
  apply (order_update_accepted_exactly sample_encrypt sample_parse
           (model items_update) (changes items_update) true Order.invalidStatusChanges).
  left. repeat split.
Defined.

Example items_update_accepted :
  update_accepted sample_parse true Order.invalidStatusChanges
    (model items_update) (changes items_update) = true /\
  update_accepted sample_parse true Order.invalidStatusChanges
    (model frozen_update) (changes frozen_update) = false.
Proof. split; vm_compute; reflexivity. Qed.

(** [falsy_status_resets_transitions] on a pending order that reaches
    COMPLETE, a step that the table forbids, by way of the empty
    string. *)
Lemma falsy_status_resets_transitions_witness :
  exists S',
    apply_updates sample_encrypt sample_parse (sample_order OrderStatus.PENDING)
      [plain [(orderStatus, VStr EmptyString)];
       plain [(orderStatus, OrderStatus.COMPLETE)]] = Ok S' /\
    get S' orderStatus = OrderStatus.COMPLETE.
Proof.
  apply (falsy_status_resets_transitions sample_encrypt sample_parse
           (sample_order OrderStatus.PENDING) true Order.invalidStatusChanges
           (VStr EmptyString) OrderStatus.COMPLETE).
  - left. repeat split.
  - reflexivity.
  - vm_compute. reflexivity.
  - reflexivity.
  - reflexivity.
Defined.

Example pending_to_complete_rejected :
  fst (processUpdate sample_encrypt sample_parse
         {| model := sample_order OrderStatus.PENDING;
            changes := plain [(orderStatus, OrderStatus.COMPLETE)] |})
  = Throw InvalidStatusChange.
Proof. vm_compute. reflexivity. Qed.

(** [unlisted_properties_unchanged] on the update of the items: the
    order number stays. *)
Lemma unlisted_properties_unchanged_witness :
  get sample_updated orderNo = get (model items_update) orderNo.
Proof.
  apply (unlisted_properties_unchanged sample_encrypt sample_parse
           (model items_update) (changes items_update) sample_updated orderNo).
  - split; reflexivity.
  - exact items_update_result.
  - reflexivity.
Defined.


(** [deletable_stays_deletable] on a complete order that receives its
    proof of delivery. *)
Lemma deletable_stays_deletable_witness :
  readyToDelete completed_with_proof = Ok completed_with_proof.
Proof.
  apply (deletable_stays_deletable sample_encrypt sample_parse [delivery_proof]
           (sample_order OrderStatus.COMPLETE) completed_with_proof).
  - apply sample_order_is_order_model.
  - repeat constructor.
  - reflexivity.
  - exact delivery_proof_result.
Defined.

Example pending_order_not_deletable :
  readyToDelete (sample_order OrderStatus.PENDING)
  = Throw (Rejected "order status incomplete").
Proof. reflexivity. Qed.

(** [shipping_only_after_payment] on an approved order whose adapters
    resolve. *)
Lemma shipping_only_after_payment_witness :
  (In "shipOrder" ["completePayment"; "shipOrder"] ->
   resolved sample_invoke approved_order "completePayment" /\
   ["completePayment"; "shipOrder"] = ["completePayment"; "shipOrder"]) /\
  (Ok tt = Ok tt ->
   forall m, In m ["completePayment"; "shipOrder"] -> resolved sample_invoke approved_order m).
Proof.
  apply (shipping_only_after_payment sample_invoke approved_order (Ok tt)
           ["completePayment"; "shipOrder"]).
  reflexivity.
Defined.

(** An approved order whose payment is rejected is not shipped. *)
Example rejected_payment_stops_shipping :
  handleStatusChange
    (fun name _ => if String.eqb name "completePayment"
                   then Throw (Rejected "card declined") else Ok VUndefined)
    approved_order
  = Some (Throw (Rejected "Error: card declined"), ["completePayment"]).
Proof. reflexivity. Qed.

(** [update_total_is_sum_of_prices] on the update of the items: the new
    total is 12.5 + 30. *)
Lemma update_total_is_sum_of_prices_witness :
  calcTotal (VArr new_items) = Ok (sum_of [12.5%float; 30%float]) /\
  get sample_updated orderTotal = VNum (sum_of [12.5%float; 30%float]).
Proof.
  apply (update_total_is_sum_of_prices sample_encrypt sample_parse
           (model items_update) (changes items_update) sample_updated
           new_items [12.5%float; 30%float]).
  - apply sample_order_is_order_model.
  - reflexivity.
  - exact new_items_priced.
  - exact items_update_result.
Defined.

Example new_total :
  sum_of [12.5%float; 30%float] = 42.5%float /\
  get sample_updated orderTotal = VNum 42.5%float.
Proof. split; vm_compute; reflexivity. Qed.
